(** * TaskFlow: session lifecycle, tenant resolution and permission gate

    A shallow embedding of the backend's authentication service
    (api/src/modules/auth/auth.service.ts), of the [authenticate] and
    [tenantContext] middlewares, of the global [errorHandler] and of the
    RBAC table of permission.middleware.ts, together with the properties
    of the specification that concern them.

    Conventions.
    - A [Date] is its number of milliseconds since the epoch, a [Z].
    - The relational store is a record of tables, each a list of rows in
      insertion order; unique indexes are enforced by [create], never
      assumed by [findUnique] or [deleteMany]. "OrganizationMember", which
      the code embedded here only reads, is listed in ascending order of
      its primary key, the order in which the client reads it under
      [take].
    - An [async] method is a function from the world before the call to
      its outcome (a thrown exception or a value) and the world after it.
    - utils/jwt, utils/password and date-fns are not part of the sources
      at hand: the functions imported from them are Section variables. *)

From Stdlib Require Import String List ZArith Bool Lia DecimalString.
Import ListNotations.
Open Scope string_scope.
Open Scope Z_scope.

Set Implicit Arguments.

(** Milliseconds since the epoch, as [Date.prototype.getTime] gives them. *)
Definition Time : Type := Z.

(** JavaScript truthiness of a possibly undefined string: [undefined],
    [null] and the empty string are falsy. *)
Definition truthy (s : option string) : bool :=
  match s with
  | Some v => negb (v =? "")%string
  | None => false
  end.

(** [a || b] on possibly undefined strings. *)
Definition js_or (a b : option string) : option string :=
  if truthy a then a else b.

(* ------------------------------------------------------------------ *)
(** ** Errors *)

(** [class AppError extends Error] of error.middleware.ts. *)
Record AppError : Type := mkAppError {
  message : string;
  statusCode : Z;
  code : string
}.

(** What a [throw] can carry through the service and the middlewares. *)
Inductive Exn : Type :=
| EApp (e : AppError)                       (* instanceof AppError *)
| EPrismaKnown (prismaCode : string)        (* Prisma.PrismaClientKnownRequestError *)
| EPrismaValidation                         (* Prisma.PrismaClientValidationError *)
| EError (name : string) (msg : string).    (* any other Error, with its [name] *)

(** The taxonomy of the specification (its section 7). *)
Inductive ErrorKind : Type :=
| ValidationError | EmailAlreadyExists | InvalidCredentials
| TokenInvalid | TokenExpired
| OrgAccessDenied | OrgInactive | OrganizationIdRequired
| PermissionDenied | UserNotFound.

(** The machine-readable [code] with which the sources report each kind;
    the registration conflict (409) goes out as "USER_EXISTS". *)
Definition kind_of_code (c : string) : option ErrorKind :=
  if (c =? "VALIDATION_ERROR")%string then Some ValidationError
  else if (c =? "USER_EXISTS")%string then Some EmailAlreadyExists
  else if (c =? "INVALID_CREDENTIALS")%string then Some InvalidCredentials
  else if (c =? "TOKEN_INVALID")%string then Some TokenInvalid
  else if (c =? "TOKEN_EXPIRED")%string then Some TokenExpired
  else if (c =? "ORG_ACCESS_DENIED")%string then Some OrgAccessDenied
  else if (c =? "ORG_INACTIVE")%string then Some OrgInactive
  else if (c =? "ORG_ID_REQUIRED")%string then Some OrganizationIdRequired
  else if (c =? "PERMISSION_DENIED")%string then Some PermissionDenied
  else if (c =? "USER_NOT_FOUND")%string then Some UserNotFound
  else None.

(** The kind of a thrown exception, when it is one of the taxonomy. *)
Definition kind_of_exn (e : Exn) : option ErrorKind :=
  match e with
  | EApp a => kind_of_code (code a)
  | _ => None
  end.

(* ------------------------------------------------------------------ *)
(** ** The relational store (prisma/migrations/.../migration.sql) *)

Module Prisma.

Inductive SubscriptionStatus : Type := ACTIVE | PAST_DUE | CANCELED | TRIALING.

Inductive OrgRole : Type := OWNER | ADMIN | MEMBER | GUEST.

(** The enum value as the string the client library hands to the code. *)
Definition role_name (r : OrgRole) : string :=
  match r with
  | OWNER => "OWNER"
  | ADMIN => "ADMIN"
  | MEMBER => "MEMBER"
  | GUEST => "GUEST"
  end.

Definition status_name (s : SubscriptionStatus) : string :=
  match s with
  | ACTIVE => "ACTIVE"
  | PAST_DUE => "PAST_DUE"
  | CANCELED => "CANCELED"
  | TRIALING => "TRIALING"
  end.

(** Table "User"; [password] is nullable. *)
Record User : Type := mkUser {
  user_id : string;
  user_email : string;
  user_name : option string;
  user_image : option string;
  user_password : option string;
  user_createdAt : Time
}.

(** Table "RefreshToken". *)
Record RefreshToken : Type := mkRefreshToken {
  rt_id : string;
  rt_token : string;
  rt_userId : string;
  rt_expiresAt : Time;
  rt_createdAt : Time
}.

(** Table "Organization" (the columns the code reads). *)
Record Organization : Type := mkOrganization {
  org_id : string;
  org_name : string;
  org_slug : string;
  org_subscriptionStatus : SubscriptionStatus
}.

(** Table "OrganizationMember". *)
Record OrganizationMember : Type := mkOrganizationMember {
  om_id : string;
  om_organizationId : string;
  om_userId : string;
  om_role : OrgRole
}.

(** The database: its tables and the number of ids handed out so far. *)
Record DB : Type := mkDB {
  users : list User;
  refreshTokens : list RefreshToken;
  organizations : list Organization;
  members : list OrganizationMember;
  nextId : nat
}.

(** A membership row with [include: { organization: true }]. *)
Record MemberWithOrg : Type := mkMemberWithOrg {
  mo_member : OrganizationMember;
  mo_organization : Organization
}.

(** A user row with its first memberships included. *)
Record UserWithMemberships : Type := mkUserWithMemberships {
  um_user : User;
  um_memberships : list MemberWithOrg
}.

(** A refresh-token row with [include: { user: { include: ... } }]. *)
Record RefreshTokenWithUser : Type := mkRefreshTokenWithUser {
  ru_row : RefreshToken;
  ru_user : UserWithMemberships
}.

(** The client's complaint when a required relation has no target row;
    the foreign keys of the schema rule it out. *)
Definition inconsistent : Exn :=
  EError "PrismaClientUnknownRequestError" "Inconsistent query result".

Definition user_by_email (d : DB) (email : string) : option User :=
  find (fun u => (user_email u =? email)%string) (users d).

Definition user_by_id (d : DB) (id : string) : option User :=
  find (fun u => (user_id u =? id)%string) (users d).

Definition organization_by_id (d : DB) (id : string) : option Organization :=
  find (fun o => (org_id o =? id)%string) (organizations d).

Definition refreshToken_by_token (d : DB) (t : string) : option RefreshToken :=
  find (fun r => (rt_token r =? t)%string) (refreshTokens d).

(** [organizationMember.findUnique({ where: { organizationId_userId } })]. *)
Definition member_by_org_user (d : DB) (orgId userId : string)
  : option OrganizationMember :=
  find (fun m => (om_organizationId m =? orgId)%string
                 && (om_userId m =? userId)%string) (members d).

(** [include: { organization: true }] on one membership row. *)
Definition include_organization (d : DB) (m : OrganizationMember)
  : Exn + MemberWithOrg :=
  match organization_by_id d (om_organizationId m) with
  | Some o => inr (mkMemberWithOrg m o)
  | None => inl inconsistent
  end.

Fixpoint include_organizations (d : DB) (ms : list OrganizationMember)
  : Exn + list MemberWithOrg :=
  match ms with
  | [] => inr []
  | m :: rest =>
      match include_organization d m with
      | inl e => inl e
      | inr mo =>
          match include_organizations d rest with
          | inl e => inl e
          | inr mos => inr (mo :: mos)
          end
      end
  end.

(** [memberships: { include: { organization: true }, take: 1 }]: the
    client orders the rows by primary key before it takes the first; the
    list [members d] is in that order. *)
Definition include_memberships (d : DB) (u : User)
  : Exn + UserWithMemberships :=
  let ms := firstn 1 (filter (fun m => (om_userId m =? user_id u)%string)
                             (members d)) in
  match include_organizations d ms with
  | inl e => inl e
  | inr mos => inr (mkUserWithMemberships u mos)
  end.

(** The foreign key "OrganizationMember_organizationId_fkey": every
    membership row points to a row of "Organization". *)
Definition member_fk (d : DB) : bool :=
  forallb (fun m => match organization_by_id d (om_organizationId m) with
                    | Some _ => true
                    | None => false
                    end)
          (members d).

(** [refreshToken.deleteMany({ where: { token } })]: every matching row goes. *)
Definition refreshToken_deleteMany (t : string) (d : DB) : DB :=
  mkDB (users d)
       (filter (fun r => negb (rt_token r =? t)%string) (refreshTokens d))
       (organizations d) (members d) (nextId d).

End Prisma.
Import Prisma.

(* ------------------------------------------------------------------ *)
(** ** The world of a request and the monad of [async] methods *)

(** Calls into utils/password, in the order they are made (what a mock
    of the module records). *)
Inductive Call : Type :=
| CallHashPassword (password : string)
| CallComparePassword (password hash : string).

Record World : Type := mkWorld {
  db : DB;
  calls : list Call
}.

(** An [async] computation: it may throw, and it may change the world
    before it throws. *)
Definition M (A : Type) : Type := World -> (Exn + A) * World.

Definition ret {A : Type} (a : A) : M A := fun w => (inr a, w).

Definition throw {A : Type} (e : Exn) : M A := fun w => (inl e, w).

Definition bind {A B : Type} (m : M A) (k : A -> M B) : M B :=
  fun w =>
    match m w with
    | (inl e, w') => (inl e, w')
    | (inr a, w') => k a w'
    end.

(** [try { m } catch (error) { h error }]. *)
Definition try_catch {A : Type} (m : M A) (h : Exn -> M A) : M A :=
  fun w =>
    match m w with
    | (inl e, w') => h e w'
    | (inr a, w') => (inr a, w')
    end.

(** A synchronous call that returns or throws, lifted. *)
Definition lift {A : Type} (r : Exn + A) : M A := fun w => (r, w).

(** A read of the database. *)
Definition query {A : Type} (f : DB -> A) : M A := fun w => (inr (f (db w)), w).

(** A read that may throw. *)
Definition query_exn {A : Type} (f : DB -> Exn + A) : M A :=
  fun w => (f (db w), w).

(** A write: the new database, or an exception and no change. *)
Definition update {A : Type} (f : DB -> Exn + (A * DB)) : M A :=
  fun w =>
    match f (db w) with
    | inl e => (inl e, w)
    | inr (a, d') => (inr a, mkWorld d' (calls w))
    end.

Definition record_call (c : Call) : M unit :=
  fun w => (inr tt, mkWorld (db w) (calls w ++ [c])).

Declare Scope async_scope.
Delimit Scope async_scope with async.
Notation "x <- m ;; k" := (bind m (fun x => k))
  (at level 61, m at next level, right associativity) : async_scope.
Notation "m ;;; k" := (bind m (fun _ => k))
  (at level 61, right associativity) : async_scope.
Open Scope async_scope.

(* ------------------------------------------------------------------ *)
(** ** Tokens (the interface of utils/jwt) *)

Module Jwt.

(** The claims of an access token, also what [verifyAccessToken] returns
    and [authenticate] stores in [req.user]. *)
Record TokenPayload : Type := mkTokenPayload {
  tp_userId : string;
  tp_email : string;
  tp_organizationId : option string;
  tp_role : option string
}.

(** The claims of a refresh token. *)
Record RefreshPayload : Type := mkRefreshPayload {
  rp_userId : string;
  rp_email : string
}.

(** The two errors of the jsonwebtoken library, by their [name]. *)
Definition JsonWebTokenError (msg : string) : Exn := EError "JsonWebTokenError" msg.
Definition TokenExpiredError (msg : string) : Exn := EError "TokenExpiredError" msg.

End Jwt.
Import Jwt.

(* ------------------------------------------------------------------ *)
(** ** AuthService (api/src/modules/auth/auth.service.ts) *)

Module AuthService.

(** What [register] returns as [user]: the [select]ed columns. *)
Record SelectedUser : Type := mkSelectedUser {
  su_id : string;
  su_name : option string;
  su_email : string;
  su_image : option string;
  su_createdAt : Time
}.

Record RegisterResult : Type := mkRegisterResult {
  reg_user : SelectedUser;
  reg_accessToken : string;
  reg_refreshToken : string
}.

Record LoginUser : Type := mkLoginUser {
  lu_id : string;
  lu_name : option string;
  lu_email : string;
  lu_image : option string
}.

Record LoginOrganization : Type := mkLoginOrganization {
  lo_id : string;
  lo_name : string;
  lo_slug : string;
  lo_role : OrgRole
}.

Record LoginResult : Type := mkLoginResult {
  login_user : LoginUser;
  login_accessToken : string;
  login_refreshToken : string;
  login_organizations : list LoginOrganization
}.

Record RefreshResult : Type := mkRefreshResult {
  refresh_accessToken : string;
  refresh_refreshToken : string
}.

Record LogoutResult : Type := mkLogoutResult {
  logout_message : string
}.

(** The three errors the service constructs. *)
Definition USER_EXISTS : AppError :=
  mkAppError "User with this email already exists" 409 "USER_EXISTS".

Definition INVALID_CREDENTIALS : AppError :=
  mkAppError "Invalid credentials" 401 "INVALID_CREDENTIALS".

Definition TOKEN_INVALID : AppError :=
  mkAppError "Invalid or expired refresh token" 401 "TOKEN_INVALID".

Section Service.

(** utils/password. *)
Variable hashPassword : string -> string.
Variable comparePassword : string -> string -> bool.

(** utils/jwt; issued-at and expiry are read off the clock. *)
Variable generateAccessToken : TokenPayload -> Time -> string.
Variable generateRefreshToken : RefreshPayload -> Time -> string.
Variable verifyRefreshToken : string -> Time -> Exn + RefreshPayload.

(** date-fns. *)
Variable addDays : Time -> Z -> Time.

(** The id generator behind the [id] columns' defaults. *)
Variable cuid : nat -> string.

(** [prisma.user.findUnique({ where: { email } })]. *)
Definition user_findUnique (email : string) : M (option User) :=
  query (fun d => user_by_email d email).

(** [prisma.user.create({ data: { name, email, password } })]; the
    unique index on "email" answers with P2002. *)
Definition user_create (now : Time) (name email password : string) : M User :=
  update (fun d =>
    match user_by_email d email with
    | Some _ => inl (EPrismaKnown "P2002")
    | None =>
        let u := mkUser (cuid (nextId d)) email (Some name) None
                        (Some password) now in
        inr (u, mkDB (users d ++ [u]) (refreshTokens d) (organizations d)
                     (members d) (S (nextId d)))
    end).

(** [prisma.refreshToken.create({ data: { token, userId, expiresAt } })];
    the unique index on "token" answers with P2002. *)
Definition refreshToken_create (now : Time) (token userId : string)
           (expiresAt : Time) : M RefreshToken :=
  update (fun d =>
    match refreshToken_by_token d token with
    | Some _ => inl (EPrismaKnown "P2002")
    | None =>
        let r := mkRefreshToken (cuid (nextId d)) token userId expiresAt now in
        inr (r, mkDB (users d) (refreshTokens d ++ [r]) (organizations d)
                     (members d) (S (nextId d)))
    end).

(** [prisma.user.findUnique({ where: { email }, include: { memberships:
    { include: { organization: true }, take: 1 } } })]. *)
Definition user_findUnique_memberships (email : string)
  : M (option UserWithMemberships) :=
  query_exn (fun d =>
    match user_by_email d email with
    | None => inr None
    | Some u =>
        match include_memberships d u with
        | inl e => inl e
        | inr um => inr (Some um)
        end
    end).

(** [prisma.refreshToken.findUnique({ where: { token }, include: { user:
    { include: { memberships: ... take: 1 } } } })]. *)
Definition refreshToken_findUnique_user (token : string)
  : M (option RefreshTokenWithUser) :=
  query_exn (fun d =>
    match refreshToken_by_token d token with
    | None => inr None
    | Some r =>
        match user_by_id d (rt_userId r) with
        | None => inl inconsistent
        | Some u =>
            match include_memberships d u with
            | inl e => inl e
            | inr um => inr (Some (mkRefreshTokenWithUser r um))
            end
        end
    end).

Definition call_hashPassword (password : string) : M string :=
  record_call (CallHashPassword password) ;;; ret (hashPassword password).

Definition call_comparePassword (password hash : string) : M bool :=
  record_call (CallComparePassword password hash) ;;;
  ret (comparePassword password hash).

(** [async register(name, email, password)]. *)
Definition register (now : Time) (name email password : string)
  : M RegisterResult :=
  existingUser <- user_findUnique email ;;
  match existingUser with
  | Some _ => throw (EApp USER_EXISTS)
  | None =>
      hashedPassword <- call_hashPassword password ;;
      created <- user_create now name email hashedPassword ;;
      let user := mkSelectedUser (user_id created) (user_name created)
                    (user_email created) (user_image created)
                    (user_createdAt created) in
      let accessToken :=
        generateAccessToken
          (mkTokenPayload (su_id user) (su_email user) None None) now in
      let refreshToken :=
        generateRefreshToken (mkRefreshPayload (su_id user) (su_email user)) now in
      refreshToken_create now refreshToken (su_id user) (addDays now 7) ;;;
      ret (mkRegisterResult user accessToken refreshToken)
  end.

(** [firstOrg?.organizationId] and [firstOrg?.role] of
    [user.memberships[0]]. *)
Definition firstOrg_claims (u : UserWithMemberships) : TokenPayload :=
  let firstOrg := hd_error (um_memberships u) in
  mkTokenPayload
    (user_id (um_user u)) (user_email (um_user u))
    (option_map (fun m => om_organizationId (mo_member m)) firstOrg)
    (option_map (fun m => role_name (om_role (mo_member m))) firstOrg).

(** [async login(email, password)]. *)
Definition login (now : Time) (email password : string) : M LoginResult :=
  found <- user_findUnique_memberships email ;;
  match found with
  | None => throw (EApp INVALID_CREDENTIALS)
  | Some user =>
      if negb (truthy (user_password (um_user user))) then
        throw (EApp INVALID_CREDENTIALS)
      else
        let stored :=
          match user_password (um_user user) with
          | Some h => h
          | None => ""
          end in
        isPasswordValid <- call_comparePassword password stored ;;
        if negb isPasswordValid then throw (EApp INVALID_CREDENTIALS)
        else
          let u := um_user user in
          let accessToken := generateAccessToken (firstOrg_claims user) now in
          let refreshToken :=
            generateRefreshToken (mkRefreshPayload (user_id u) (user_email u)) now in
          refreshToken_create now refreshToken (user_id u) (addDays now 7) ;;;
          ret (mkLoginResult
                 (mkLoginUser (user_id u) (user_name u) (user_email u)
                              (user_image u))
                 accessToken refreshToken
                 (map (fun m =>
                         mkLoginOrganization
                           (org_id (mo_organization m))
                           (org_name (mo_organization m))
                           (org_slug (mo_organization m))
                           (om_role (mo_member m)))
                      (um_memberships user)))
  end.

(** [async refreshAccessToken(refreshToken)]: the whole body is inside
    [try], and the [catch] replaces whatever was thrown. *)
Definition refreshAccessToken (now : Time) (refreshToken : string)
  : M RefreshResult :=
  try_catch
    (_payload <- lift (verifyRefreshToken refreshToken now) ;;
     storedToken <- refreshToken_findUnique_user refreshToken ;;
     match storedToken with
     | None => throw (EApp TOKEN_INVALID)
     | Some stored =>
         if rt_expiresAt (ru_row stored) <? now then throw (EApp TOKEN_INVALID)
         else
           let accessToken :=
             generateAccessToken (firstOrg_claims (ru_user stored)) now in
           ret (mkRefreshResult accessToken refreshToken)
     end)
    (fun _error => throw (EApp TOKEN_INVALID)).

(** [async logout(refreshToken)]. *)
Definition logout (refreshToken : string) : M LogoutResult :=
  fun w =>
    (inr (mkLogoutResult "Logged out successfully"),
     mkWorld (refreshToken_deleteMany refreshToken (db w)) (calls w)).

End Service.

End AuthService.

(* ------------------------------------------------------------------ *)
(** ** HTTP responses (api/src/utils/response.ts) *)

Module Http.

(** The [error] member of an [ApiResponse]; [details] is never given by
    the callers embedded here. *)
Record ApiError : Type := mkApiError {
  err_code : string;
  err_message : string
}.

(** What [res.status(statusCode).json({ success: false, error })] sends. *)
Record Response : Type := mkResponse {
  status : Z;
  success : bool;
  error : ApiError
}.

(** [errorResponse(res, message, statusCode = 500, code?)]. *)
Definition errorResponse (msg : string) (statusCode : option Z)
           (code : option string) : Response :=
  mkResponse
    (match statusCode with Some s => s | None => 500 end)
    false
    (mkApiError
       (match js_or code (Some "ERROR") with Some c => c | None => "ERROR" end)
       msg).

(** The request, with the members the middlewares read or set. *)
Record Request : Type := mkRequest {
  headers_authorization : option string;
  params_organizationId : option string;
  query_organizationId : option string;
  body_organizationId : option string;
  user : option TokenPayload;         (* AuthRequest.user *)
  organizationId : option string;     (* TenantRequest.organizationId *)
  orgRole : option string             (* TenantRequest.orgRole *)
}.

(** A middleware either answers or calls [next()] on the request as it
    left it. *)
Inductive Outcome : Type :=
| Respond (r : Response)
| Next (req : Request).

Definition set_user (req : Request) (p : TokenPayload) : Request :=
  mkRequest (headers_authorization req) (params_organizationId req)
            (query_organizationId req) (body_organizationId req)
            (Some p) (organizationId req) (orgRole req).

Definition set_tenant (req : Request) (orgId role : string) : Request :=
  mkRequest (headers_authorization req) (params_organizationId req)
            (query_organizationId req) (body_organizationId req)
            (user req) (Some orgId) (Some role).

(** The kind of the taxonomy a response reports. *)
Definition kind_of_response (r : Response) : option ErrorKind :=
  kind_of_code (err_code (error r)).

End Http.
Import Http.

(* ------------------------------------------------------------------ *)
(** ** errorHandler (api/src/middleware/error.middleware.ts) *)

Definition errorHandler (err : Exn) : Response :=
  match err with
  | EPrismaKnown c =>
      if (c =? "P2002")%string then
        errorResponse "Unique constraint violation" (Some 409) (Some "DUPLICATE_ENTRY")
      else if (c =? "P2025")%string then
        errorResponse "Record not found" (Some 404) (Some "NOT_FOUND")
      else
        errorResponse "Internal server error" (Some 500) (Some "INTERNAL_ERROR")
  | EPrismaValidation =>
      errorResponse "Invalid data provided" (Some 400) (Some "VALIDATION_ERROR")
  | EApp e =>
      errorResponse (message e) (Some (statusCode e)) (Some (code e))
  | EError name _ =>
      if (name =? "JsonWebTokenError")%string then
        errorResponse "Invalid token" (Some 401) (Some "TOKEN_INVALID")
      else if (name =? "TokenExpiredError")%string then
        errorResponse "Token expired" (Some 401) (Some "TOKEN_EXPIRED")
      else
        errorResponse "Internal server error" (Some 500) (Some "INTERNAL_ERROR")
  end.

(* ------------------------------------------------------------------ *)
(** ** authenticate (auth.middleware.ts) *)

Module AuthMiddleware.

(** The answer of the guard to whatever the verification throws. *)
Definition rejected : Response :=
  errorResponse "Invalid or expired token" (Some 401) (Some "TOKEN_INVALID").

Section Guard.

(** utils/jwt: returns the claims or throws. *)
Variable verifyAccessToken : string -> Time -> Exn + TokenPayload.

(** [authHeader.startsWith('Bearer ')]. *)
Definition startsWith_Bearer (h : string) : bool := prefix "Bearer " h.

(** [authHeader.substring(7)]. *)
Definition substring7 (h : string) : string :=
  substring 7 (String.length h - 7) h.

(** The outer [catch] (500, AUTH_ERROR) guards the reading of the header,
    which does not throw; the inner one is the [inl] branch below. *)
Definition authenticate (now : Time) (req : Request) : Outcome :=
  match headers_authorization req with
  | None =>
      Respond (errorResponse "No authorization token provided" (Some 401)
                             (Some "UNAUTHORIZED"))
  | Some authHeader =>
      if negb (truthy (Some authHeader)) || negb (startsWith_Bearer authHeader)
      then
        Respond (errorResponse "No authorization token provided" (Some 401)
                               (Some "UNAUTHORIZED"))
      else
        let token := substring7 authHeader in
        match verifyAccessToken token now with
        | inr payload => Next (set_user req payload)
        | inl _error =>
            Respond (errorResponse "Invalid or expired token" (Some 401)
                                   (Some "TOKEN_INVALID"))
        end
  end.

End Guard.

End AuthMiddleware.

(* ------------------------------------------------------------------ *)
(** ** tenantContext (tenant.middleware.ts) *)

Module TenantMiddleware.

(** [req.params.organizationId || req.query.organizationId ||
    req.body.organizationId]. *)
Definition requested_orgId (req : Request) : option string :=
  js_or (js_or (params_organizationId req) (query_organizationId req))
        (body_organizationId req).

(** The lookup of the membership with its organization; what it throws
    is caught by the middleware's own [catch]. *)
Definition membership_findUnique (d : DB) (orgId userId : string)
  : Exn + option MemberWithOrg :=
  match member_by_org_user d orgId userId with
  | None => inr None
  | Some m =>
      match include_organization d m with
      | inl e => inl e
      | inr mo => inr (Some mo)
      end
  end.

Definition tenantContext (d : DB) (req : Request) : Outcome :=
  match user req with
  | None =>
      Respond (errorResponse "Authentication required" (Some 401)
                             (Some "UNAUTHORIZED"))
  | Some u =>
      let orgId := requested_orgId req in
      if negb (truthy orgId) then
        Respond (errorResponse "Organization ID required" (Some 400)
                               (Some "ORG_ID_REQUIRED"))
      else
        let o := match orgId with Some o => o | None => "" end in
        match membership_findUnique d o (tp_userId u) with
        | inl _error =>
            Respond (errorResponse "Failed to validate organization context"
                                   (Some 500) (Some "TENANT_ERROR"))
        | inr None =>
            Respond (errorResponse "Access denied to this organization"
                                   (Some 403) (Some "ORG_ACCESS_DENIED"))
        | inr (Some membership) =>
            if negb (status_name (org_subscriptionStatus
                                    (mo_organization membership)) =? "ACTIVE")%string
            then
              Respond (errorResponse "Organization subscription is not active"
                                     (Some 403) (Some "ORG_INACTIVE"))
            else
              Next (set_tenant req o (role_name (om_role (mo_member membership))))
        end
  end.

End TenantMiddleware.

(* ------------------------------------------------------------------ *)
(** ** The RBAC table and its gate (permission.middleware.ts) *)

Module PermissionMiddleware.

(** [type Permission = keyof typeof permissions]. *)
Inductive Permission : Type :=
| organization_read | organization_update | organization_delete
| organization_billing
| member_invite | member_remove | member_update
| project_create | project_read | project_update | project_delete
| task_create | task_read | task_update | task_delete | task_assign
| comment_create | comment_update | comment_delete
| team_create | team_read | team_update | team_delete.

(** The key of the object literal. *)
Definition permission_key (p : Permission) : string :=
  match p with
  | organization_read => "organization:read"
  | organization_update => "organization:update"
  | organization_delete => "organization:delete"
  | organization_billing => "organization:billing"
  | member_invite => "member:invite"
  | member_remove => "member:remove"
  | member_update => "member:update"
  | project_create => "project:create"
  | project_read => "project:read"
  | project_update => "project:update"
  | project_delete => "project:delete"
  | task_create => "task:create"
  | task_read => "task:read"
  | task_update => "task:update"
  | task_delete => "task:delete"
  | task_assign => "task:assign"
  | comment_create => "comment:create"
  | comment_update => "comment:update"
  | comment_delete => "comment:delete"
  | team_create => "team:create"
  | team_read => "team:read"
  | team_update => "team:update"
  | team_delete => "team:delete"
  end.

Definition all_permissions : list Permission :=
  [ organization_read; organization_update; organization_delete;
    organization_billing;
    member_invite; member_remove; member_update;
    project_create; project_read; project_update; project_delete;
    task_create; task_read; task_update; task_delete; task_assign;
    comment_create; comment_update; comment_delete;
    team_create; team_read; team_update; team_delete ].

(** [export const permissions = { ... } as const]. *)
Definition permissions (p : Permission) : list string :=
  match p with
  | organization_read => ["OWNER"; "ADMIN"; "MEMBER"; "GUEST"]
  | organization_update => ["OWNER"; "ADMIN"]
  | organization_delete => ["OWNER"]
  | organization_billing => ["OWNER"]
  | member_invite => ["OWNER"; "ADMIN"]
  | member_remove => ["OWNER"; "ADMIN"]
  | member_update => ["OWNER"; "ADMIN"]
  | project_create => ["OWNER"; "ADMIN"; "MEMBER"]
  | project_read => ["OWNER"; "ADMIN"; "MEMBER"; "GUEST"]
  | project_update => ["OWNER"; "ADMIN"; "MEMBER"]
  | project_delete => ["OWNER"; "ADMIN"]
  | task_create => ["OWNER"; "ADMIN"; "MEMBER"]
  | task_read => ["OWNER"; "ADMIN"; "MEMBER"; "GUEST"]
  | task_update => ["OWNER"; "ADMIN"; "MEMBER"]
  | task_delete => ["OWNER"; "ADMIN"; "MEMBER"]
  | task_assign => ["OWNER"; "ADMIN"; "MEMBER"]
  | comment_create => ["OWNER"; "ADMIN"; "MEMBER"; "GUEST"]
  | comment_update => ["OWNER"; "ADMIN"; "MEMBER"]
  | comment_delete => ["OWNER"; "ADMIN"; "MEMBER"]
  | team_create => ["OWNER"; "ADMIN"]
  | team_read => ["OWNER"; "ADMIN"; "MEMBER"; "GUEST"]
  | team_update => ["OWNER"; "ADMIN"]
  | team_delete => ["OWNER"; "ADMIN"]
  end.

(** [Array.prototype.includes] on strings. *)
Definition includes (l : list string) (s : string) : bool :=
  existsb (fun x => (x =? s)%string) l.

(** [requirePermission(permission)] applied to a request. *)
Definition requirePermission (permission : Permission) (req : Request) : Outcome :=
  if negb (truthy (orgRole req)) then
    Respond (errorResponse "Organization role not found" (Some 403)
                           (Some "ROLE_MISSING"))
  else
    let allowedRoles := permissions permission in
    let role := match orgRole req with Some r => r | None => "" end in
    if negb (includes allowedRoles role) then
      Respond (errorResponse
                 ("Insufficient permissions. Required: " ++ permission_key permission)
                 (Some 403) (Some "PERMISSION_DENIED"))
    else Next req.

End PermissionMiddleware.

(* ------------------------------------------------------------------ *)
(** ** Sessions: sequences of service calls *)

Module Session.

Import AuthService.

(** One call of the service, as the controller makes it. *)
Inductive Op : Type :=
| OpRegister (name email password : string)
| OpLogin (email password : string)
| OpRefresh (refreshToken : string)
| OpLogout (refreshToken : string).

(** The service never writes to "Organization" or "OrganizationMember". *)
Definition same_tenants (w w' : World) : Prop :=
  organizations (db w') = organizations (db w)
  /\ members (db w') = members (db w).

(** No row of the store carries the token string [t]. *)
Definition absent (t : string) (w : World) : Prop :=
  refreshToken_by_token (db w) t = None.

Section Run.

Variable hashPassword : string -> string.
Variable comparePassword : string -> string -> bool.
Variable generateAccessToken : TokenPayload -> Time -> string.
Variable generateRefreshToken : RefreshPayload -> Time -> string.
Variable verifyRefreshToken : string -> Time -> Exn + RefreshPayload.
Variable addDays : Time -> Z -> Time.
Variable cuid : nat -> string.

(** The refresh token a call hands out (only a successful [register]
    or [login] issues one), and the world it leaves. *)
Definition step (now : Time) (op : Op) (w : World) : option string * World :=
  match op with
  | OpRegister name email password =>
      match register hashPassword generateAccessToken generateRefreshToken
                     addDays cuid now name email password w with
      | (inr r, w') => (Some (reg_refreshToken r), w')
      | (inl _, w') => (None, w')
      end
  | OpLogin email password =>
      match login comparePassword generateAccessToken generateRefreshToken
                  addDays cuid now email password w with
      | (inr r, w') => (Some (login_refreshToken r), w')
      | (inl _, w') => (None, w')
      end
  | OpRefresh t =>
      (None, snd (refreshAccessToken generateAccessToken verifyRefreshToken
                                     now t w))
  | OpLogout t => (None, snd (logout t w))
  end.

(** The world after a sequence of calls, each at its own time. *)
Fixpoint run (tr : list (Time * Op)) (w : World) : World :=
  match tr with
  | [] => w
  | (now, op) :: rest => run rest (snd (step now op w))
  end.

(** Whether some call of the sequence issues the token string [t]. *)
Fixpoint issues (t : string) (tr : list (Time * Op)) (w : World) : bool :=
  match tr with
  | [] => false
  | (now, op) :: rest =>
      match fst (step now op w) with
      | Some t' => (t' =? t)%string
      | None => false
      end
      || issues t rest (snd (step now op w))
  end.

End Run.

End Session.

(* ------------------------------------------------------------------ *)
(** ** A concrete instance of the utilities and of the store *)

Module Sample.

Definition hashPassword (p : string) : string := "bcrypt$" ++ p.

Definition comparePassword (p h : string) : bool := (h =? "bcrypt$" ++ p)%string.

Definition generateAccessToken (c : TokenPayload) (now : Time) : string :=
  "at." ++ tp_userId c.

(** Decimal digits of an instant. *)
Definition stamp (now : Time) : string :=
  NilEmpty.string_of_int (Z.to_int now).

Definition generateRefreshToken (c : RefreshPayload) (now : Time) : string :=
  "rt." ++ rp_userId c ++ "." ++ stamp now.

(** Tokens "rt.<user>" carry a good signature and no expiry. *)
Definition verifyRefreshToken (t : string) (now : Time) : Exn + RefreshPayload :=
  if prefix "rt." t
  then inr (mkRefreshPayload (substring 3 (String.length t - 3) t) "")
  else inl (JsonWebTokenError "invalid signature").

(** Tokens "at.<user>" are good, "old.<user>" are well signed and past
    their expiry, anything else fails the signature check. *)
Definition verifyAccessToken (t : string) (now : Time) : Exn + TokenPayload :=
  if prefix "at." t
  then inr (mkTokenPayload (substring 3 (String.length t - 3) t) "" None None)
  else if prefix "old." t
  then inl (TokenExpiredError "jwt expired")
  else inl (JsonWebTokenError "invalid signature").

Definition addDays (d : Time) (n : Z) : Time := d + n * 86400000.

Definition cuid (n : nat) : string :=
  "c" ++ NilEmpty.string_of_uint (Nat.to_uint n).

Definition alice : User :=
  mkUser "u1" "alice@x.com" (Some "Alice") None (Some "bcrypt$secret") 0.

(** An OAuth-only account: no password hash. *)
Definition oscar : User :=
  mkUser "u2" "oscar@x.com" (Some "Oscar") None None 0.

Definition acme : Organization := mkOrganization "o1" "Acme" "acme" ACTIVE.

Definition late : Organization := mkOrganization "o2" "Late" "late" PAST_DUE.

Definition alice_acme : OrganizationMember :=
  mkOrganizationMember "m1" "o1" "u1" ADMIN.

Definition alice_late : OrganizationMember :=
  mkOrganizationMember "m2" "o2" "u1" OWNER.

(** Alice's refresh token, good until time 1000. *)
Definition alice_token : RefreshToken :=
  mkRefreshToken "r1" "rt.u1.0" "u1" 1000 0.

Definition world0 : World :=
  mkWorld (mkDB [alice; oscar] [alice_token] [acme; late]
                [alice_acme; alice_late] 0)
          [].

Definition bearer (t : string) : Request :=
  mkRequest (Some ("Bearer " ++ t)) None None None None None None.

Definition tenant_request (u : string) (o : option string) : Request :=
  mkRequest None o None None (Some (mkTokenPayload u "" None None)) None None.

Definition role_request (r : option string) : Request :=
  mkRequest None None None None None None r.

Definition refresh (now : Time) (t : string) : M AuthService.RefreshResult :=
  AuthService.refreshAccessToken generateAccessToken verifyRefreshToken now t.

Definition login (now : Time) (e p : string) : M AuthService.LoginResult :=
  AuthService.login comparePassword generateAccessToken generateRefreshToken
                    addDays cuid now e p.

Definition register (now : Time) (n e p : string) : M AuthService.RegisterResult :=
  AuthService.register hashPassword generateAccessToken generateRefreshToken
                       addDays cuid now n e p.

End Sample.

(* ------------------------------------------------------------------ *)
(** ** More of the store *)

(** The foreign key "RefreshToken_userId_fkey": every refresh-token row
    points to a row of "User". *)
Definition token_fk (d : DB) : bool :=
  forallb (fun r => match user_by_id d (rt_userId r) with
                    | Some _ => true
                    | None => false
                    end)
          (refreshTokens d).

(** [m] is a row of "OrganizationMember" for the organization [o] and the
    user [u]. *)
Definition membership_row (d : DB) (o u : string) (m : OrganizationMember)
  : Prop :=
  In m (members d) /\ om_organizationId m = o /\ om_userId m = u.

(** The unique index "OrganizationMember_organizationId_userId_key". *)
Definition membership_key (d : DB) : Prop :=
  forall m m' : OrganizationMember,
    In m (members d) -> In m' (members d) ->
    om_organizationId m = om_organizationId m' ->
    om_userId m = om_userId m' -> m = m'.

(** [org] is the row of "Organization" with the id [o]. *)
Definition organization_row (d : DB) (o : string) (org : Organization) : Prop :=
  In org (organizations d) /\ org_id org = o.

(** The primary key "Organization_pkey". *)
Definition organization_key (d : DB) : Prop :=
  forall org org' : Organization,
    In org (organizations d) -> In org' (organizations d) ->
    org_id org = org_id org' -> org = org'.

(** The unique indexes "User_email_key" and "RefreshToken_token_key". *)
Definition unique_emails (d : DB) : Prop := NoDup (map user_email (users d)).

Definition unique_tokens (d : DB) : Prop := NoDup (map rt_token (refreshTokens d)).

(** [deleteMany({ where: { token: undefined } })]: the client drops a
    filter member that is [undefined], so every row matches. *)
Definition refreshToken_deleteAll (d : DB) : DB :=
  mkDB (users d) [] (organizations d) (members d) (nextId d).

(* ------------------------------------------------------------------ *)
(** ** AuthService.getCurrentUser (auth.service.ts) *)

Module CurrentUser.

(** The [select]ed columns, with every membership and its organization. *)
Record CurrentUser : Type := mkCurrentUser {
  cu_id : string;
  cu_name : option string;
  cu_email : string;
  cu_image : option string;
  cu_createdAt : Time;
  cu_memberships : list MemberWithOrg
}.

Definition USER_NOT_FOUND : AppError :=
  mkAppError "User not found" 404 "USER_NOT_FOUND".

(** [prisma.user.findUnique({ where: { id: userId }, select: { ...,
    memberships: { include: { organization: true } } } })]. *)
Definition user_findUnique_id (userId : string) : M (option CurrentUser) :=
  query_exn (fun d =>
    match user_by_id d userId with
    | None => inr None
    | Some u =>
        match include_organizations d
                (filter (fun m => (om_userId m =? user_id u)%string) (members d))
        with
        | inl e => inl e
        | inr mos =>
            inr (Some (mkCurrentUser (user_id u) (user_name u) (user_email u)
                                     (user_image u) (user_createdAt u) mos))
        end
    end).

(** [async getCurrentUser(userId)]. *)
Definition getCurrentUser (userId : string) : M CurrentUser :=
  found <- user_findUnique_id userId ;;
  match found with
  | None => throw (EApp USER_NOT_FOUND)
  | Some u => ret u
  end.

End CurrentUser.

(* ------------------------------------------------------------------ *)
(** ** AuthController (auth.controller.ts) behind the error handler *)

Module AuthController.

(** What a handler sends: [successResponse] or, through [next(error)] and
    [errorHandler], an error response. *)
Inductive Reply (A : Type) : Type :=
| Success (statusCode : Z) (data : A)
| Failure (r : Response).

Arguments Success {A} statusCode data.
Arguments Failure {A} r.

(** [successResponse(res, data, statusCode = 200)]. *)
Definition successResponse {A : Type} (data : A) (statusCode : option Z) : Reply A :=
  Success (match statusCode with Some s => s | None => 200 end) data.

(** [try { const result = await m; successResponse(res, result, code) }
    catch (error) { next(error) }], with [errorHandler] as the error
    middleware that answers ([sentryErrorHandler] only passes the error on). *)
Definition handle {A : Type} (statusCode : option Z) (m : M A)
  : World -> Reply A * World :=
  fun w =>
    match m w with
    | (inr result, w') => (successResponse result statusCode, w')
    | (inl err, w') => (Failure (errorHandler err), w')
    end.

(** The HTTP status a reply goes out with. *)
Definition reply_status {A : Type} (r : Reply A) : Z :=
  match r with
  | Success s _ => s
  | Failure resp => status resp
  end.

(** The machine-readable code of a reply, if it is an error. *)
Definition reply_code {A : Type} (r : Reply A) : option string :=
  match r with
  | Success _ _ => None
  | Failure resp => Some (err_code (error resp))
  end.

Section Controller.

Variable hashPassword : string -> string.
Variable comparePassword : string -> string -> bool.
Variable generateAccessToken : TokenPayload -> Time -> string.
Variable generateRefreshToken : RefreshPayload -> Time -> string.
Variable verifyRefreshToken : string -> Time -> Exn + RefreshPayload.
Variable addDays : Time -> Z -> Time.
Variable cuid : nat -> string.

(** POST /api/v1/auth/register, on a validated body. *)
Definition register (now : Time) (name email password : string) :=
  handle (Some 201)
         (AuthService.register hashPassword generateAccessToken
            generateRefreshToken addDays cuid now name email password).

(** POST /api/v1/auth/login, on a validated body. *)
Definition login (now : Time) (email password : string) :=
  handle None
         (AuthService.login comparePassword generateAccessToken
            generateRefreshToken addDays cuid now email password).

(** POST /api/v1/auth/refresh, on a validated body. *)
Definition refresh (now : Time) (refreshToken : string) :=
  handle None
         (AuthService.refreshAccessToken generateAccessToken verifyRefreshToken
            now refreshToken).

(** [req.body.refreshToken] as the JSON parser leaves it, the route
    having no validation: missing, or a scalar. An object, which the
    client would read as a filter, and an array are not covered. *)
Inductive BodyMember : Type :=
| Missing
| JNull
| JString (s : string)
| JNumber
| JBoolean (b : bool).

(** [authService.logout(refreshToken)] on that member. The client drops
    an [undefined] filter value and deletes every row; it refuses a value
    that is no string for the column "token" with a
    PrismaClientValidationError, before anything is deleted. *)
Definition logout_body (refreshToken : BodyMember) : M AuthService.LogoutResult :=
  match refreshToken with
  | JString t => AuthService.logout t
  | Missing =>
      fun w =>
        (inr (AuthService.mkLogoutResult "Logged out successfully"),
         mkWorld (refreshToken_deleteAll (db w)) (calls w))
  | JNull | JNumber | JBoolean _ => throw EPrismaValidation
  end.

(** POST /api/v1/auth/logout. *)
Definition logout (refreshToken : BodyMember) :=
  handle None (logout_body refreshToken).

(** GET /api/v1/auth/me, after the guard. *)
Definition getCurrentUser (req : Request) :=
  handle None
         (match user req with
          | None => throw (EError "Error" "User not authenticated")
          | Some u => CurrentUser.getCurrentUser (tp_userId u)
          end).

End Controller.

End AuthController.

(* ------------------------------------------------------------------ *)
(** ** optionalAuth (auth.middleware.ts) *)

Module OptionalAuth.

Import AuthMiddleware.

Section Guard.

Variable verifyAccessToken : string -> Time -> Exn + TokenPayload.

(** Both [catch] blocks end in [next()]: the middleware never answers. *)
Definition optionalAuth (now : Time) (req : Request) : Outcome :=
  match headers_authorization req with
  | None => Next req
  | Some authHeader =>
      if truthy (Some authHeader) && startsWith_Bearer authHeader then
        let token := substring7 authHeader in
        match verifyAccessToken token now with
        | inr payload => Next (set_user req payload)
        | inl _error => Next req
        end
      else Next req
  end.

End Guard.

End OptionalAuth.

(* ------------------------------------------------------------------ *)
(** ** requireRole, requireOwner, requireAdmin (permission.middleware.ts) *)

Module RoleGuards.

Import PermissionMiddleware.

(** [requireRole(roles)] applied to a request; [roles.join(', ')] is
    [String.concat]. *)
Definition requireRole (roles : list string) (req : Request) : Outcome :=
  if negb (truthy (orgRole req)) then
    Respond (errorResponse "Organization role not found" (Some 403)
                           (Some "ROLE_MISSING"))
  else
    let role := match orgRole req with Some r => r | None => "" end in
    if negb (includes roles role) then
      Respond (errorResponse
                 ("Insufficient role. Required one of: " ++ String.concat ", " roles)
                 (Some 403) (Some "ROLE_DENIED"))
    else Next req.

Definition requireOwner : Request -> Outcome := requireRole ["OWNER"].

Definition requireAdmin : Request -> Outcome := requireRole ["OWNER"; "ADMIN"].

(** The order OWNER > ADMIN > MEMBER > GUEST, as a rank. *)
Definition rank (r : OrgRole) : nat :=
  match r with
  | OWNER => 3
  | ADMIN => 2
  | MEMBER => 1
  | GUEST => 0
  end.

End RoleGuards.

(* ------------------------------------------------------------------ *)
(** ** applyTenantFilter (tenant.middleware.ts) *)

Module TenantFilter.

Section Filter.

(** The values of a [where] object, with the strings among them. *)
Variable V : Type.
Variable str : string -> V.

(** An object literal: its own keys in order, each once. *)
Definition Obj : Type := list (string * V).

Fixpoint get (k : string) (o : Obj) : option V :=
  match o with
  | [] => None
  | (k', v) :: rest => if (k' =? k)%string then Some v else get k rest
  end.

(** [{ ...o, k: v }]: an own key keeps its place and takes the new value,
    a new key goes last. *)
Fixpoint spread_set (o : Obj) (k : string) (v : V) : Obj :=
  match o with
  | [] => [(k, v)]
  | (k', v') :: rest =>
      if (k' =? k)%string then (k', v) :: rest
      else (k', v') :: spread_set rest k v
  end.

(** The [findMany] hook up to [query(args)]: the [where] handed on.
    ['organizationId' in args.where] is evaluated first and throws on
    [undefined]; the [|| true] makes the branch unconditional. *)
Definition findMany_where (orgId : string) (where_ : option Obj) : Exn + Obj :=
  match where_ with
  | None =>
      inl (EError "TypeError"
                  "Cannot use 'in' operator to search for 'organizationId' in undefined")
  | Some o => inr (spread_set o "organizationId" (str orgId))
  end.

End Filter.

End TenantFilter.

(* ------------------------------------------------------------------ *)
(** ** The socket handshake (sockets/index.ts, [io.use]) *)

Module Sockets.

Record Identity : Type := mkIdentity {
  socket_userId : string;
  socket_email : string
}.

Section Handshake.

Variable verifyAccessToken : string -> Time -> Exn + TokenPayload.

(** [socket.handshake.auth.token] through the authentication middleware:
    the error handed to [next], or the identity set on the socket. *)
Definition authenticate_socket (now : Time) (token : option string)
  : string + Identity :=
  if negb (truthy token) then inl "Authentication error: Token not provided"
  else
    match verifyAccessToken (match token with Some t => t | None => "" end) now with
    | inr payload => inr (mkIdentity (tp_userId payload) (tp_email payload))
    | inl _error => inl "Authentication error"
    end.

End Handshake.

End Sockets.

(* ------------------------------------------------------------------ *)
(** ** Routes (auth.routes.ts) and middleware chains *)

Module Routes.

Import AuthController.

Section Chains.

Variable verifyAccessToken : string -> Time -> Exn + TokenPayload.

(** [router.get('/me', authenticate, authController.getCurrentUser)]. *)
Definition me (now : Time) (req : Request) (w : World)
  : Reply CurrentUser.CurrentUser * World :=
  match AuthMiddleware.authenticate verifyAccessToken now req with
  | Respond r => (Failure r, w)
  | Next req' => getCurrentUser req' w
  end.

(** [authenticate, tenantContext, requirePermission(permission)], the
    chain in front of a tenant-scoped handler. *)
Definition tenant_chain (permission : PermissionMiddleware.Permission)
           (now : Time) (d : DB) (req : Request) : Outcome :=
  match AuthMiddleware.authenticate verifyAccessToken now req with
  | Respond r => Respond r
  | Next req1 =>
      match TenantMiddleware.tenantContext d req1 with
      | Respond r => Respond r
      | Next req2 => PermissionMiddleware.requirePermission permission req2
      end
  end.

End Chains.

End Routes.

(* ------------------------------------------------------------------ *)
(** ** The task store of the client (src/stores/taskStore.ts) *)

Module TaskStore.

Inductive ViewType : Type := LIST | BOARD | TIMELINE | CALENDAR | TABLE.

(** [Array.prototype.includes] on ids. *)
Definition includes (l : list string) (s : string) : bool :=
  existsb (fun x => (x =? s)%string) l.

Section Store.

(** A task with its id, partial updates with the object spread
    [{ ...task, ...updates }], and the filters, which the store only keeps. *)
Variable Task : Type.
Variable task_id : Task -> string.
Variable Updates : Type.
Variable merge : Task -> Updates -> Task.
Variable TaskFilters : Type.

Record TaskState : Type := mkTaskState {
  tasks : list Task;
  currentView : ViewType;
  filters : TaskFilters;
  selectedTasks : list string
}.

Definition setTasks (ts : list Task) (s : TaskState) : TaskState :=
  mkTaskState ts (currentView s) (filters s) (selectedTasks s).


Definition updateTask (taskId : string) (updates : Updates) (s : TaskState)
  : TaskState :=
  mkTaskState
    (map (fun task => if (task_id task =? taskId)%string
                      then merge task updates else task)
         (tasks s))
    (currentView s) (filters s) (selectedTasks s).


Definition toggleTaskSelection (taskId : string) (s : TaskState) : TaskState :=
  mkTaskState (tasks s) (currentView s) (filters s)
    (if includes (selectedTasks s) taskId
     then filter (fun id => negb (id =? taskId)%string) (selectedTasks s)
     else selectedTasks s ++ [taskId]).

Definition clearSelection (s : TaskState) : TaskState :=
  mkTaskState (tasks s) (currentView s) (filters s) [].

Definition selectAll (s : TaskState) : TaskState :=
  mkTaskState (tasks s) (currentView s) (filters s) (map task_id (tasks s)).

End Store.

End TaskStore.

(* ------------------------------------------------------------------ *)
(** ** More sample data *)

Module Sample2.

(** A store in which the token the generator will hand to the next
    registered user at time 5 is already taken. *)
Definition crowded : World :=
  mkWorld (mkDB [Sample.alice] [mkRefreshToken "r9" "rt.c0.5" "u1" 9000 0]
                [Sample.acme] [Sample.alice_acme] 0)
          [].

(** Alice's token row and a second session of hers. *)
Definition two_sessions : World :=
  mkWorld (mkDB [Sample.alice; Sample.oscar]
                [Sample.alice_token; mkRefreshToken "r2" "rt.u1.7" "u1" 5000 7]
                [Sample.acme; Sample.late]
                [Sample.alice_acme; Sample.alice_late] 0)
          [].

(** A Bearer request for an organization given in the URL. *)
Definition chain_request (t : string) (o : option string) : Request :=
  mkRequest (Some ("Bearer " ++ t)) o None None None None None.

(** Alice's login at time 5 on the sample store, and the world it leaves. *)
Definition alice_login : AuthService.LoginResult :=
  AuthService.mkLoginResult
    (AuthService.mkLoginUser "u1" (Some "Alice") "alice@x.com" None)
    "at.u1" "rt.u1.5"
    [AuthService.mkLoginOrganization "o1" "Acme" "acme" ADMIN].

Definition world_after_login : World :=
  mkWorld (mkDB [Sample.alice; Sample.oscar]
                [Sample.alice_token;
                 mkRefreshToken "c0" "rt.u1.5" "u1" 604800005 5]
                [Sample.acme; Sample.late]
                [Sample.alice_acme; Sample.alice_late] 1)
          [CallComparePassword "secret" "bcrypt$secret"].

(** Bob's registration at time 5 on the sample store, and the world it
    leaves. *)
Definition bob_registration : AuthService.RegisterResult :=
  AuthService.mkRegisterResult
    (AuthService.mkSelectedUser "c0" (Some "Bob") "bob@x.com" None 5)
    "at.c0" "rt.c0.5".

Definition world_after_registration : World :=
  mkWorld (mkDB [Sample.alice; Sample.oscar;
                 mkUser "c0" "bob@x.com" (Some "Bob") None (Some "bcrypt$pw") 5]
                [Sample.alice_token;
                 mkRefreshToken "c1" "rt.c0.5" "c0" 604800005 5]
                [Sample.acme; Sample.late]
                [Sample.alice_acme; Sample.alice_late] 2)
          [CallHashPassword "pw"].

(** A few calls, none of them a logout. *)
Definition busy_day : list (Time * Session.Op) :=
  [ (5, Session.OpRegister "Bob" "bob@x.com" "pw");
    (6, Session.OpLogin "alice@x.com" "secret");
    (7, Session.OpRefresh "rt.u1.0");
    (8, Session.OpRegister "Eve" "alice@x.com" "pw") ].

Definition run (tr : list (Time * Session.Op)) (w : World) : World :=
  Session.run Sample.hashPassword Sample.comparePassword
    Sample.generateAccessToken Sample.generateRefreshToken
    Sample.verifyRefreshToken Sample.addDays Sample.cuid tr w.

(** Tasks as pairs of an id and a title; an update replaces the title. *)
Definition task_id (t : string * string) : string := fst t.

Definition retitle (t : string * string) (title : string) : string * string :=
  (fst t, title).

Definition board : TaskStore.TaskState (string * string) unit :=
  TaskStore.mkTaskState [("t1", "Write"); ("t2", "Review")] TaskStore.LIST tt
                        ["t1"].

End Sample2.

(* ================================================================== *)
(** * Properties *)

Unset Implicit Arguments.

(** Unfolding of the monad's combinators. *)
Ltac async :=
  unfold bind, ret, throw, try_catch, lift, query, query_exn, update,
    record_call in *.

Create HintDb store.

(** ** The store *)

Section StoreFacts.

Lemma find_app_none (A : Type) (f : A -> bool) (l1 l2 : list A) :
  find f l1 = None -> find f (l1 ++ l2) = find f l2.
Proof.
  induction l1 as [|x l1 IH]; simpl; [reflexivity|].
  destruct (f x); [discriminate|exact IH].
Qed.

Lemma find_filter_none (A : Type) (f g : A -> bool) (l : list A) :
  find f l = None -> find f (filter g l) = None.
Proof.
  induction l as [|x l IH]; simpl; [reflexivity|].
  destruct (f x) eqn:Hf; [discriminate|].
  intros H. destruct (g x); simpl; [rewrite Hf|]; auto.
Qed.

Lemma find_filter_negb (A : Type) (f : A -> bool) (l : list A) :
  find f (filter (fun x => negb (f x)) l) = None.
Proof.
  induction l as [|x l IH]; simpl; [reflexivity|].
  destruct (f x) eqn:Hf; simpl; [exact IH|].
  rewrite Hf. exact IH.
Qed.

Lemma filter_idem (A : Type) (g : A -> bool) (l : list A) :
  filter g (filter g l) = filter g l.
Proof.
  induction l as [|x l IH]; simpl; [reflexivity|].
  destruct (g x) eqn:Hg; simpl; [rewrite Hg, IH|]; auto.
Qed.

(** After [deleteMany] on a token string, no row carries it. *)
Lemma deleteMany_absent (t : string) (d : DB) :
  refreshToken_by_token (refreshToken_deleteMany t d) t = None.
Proof.
  unfold refreshToken_by_token, refreshToken_deleteMany; simpl.
  apply (find_filter_negb _ (fun r => (rt_token r =? t)%string)).
Qed.

(** [deleteMany] on any string keeps an absent token absent. *)
Lemma deleteMany_keeps_absent (t t' : string) (d : DB) :
  refreshToken_by_token d t = None ->
  refreshToken_by_token (refreshToken_deleteMany t' d) t = None.
Proof.
  unfold refreshToken_by_token, refreshToken_deleteMany; simpl.
  apply find_filter_none.
Qed.

Lemma deleteMany_idem (t : string) (d : DB) :
  refreshToken_deleteMany t (refreshToken_deleteMany t d)
  = refreshToken_deleteMany t d.
Proof.
  unfold refreshToken_deleteMany; simpl. now rewrite filter_idem.
Qed.

End StoreFacts.

#[export] Hint Resolve deleteMany_absent deleteMany_keeps_absent : store.

(** ** refreshAccessToken and logout *)

Section RefreshFacts.

Import AuthService.

Variable generateAccessToken : TokenPayload -> Time -> string.
Variable verifyRefreshToken : string -> Time -> Exn + RefreshPayload.

Local Abbreviation refresh := (AuthService.refreshAccessToken generateAccessToken verifyRefreshToken).

(** The method never writes: whatever it answers, the world is as it was. *)
Lemma refreshAccessToken_world (now : Time) (t : string) (w : World) :
  snd (refresh now t w) = w.
Proof.
  unfold refreshAccessToken, refreshToken_findUnique_user. async.
  destruct (verifyRefreshToken t now); simpl; [reflexivity|].
  destruct (refreshToken_by_token (db w) t) as [row|]; simpl; [|reflexivity].
  destruct (user_by_id (db w) (rt_userId row)) as [u|]; simpl; [|reflexivity].
  destruct (include_memberships (db w) u); simpl; [reflexivity|].
  destruct (rt_expiresAt row <? now); reflexivity.
Qed.

(** The only exception that leaves the method is TOKEN_INVALID. *)
Lemma refreshAccessToken_throws (now : Time) (t : string) (w : World) (e : Exn) :
  fst (refresh now t w) = inl e -> e = EApp TOKEN_INVALID.
Proof.
  unfold refreshAccessToken, refreshToken_findUnique_user. async.
  destruct (verifyRefreshToken t now); simpl; [congruence|].
  destruct (refreshToken_by_token (db w) t) as [row|]; simpl; [|congruence].
  destruct (user_by_id (db w) (rt_userId row)) as [u|]; simpl; [|congruence].
  destruct (include_memberships (db w) u); simpl; [congruence|].
  destruct (rt_expiresAt row <? now); simpl; congruence.
Qed.

(** With no row for the token the method throws, whatever the verdict on
    the signature. *)
Lemma refreshAccessToken_absent (now : Time) (t : string) (w : World) :
  refreshToken_by_token (db w) t = None ->
  refresh now t w = (inl (EApp TOKEN_INVALID), w).
Proof.
  intros Habs.
  unfold refreshAccessToken, refreshToken_findUnique_user. async.
  destruct (verifyRefreshToken t now); simpl; [reflexivity|].
  now rewrite Habs.
Qed.

(** With a row past its stored expiry the method throws the same error. *)
Lemma refreshAccessToken_stale (now : Time) (t : string) (w : World)
      (row : RefreshToken) :
  refreshToken_by_token (db w) t = Some row ->
  rt_expiresAt row < now ->
  refresh now t w = (inl (EApp TOKEN_INVALID), w).
Proof.
  intros Hrow Hexp.
  unfold refreshAccessToken, refreshToken_findUnique_user. async.
  destruct (verifyRefreshToken t now); simpl; [reflexivity|].
  rewrite Hrow.
  destruct (user_by_id (db w) (rt_userId row)) as [u|]; simpl; [|reflexivity].
  destruct (include_memberships (db w) u); simpl; [reflexivity|].
  apply Z.ltb_lt in Hexp. now rewrite Hexp.
Qed.

End RefreshFacts.

(** ** Sessions: what a sequence of calls can do to one token string *)

Section SessionFacts.

Import AuthService Session.

Variable hashPassword : string -> string.
Variable comparePassword : string -> string -> bool.
Variable generateAccessToken : TokenPayload -> Time -> string.
Variable generateRefreshToken : RefreshPayload -> Time -> string.
Variable verifyRefreshToken : string -> Time -> Exn + RefreshPayload.
Variable addDays : Time -> Z -> Time.
Variable cuid : nat -> string.

Local Abbreviation step := (Session.step hashPassword comparePassword generateAccessToken
    generateRefreshToken verifyRefreshToken addDays cuid).
Local Abbreviation run := (Session.run hashPassword comparePassword generateAccessToken
    generateRefreshToken verifyRefreshToken addDays cuid).
Local Abbreviation issues := (Session.issues hashPassword comparePassword generateAccessToken
    generateRefreshToken verifyRefreshToken addDays cuid).

(** [refreshToken.create] of another string keeps [t] absent, whether the
    insertion goes through or hits the unique index. *)
Lemma refreshToken_create_absent (now : Time) (tok uid : string) (exp : Time)
      (t : string) (w : World) :
  absent t w ->
  match refreshToken_create cuid now tok uid exp w with
  | (inr _, w') => tok <> t -> absent t w'
  | (inl _, w') => absent t w'
  end.
Proof.
  unfold absent, refreshToken_create. async. intros Habs.
  destruct (refreshToken_by_token (db w) tok); simpl; [exact Habs|].
  intros Hne. unfold refreshToken_by_token in *; simpl.
  rewrite find_app_none by exact Habs. simpl.
  apply String.eqb_neq in Hne. now rewrite Hne.
Qed.

Lemma register_absent (now : Time) (name email password t : string) (w : World) :
  absent t w ->
  match register hashPassword generateAccessToken generateRefreshToken addDays
                 cuid now name email password w with
  | (inr r, w') => reg_refreshToken r <> t -> absent t w'
  | (inl _, w') => absent t w'
  end.
Proof.
  intros Habs. unfold register, user_findUnique, call_hashPassword, user_create.
  async. simpl.
  destruct (user_by_email (db w) email) eqn:Hu; simpl; [exact Habs|].
  rewrite Hu.
  match goal with
  | |- context [refreshToken_create cuid now ?tok ?uid ?exp ?w'] =>
      pose proof (refreshToken_create_absent now tok uid exp t w') as Hc;
      destruct (refreshToken_create cuid now tok uid exp w') as [[e|r] w'']
  end; simpl; apply Hc; exact Habs.
Qed.

Lemma login_absent (now : Time) (email password t : string) (w : World) :
  absent t w ->
  match login comparePassword generateAccessToken generateRefreshToken addDays
              cuid now email password w with
  | (inr r, w') => login_refreshToken r <> t -> absent t w'
  | (inl _, w') => absent t w'
  end.
Proof.
  intros Habs. unfold login, user_findUnique_memberships, call_comparePassword.
  async. simpl.
  destruct (user_by_email (db w) email) as [u|]; simpl; [|exact Habs].
  destruct (include_memberships (db w) u) as [e|um]; simpl; [exact Habs|].
  destruct (truthy (user_password (um_user um))); simpl; [|exact Habs].
  destruct (comparePassword password _); simpl; [|exact Habs].
  match goal with
  | |- context [refreshToken_create cuid now ?tok ?uid ?exp ?w'] =>
      pose proof (refreshToken_create_absent now tok uid exp t w') as Hc;
      destruct (refreshToken_create cuid now tok uid exp w') as [[e|r] w'']
  end; simpl; apply Hc; exact Habs.
Qed.

Lemma refreshToken_create_tenants (now : Time) (tok uid : string) (exp : Time)
      (w : World) :
  same_tenants w (snd (refreshToken_create cuid now tok uid exp w)).
Proof.
  unfold same_tenants, refreshToken_create. async.
  destruct (refreshToken_by_token (db w) tok); simpl; now split.
Qed.

(** Every call leaves the tenant tables, hence the membership foreign key,
    as they were. *)
Lemma step_tenants (now : Time) (op : Op) (w : World) :
  same_tenants w (snd (step now op w)).
Proof.
  unfold Session.step. destruct op as [n e p|e p|t'|t'].
  - unfold register, user_findUnique, call_hashPassword, user_create. async.
    simpl.
    destruct (user_by_email (db w) e) eqn:Hu; simpl; [now split|].
    rewrite Hu.
    match goal with
    | |- context [refreshToken_create cuid now ?tok ?uid ?exp ?w'] =>
        pose proof (refreshToken_create_tenants now tok uid exp w') as Hc;
        destruct (refreshToken_create cuid now tok uid exp w') as [[err|r] w'']
    end; exact Hc.
  - unfold login, user_findUnique_memberships, call_comparePassword. async.
    simpl.
    destruct (user_by_email (db w) e) as [u|]; simpl; [|now split].
    destruct (include_memberships (db w) u) as [err|um]; simpl; [now split|].
    destruct (truthy (user_password (um_user um))); simpl; [|now split].
    destruct (comparePassword p _); simpl; [|now split].
    match goal with
    | |- context [refreshToken_create cuid now ?tok ?uid ?exp ?w'] =>
        pose proof (refreshToken_create_tenants now tok uid exp w') as Hc;
        destruct (refreshToken_create cuid now tok uid exp w') as [[err|r] w'']
    end; exact Hc.
  - simpl. rewrite refreshAccessToken_world. now split.
  - simpl. now split.
Qed.

Lemma step_member_fk (now : Time) (op : Op) (w : World) :
  member_fk (db w) = true -> member_fk (db (snd (step now op w))) = true.
Proof.
  destruct (step_tenants now op w) as [Horg Hmem].
  unfold member_fk, organization_by_id. now rewrite Horg, Hmem.
Qed.

Lemma run_member_fk (tr : list (Time * Op)) (w : World) :
  member_fk (db w) = true -> member_fk (db (run tr w)) = true.
Proof.
  revert w. induction tr as [|[now op] tr IH]; intros w Hfk; simpl.
  - exact Hfk.
  - apply IH. now apply step_member_fk.
Qed.

(** A call that does not hand out [t] leaves it absent. *)
Lemma step_absent (now : Time) (op : Op) (t : string) (w : World) :
  absent t w ->
  match fst (step now op w) with
  | Some t' => (t' =? t)%string
  | None => false
  end = false ->
  absent t (snd (step now op w)).
Proof.
  intros Habs. unfold Session.step. destruct op as [n e p|e p|t'|t'].
  - pose proof (register_absent now n e p t w Habs) as H.
    destruct (register _ _ _ _ _ now n e p w) as [[err|r] w']; simpl; intros Hiss.
    + exact H.
    + apply H. now apply String.eqb_neq.
  - pose proof (login_absent now e p t w Habs) as H.
    destruct (login _ _ _ _ _ now e p w) as [[err|r] w']; simpl; intros Hiss.
    + exact H.
    + apply H. now apply String.eqb_neq.
  - intros _. simpl. now rewrite refreshAccessToken_world.
  - intros _. simpl. unfold absent. simpl. auto with store.
Qed.

(** Along a sequence of calls none of which hands out [t], it stays absent. *)
Lemma run_absent (tr : list (Time * Op)) (t : string) (w : World) :
  absent t w -> issues t tr w = false -> absent t (run tr w).
Proof.
  revert w. induction tr as [|[now op] tr IH]; intros w Habs Hiss; simpl.
  - exact Habs.
  - simpl in Hiss. apply orb_false_iff in Hiss.
    destruct Hiss as [Hhere Hrest].
    apply IH; [|exact Hrest]. now apply step_absent.
Qed.

End SessionFacts.

(** ** The refresh-token lifecycle *)

Section Lifecycle.

Import AuthService Session.

Variable hashPassword : string -> string.
Variable comparePassword : string -> string -> bool.
Variable generateAccessToken : TokenPayload -> Time -> string.
Variable generateRefreshToken : RefreshPayload -> Time -> string.
Variable verifyRefreshToken : string -> Time -> Exn + RefreshPayload.
Variable addDays : Time -> Z -> Time.
Variable cuid : nat -> string.

Local Abbreviation refresh := (AuthService.refreshAccessToken generateAccessToken verifyRefreshToken).
Local Abbreviation run := (Session.run hashPassword comparePassword generateAccessToken
    generateRefreshToken verifyRefreshToken addDays cuid).
Local Abbreviation issues := (Session.issues hashPassword comparePassword generateAccessToken
    generateRefreshToken verifyRefreshToken addDays cuid).

(** C1, as amended. For every refresh token string [t] whose signature
    verifies: if a row for [t] exists in the refresh-token store but its
    stored expiry is earlier than the current time, [refreshAccessToken t]
    throws the 401 error with code TOKEN_INVALID (kind [TokenInvalid]); if
    no row for [t] exists it throws that very same error. The two failures
    are one and the same error value, and neither touches the world. *)
Theorem refreshAccessToken_stale_or_absent_token_invalid
        (now : Time) (t : string) (w : World) (payload : RefreshPayload)
        (Hsig : verifyRefreshToken t now = inr payload) :
  (forall row : RefreshToken,
      refreshToken_by_token (db w) t = Some row ->
      rt_expiresAt row < now ->
      refresh now t w = (inl (EApp TOKEN_INVALID), w))
  /\ (refreshToken_by_token (db w) t = None ->
      refresh now t w = (inl (EApp TOKEN_INVALID), w))
  /\ statusCode TOKEN_INVALID = 401
  /\ kind_of_exn (EApp TOKEN_INVALID) = Some TokenInvalid.
Proof.
  clear Hsig. repeat split.
  - intros row Hrow Hexp.
    now apply refreshAccessToken_stale with (row := row).
  - intros Habs. now apply refreshAccessToken_absent.
Qed.

(** C7. For every refresh token string [t]: after [logout t] completes,
    and after any further sequence of service calls none of which issues
    the string [t] again, [refreshAccessToken t] throws TOKEN_INVALID (kind
    [TokenInvalid]) and mints nothing. *)
Theorem logout_then_refresh_token_invalid
        (t : string) (w : World) (tr : list (Time * Op)) (now : Time)
        (Hfresh : issues t tr (snd (logout t w)) = false) :
  let w' := run tr (snd (logout t w)) in
  refresh now t w' = (inl (EApp TOKEN_INVALID), w')
  /\ kind_of_exn (EApp TOKEN_INVALID) = Some TokenInvalid.
Proof.
  simpl. split; [|reflexivity].
  apply refreshAccessToken_absent.
  apply run_absent; [|exact Hfresh].
  unfold absent, logout; simpl. auto with store.
Qed.

(** C8. [logout] is idempotent: for every refresh token string and every
    world it returns the acknowledgement (it never throws, also when no row
    matches), and a second [logout] of the same string succeeds as well and
    leaves the world exactly as the first one left it. *)
Theorem logout_idempotent (t : string) (w : World) :
  let ack := mkLogoutResult "Logged out successfully" in
  fst (logout t w) = inr ack
  /\ fst (logout t (snd (logout t w))) = inr ack
  /\ snd (logout t (snd (logout t w))) = snd (logout t w).
Proof.
  simpl. repeat split. unfold logout; simpl. now rewrite deleteMany_idem.
Qed.

(** C9. On every successful [refreshAccessToken t] the refresh token of the
    result is [t] itself, and the world after the call is the world before
    it: no row of any table is deleted, inserted or updated. *)
Theorem refreshAccessToken_no_rotation
        (now : Time) (t : string) (w w' : World) (r : RefreshResult)
        (Hok : refresh now t w = (inr r, w')) :
  refresh_refreshToken r = t
  /\ w' = w
  /\ refreshTokens (db w') = refreshTokens (db w).
Proof.
  assert (Hw : w' = w).
  { pose proof (refreshAccessToken_world generateAccessToken verifyRefreshToken
                                         now t w) as H.
    rewrite Hok in H. exact H. }
  subst w'. repeat split.
  revert Hok. unfold refreshAccessToken, refreshToken_findUnique_user.
  async.
  destruct (verifyRefreshToken t now); simpl; [discriminate|].
  destruct (refreshToken_by_token (db w) t) as [row|]; simpl; [|discriminate].
  destruct (user_by_id (db w) (rt_userId row)) as [u|]; simpl; [|discriminate].
  destruct (include_memberships (db w) u); simpl; [discriminate|].
  destruct (rt_expiresAt row <? now); simpl; [discriminate|].
  intros H. now inversion H.
Qed.

End Lifecycle.

(** *** The lifecycle on the sample store *)

(** Alice's token, whose row expired at 1000, presented at 2000. *)
Lemma refreshAccessToken_stale_or_absent_token_invalid_witness :
  Sample.verifyRefreshToken "rt.u1.0" 2000 = inr (mkRefreshPayload "u1.0" "")
  /\ refreshToken_by_token (db Sample.world0) "rt.u1.0" = Some Sample.alice_token
  /\ rt_expiresAt Sample.alice_token < 2000
  /\ Sample.refresh 2000 "rt.u1.0" Sample.world0
     = (inl (EApp AuthService.TOKEN_INVALID), Sample.world0).
Proof.
  assert (Hsig : Sample.verifyRefreshToken "rt.u1.0" 2000
                 = inr (mkRefreshPayload "u1.0" "")) by reflexivity.
  assert (Hrow : refreshToken_by_token (db Sample.world0) "rt.u1.0"
                 = Some Sample.alice_token) by reflexivity.
  assert (Hexp : rt_expiresAt Sample.alice_token < 2000) by reflexivity.
  split; [exact Hsig|]. split; [exact Hrow|]. split; [exact Hexp|].
  exact (proj1 (@refreshAccessToken_stale_or_absent_token_invalid
                  Sample.generateAccessToken Sample.verifyRefreshToken
                  2000 "rt.u1.0" Sample.world0 (mkRefreshPayload "u1.0" "") Hsig)
               Sample.alice_token Hrow Hexp).
Defined.

(** C1 as the specification states it fails: the signature of "rt.u1.0"
    verifies, its row is in the store and expired at 1000, and at time 2000
    [refreshAccessToken] throws TOKEN_INVALID, not an error of kind
    [TokenExpired]; the string "rt.u7.0", which has no row, gets the very
    same error. *)
Lemma refreshAccessToken_stale_not_token_expired :
  Sample.verifyRefreshToken "rt.u1.0" 2000 = inr (mkRefreshPayload "u1.0" "")
  /\ refreshToken_by_token (db Sample.world0) "rt.u1.0" = Some Sample.alice_token
  /\ rt_expiresAt Sample.alice_token < 2000
  /\ fst (Sample.refresh 2000 "rt.u1.0" Sample.world0)
     = inl (EApp AuthService.TOKEN_INVALID)
  /\ kind_of_exn (EApp AuthService.TOKEN_INVALID) <> Some TokenExpired
  /\ refreshToken_by_token (db Sample.world0) "rt.u7.0" = None
  /\ fst (Sample.refresh 2000 "rt.u7.0" Sample.world0)
     = fst (Sample.refresh 2000 "rt.u1.0" Sample.world0).
Proof.
  repeat split; try reflexivity. vm_compute. discriminate.
Qed.

(** Alice logs out, logs in again at 5 (a new token string), refreshes
    with the old string at 6, Bob registers at 7; at 8 the old string is
    still refused. *)
Lemma logout_then_refresh_token_invalid_witness :
  let tr := [ (5, Session.OpLogin "alice@x.com" "secret");
              (6, Session.OpRefresh "rt.u1.0");
              (7, Session.OpRegister "Bob" "bob@x.com" "pw") ] in
  let w' := Session.run Sample.hashPassword Sample.comparePassword
              Sample.generateAccessToken Sample.generateRefreshToken
              Sample.verifyRefreshToken Sample.addDays Sample.cuid tr
              (snd (AuthService.logout "rt.u1.0" Sample.world0)) in
  Session.issues Sample.hashPassword Sample.comparePassword
    Sample.generateAccessToken Sample.generateRefreshToken
    Sample.verifyRefreshToken Sample.addDays Sample.cuid "rt.u1.0" tr
    (snd (AuthService.logout "rt.u1.0" Sample.world0)) = false
  /\ Sample.refresh 8 "rt.u1.0" w' = (inl (EApp AuthService.TOKEN_INVALID), w').
Proof.
  intros tr w'.
  assert (Hfresh :
            Session.issues Sample.hashPassword Sample.comparePassword
              Sample.generateAccessToken Sample.generateRefreshToken
              Sample.verifyRefreshToken Sample.addDays Sample.cuid "rt.u1.0" tr
              (snd (AuthService.logout "rt.u1.0" Sample.world0)) = false)
    by reflexivity.
  split; [exact Hfresh|].
  exact (proj1 (@logout_then_refresh_token_invalid
                  Sample.hashPassword Sample.comparePassword
                  Sample.generateAccessToken Sample.generateRefreshToken
                  Sample.verifyRefreshToken Sample.addDays Sample.cuid
                  "rt.u1.0" Sample.world0 tr 8 Hfresh)).
Defined.

(** Alice's token presented at 500, before its expiry. *)
Lemma refreshAccessToken_no_rotation_witness :
  Sample.refresh 500 "rt.u1.0" Sample.world0
  = (inr (AuthService.mkRefreshResult "at.u1" "rt.u1.0"), Sample.world0)
  /\ AuthService.refresh_refreshToken (AuthService.mkRefreshResult "at.u1" "rt.u1.0")
     = "rt.u1.0"
  /\ Sample.world0 = Sample.world0.
Proof.
  assert (Hok : Sample.refresh 500 "rt.u1.0" Sample.world0
                = (inr (AuthService.mkRefreshResult "at.u1" "rt.u1.0"),
                   Sample.world0)) by reflexivity.
  split; [exact Hok|].
  pose proof (@refreshAccessToken_no_rotation
                Sample.generateAccessToken Sample.verifyRefreshToken
                500 "rt.u1.0" Sample.world0 Sample.world0
                (AuthService.mkRefreshResult "at.u1" "rt.u1.0") Hok) as [H1 [H2 _]].
  split; [exact H1|exact H2].
Defined.

(** ** register and login *)

Section CredentialFacts.

Import AuthService.

(** Under the foreign key of the membership table the included
    organizations are always found. *)
Lemma include_organizations_total (d : DB) (ms : list OrganizationMember) :
  (forall m, In m ms -> In m (members d)) ->
  member_fk d = true ->
  exists mos, include_organizations d ms = inr mos.
Proof.
  intros Hin Hfk. unfold member_fk in Hfk. rewrite forallb_forall in Hfk.
  induction ms as [|m ms IH]; simpl.
  - now exists [].
  - destruct IH as [mos Hmos]; [intros m' Hm'; apply Hin; now right|].
    unfold include_organization.
    specialize (Hfk m (Hin m (or_introl eq_refl))).
    destruct (organization_by_id d (om_organizationId m)) as [o|]; [|discriminate].
    rewrite Hmos. eauto.
Qed.

Lemma include_memberships_total (d : DB) (u : User) :
  member_fk d = true ->
  exists mos, include_memberships d u = inr (mkUserWithMemberships u mos).
Proof.
  intros Hfk. unfold include_memberships.
  destruct (include_organizations_total d
              (firstn 1 (filter (fun m => (om_userId m =? user_id u)%string)
                                (members d)))) as [mos Hmos]; [|exact Hfk|].
  - intros m Hm.
    pose proof (firstn_skipn 1 (filter (fun m => (om_userId m =? user_id u)%string)
                                       (members d))) as Hsplit.
    assert (Hf : In m (filter (fun m => (om_userId m =? user_id u)%string)
                              (members d))).
    { rewrite <- Hsplit. apply in_or_app. now left. }
    apply filter_In in Hf. tauto.
  - rewrite Hmos. eauto.
Qed.

Variable hashPassword : string -> string.
Variable comparePassword : string -> string -> bool.
Variable generateAccessToken : TokenPayload -> Time -> string.
Variable generateRefreshToken : RefreshPayload -> Time -> string.
Variable addDays : Time -> Z -> Time.
Variable cuid : nat -> string.

Local Abbreviation login :=
  (AuthService.login comparePassword generateAccessToken generateRefreshToken
                     addDays cuid).
Local Abbreviation register :=
  (AuthService.register hashPassword generateAccessToken generateRefreshToken
                        addDays cuid).

(** C5. For every email and password: when no user row matches the email,
    and when a row matches but the password does not verify against its
    stored hash, [login] throws one and the same error value, the 401
    INVALID_CREDENTIALS (kind [InvalidCredentials]), and leaves the database
    as it was: message, status and code give the caller nothing to tell
    the two causes apart. *)
Theorem login_failures_indistinguishable
        (now : Time) (email password : string) (w : World)
        (Hfk : member_fk (db w) = true) :
  (user_by_email (db w) email = None ->
   fst (login now email password w) = inl (EApp INVALID_CREDENTIALS)
   /\ db (snd (login now email password w)) = db w)
  /\ (forall (u : User) (h : string),
         user_by_email (db w) email = Some u ->
         user_password u = Some h ->
         comparePassword password h = false ->
         fst (login now email password w) = inl (EApp INVALID_CREDENTIALS)
         /\ db (snd (login now email password w)) = db w)
  /\ statusCode INVALID_CREDENTIALS = 401
  /\ kind_of_exn (EApp INVALID_CREDENTIALS) = Some InvalidCredentials.
Proof.
  split; [|split; [|split; reflexivity]].
  - intros Hnone.
    unfold AuthService.login, user_findUnique_memberships. async.
    now rewrite Hnone.
  - intros u h Hu Hh Hcmp.
    unfold AuthService.login, user_findUnique_memberships, call_comparePassword.
    async. rewrite Hu.
    destruct (include_memberships_total (db w) u Hfk) as [mos ->]. simpl.
    rewrite Hh. destruct (truthy (Some h)); simpl; [|now split].
    now rewrite Hcmp.
Qed.

(** C6. In every world in which a user row with the email exists,
    [register] throws the 409 error USER_EXISTS (kind [EmailAlreadyExists])
    and the world after the call is the world before it: no row is added
    to "User" or to "RefreshToken", no id is consumed and the password
    hasher is not even called. *)
Theorem register_existing_email
        (now : Time) (name email password : string) (w : World) (u : User)
        (Hexists : user_by_email (db w) email = Some u) :
  register now name email password w = (inl (EApp USER_EXISTS), w)
  /\ statusCode USER_EXISTS = 409
  /\ kind_of_exn (EApp USER_EXISTS) = Some EmailAlreadyExists.
Proof.
  repeat split. unfold AuthService.register, user_findUnique. async.
  now rewrite Hexists.
Qed.

(** C10. For every user row whose stored password hash is null, [login]
    with that row's email and any password throws INVALID_CREDENTIALS, the
    error of an unknown email or a wrong password, and the world after the
    call is the world before it; in particular no call of [comparePassword]
    is recorded. *)
Theorem login_null_password
        (now : Time) (email password : string) (w : World) (u : User)
        (Hfk : member_fk (db w) = true)
        (Huser : user_by_email (db w) email = Some u)
        (Hnull : user_password u = None) :
  login now email password w = (inl (EApp INVALID_CREDENTIALS), w)
  /\ calls (snd (login now email password w)) = calls w
  /\ kind_of_exn (EApp INVALID_CREDENTIALS) = Some InvalidCredentials.
Proof.
  assert (H : login now email password w = (inl (EApp INVALID_CREDENTIALS), w)).
  { unfold AuthService.login, user_findUnique_memberships. async.
    rewrite Huser.
    destruct (include_memberships_total (db w) u Hfk) as [mos ->]. simpl.
    now rewrite Hnull. }
  rewrite H. repeat split.
Qed.

End CredentialFacts.

(** *** register and login on the sample store *)

(** Alice with a wrong password, where the stored hash is compared. *)
Lemma login_failures_indistinguishable_witness :
  member_fk (db Sample.world0) = true
  /\ user_by_email (db Sample.world0) "alice@x.com" = Some Sample.alice
  /\ user_password Sample.alice = Some "bcrypt$secret"
  /\ Sample.comparePassword "guess" "bcrypt$secret" = false
  /\ fst (Sample.login 5 "alice@x.com" "guess" Sample.world0)
     = inl (EApp AuthService.INVALID_CREDENTIALS)
  /\ db (snd (Sample.login 5 "alice@x.com" "guess" Sample.world0))
     = db Sample.world0.
Proof.
  assert (Hfk : member_fk (db Sample.world0) = true) by reflexivity.
  assert (Hu : user_by_email (db Sample.world0) "alice@x.com" = Some Sample.alice)
    by reflexivity.
  assert (Hh : user_password Sample.alice = Some "bcrypt$secret") by reflexivity.
  assert (Hcmp : Sample.comparePassword "guess" "bcrypt$secret" = false)
    by reflexivity.
  split; [exact Hfk|]. split; [exact Hu|]. split; [exact Hh|].
  split; [exact Hcmp|].
  exact (proj1 (proj2 (@login_failures_indistinguishable
                         Sample.comparePassword Sample.generateAccessToken
                         Sample.generateRefreshToken Sample.addDays Sample.cuid
                         5 "alice@x.com" "guess" Sample.world0 Hfk))
               Sample.alice "bcrypt$secret" Hu Hh Hcmp).
Defined.

(** A second registration with Alice's email. *)
Lemma register_existing_email_witness :
  user_by_email (db Sample.world0) "alice@x.com" = Some Sample.alice
  /\ Sample.register 5 "Eve" "alice@x.com" "pw" Sample.world0
     = (inl (EApp AuthService.USER_EXISTS), Sample.world0).
Proof.
  assert (Hu : user_by_email (db Sample.world0) "alice@x.com" = Some Sample.alice)
    by reflexivity.
  split; [exact Hu|].
  exact (proj1 (@register_existing_email
                  Sample.hashPassword Sample.generateAccessToken
                  Sample.generateRefreshToken Sample.addDays Sample.cuid
                  5 "Eve" "alice@x.com" "pw" Sample.world0 Sample.alice Hu)).
Defined.

(** Oscar has no password hash. *)
Lemma login_null_password_witness :
  member_fk (db Sample.world0) = true
  /\ user_by_email (db Sample.world0) "oscar@x.com" = Some Sample.oscar
  /\ user_password Sample.oscar = None
  /\ Sample.login 5 "oscar@x.com" "anything" Sample.world0
     = (inl (EApp AuthService.INVALID_CREDENTIALS), Sample.world0).
Proof.
  assert (Hfk : member_fk (db Sample.world0) = true) by reflexivity.
  assert (Hu : user_by_email (db Sample.world0) "oscar@x.com" = Some Sample.oscar)
    by reflexivity.
  assert (Hn : user_password Sample.oscar = None) by reflexivity.
  split; [exact Hfk|]. split; [exact Hu|]. split; [exact Hn|].
  exact (proj1 (@login_null_password
                  Sample.comparePassword Sample.generateAccessToken
                  Sample.generateRefreshToken Sample.addDays Sample.cuid
                  5 "oscar@x.com" "anything" Sample.world0 Sample.oscar
                  Hfk Hu Hn)).
Defined.

(** ** The authentication guard *)

Section GuardFacts.

Import AuthMiddleware.

Lemma substring_whole (s : string) : substring 0 (String.length s) s = s.
Proof. induction s as [|c s IH]; simpl; [reflexivity|now rewrite IH]. Qed.

Lemma substring7_Bearer (tok : string) : substring7 ("Bearer " ++ tok) = tok.
Proof. unfold substring7. simpl. rewrite Nat.sub_0_r. apply substring_whole. Qed.

Lemma startsWith_Bearer_app (tok : string) :
  startsWith_Bearer ("Bearer " ++ tok) = true.
Proof. unfold startsWith_Bearer. simpl. now destruct tok. Qed.

(** What the global handler would answer to the two errors of the token
    library, had they reached it. *)
Lemma errorHandler_jwt (m : string) :
  err_code (error (errorHandler (TokenExpiredError m))) = "TOKEN_EXPIRED"
  /\ err_code (error (errorHandler (JsonWebTokenError m))) = "TOKEN_INVALID".
Proof. split; reflexivity. Qed.

Variable verifyAccessToken : string -> Time -> Exn + TokenPayload.

Local Abbreviation authenticate := (AuthMiddleware.authenticate verifyAccessToken).

(** On a Bearer header the guard's answer is decided by the verification
    alone, and every exception of it is answered alike. *)
Lemma authenticate_Bearer (now : Time) (req : Request) (tok : string) :
  headers_authorization req = Some ("Bearer " ++ tok) ->
  authenticate now req =
  match verifyAccessToken tok now with
  | inr payload => Next (set_user req payload)
  | inl _ => Respond rejected
  end.
Proof.
  intros Hhdr. unfold AuthMiddleware.authenticate. rewrite Hhdr.
  rewrite startsWith_Bearer_app, substring7_Bearer. reflexivity.
Qed.

(** C2, as amended. For every request carrying a Bearer access token: if
    the token's signature is valid but its expiry has passed (the
    verification throws TokenExpiredError) the guard answers 401 with the
    code TOKEN_INVALID, and if the signature does not verify (it throws
    JsonWebTokenError) the guard gives that very same answer; both are 401
    responses of kind [TokenInvalid], with one machine-readable code. *)
Theorem authenticate_rejects_with_token_invalid
        (now : Time) (req : Request) (tok : string)
        (Hhdr : headers_authorization req = Some ("Bearer " ++ tok)) :
  (forall m : string,
      verifyAccessToken tok now = inl (TokenExpiredError m) ->
      authenticate now req = Respond rejected)
  /\ (forall m : string,
         verifyAccessToken tok now = inl (JsonWebTokenError m) ->
         authenticate now req = Respond rejected)
  /\ status rejected = 401
  /\ err_code (error rejected) = "TOKEN_INVALID"
  /\ kind_of_response rejected = Some TokenInvalid.
Proof.
  split; [|split; [|repeat split]].
  - intros m Hver.
    now rewrite (authenticate_Bearer now req tok Hhdr), Hver.
  - intros m Hver.
    now rewrite (authenticate_Bearer now req tok Hhdr), Hver.
Qed.

End GuardFacts.

(** An expired, well-signed token on the sample verifier. *)
Lemma authenticate_rejects_with_token_invalid_witness :
  headers_authorization (Sample.bearer "old.u1") = Some ("Bearer " ++ "old.u1")
  /\ Sample.verifyAccessToken "old.u1" 5 = inl (TokenExpiredError "jwt expired")
  /\ AuthMiddleware.authenticate Sample.verifyAccessToken 5 (Sample.bearer "old.u1")
     = Respond AuthMiddleware.rejected.
Proof.
  assert (Hhdr : headers_authorization (Sample.bearer "old.u1")
                 = Some ("Bearer " ++ "old.u1")) by reflexivity.
  assert (Hver : Sample.verifyAccessToken "old.u1" 5
                 = inl (TokenExpiredError "jwt expired")) by reflexivity.
  split; [exact Hhdr|]. split; [exact Hver|].
  exact (proj1 (@authenticate_rejects_with_token_invalid
                  Sample.verifyAccessToken 5 (Sample.bearer "old.u1") "old.u1"
                  Hhdr)
               "jwt expired" Hver).
Defined.

(** C2 as the specification states it fails: the token "old.u1" is well
    signed and expired (its verification throws TokenExpiredError), and the
    guard answers 401 with code TOKEN_INVALID, not with a code of kind
    [TokenExpired]; the badly signed "xx" gets the very same response. *)
Lemma authenticate_expired_not_token_expired :
  Sample.verifyAccessToken "old.u1" 5 = inl (TokenExpiredError "jwt expired")
  /\ Sample.verifyAccessToken "xx" 5 = inl (JsonWebTokenError "invalid signature")
  /\ AuthMiddleware.authenticate Sample.verifyAccessToken 5 (Sample.bearer "old.u1")
     = Respond AuthMiddleware.rejected
  /\ kind_of_response AuthMiddleware.rejected <> Some TokenExpired
  /\ AuthMiddleware.authenticate Sample.verifyAccessToken 5 (Sample.bearer "xx")
     = AuthMiddleware.authenticate Sample.verifyAccessToken 5
         (Sample.bearer "old.u1").
Proof.
  split; [reflexivity|]. split; [reflexivity|]. split; [reflexivity|].
  split; [vm_compute; discriminate|reflexivity].
Qed.

(** ** Tenant resolution *)

Section TenantFacts.

Import TenantMiddleware.

Lemma status_name_ACTIVE (s : SubscriptionStatus) :
  (status_name s =? "ACTIVE")%string = true <-> s = ACTIVE.
Proof. destruct s; simpl; split; intros H; congruence. Qed.

Lemma truthy_Some (o : option string) :
  truthy o = true -> exists s, o = Some s /\ s <> "".
Proof.
  destruct o as [s|]; simpl; [|discriminate]. intros H. exists s. split; [reflexivity|].
  apply String.eqb_neq. now destruct (s =? "")%string.
Qed.

(** The lookup by the unique index answers with a row of the table for
    that organization and that user. *)
Lemma member_by_org_user_row (d : DB) (o u : string) (m : OrganizationMember) :
  member_by_org_user d o u = Some m -> membership_row d o u m.
Proof.
  unfold member_by_org_user, membership_row. intros H.
  apply find_some in H. destruct H as [Hin Hp].
  apply andb_true_iff in Hp. destruct Hp as [Ho Hu].
  apply String.eqb_eq in Ho, Hu. auto.
Qed.

(** It answers with nothing exactly when the table has no such row. *)
Lemma member_by_org_user_none (d : DB) (o u : string) :
  member_by_org_user d o u = None
  <-> forall m : OrganizationMember, ~ membership_row d o u m.
Proof.
  split.
  - intros Hnone m (Hin & Ho & Hu). unfold member_by_org_user in Hnone.
    pose proof (find_none _ _ Hnone m Hin) as Hp. simpl in Hp.
    rewrite Ho, Hu, !String.eqb_refl in Hp. discriminate.
  - intros Hno. destruct (member_by_org_user d o u) as [m|] eqn:E;
      [|reflexivity].
    exfalso. apply (Hno m). now apply member_by_org_user_row.
Qed.

(** Under the unique index the row of a pair is the one it answers with. *)
Lemma member_by_org_user_found (d : DB) (o u : string) (m : OrganizationMember) :
  membership_key d -> membership_row d o u m ->
  member_by_org_user d o u = Some m.
Proof.
  intros Hkey Hrow. destruct (member_by_org_user d o u) as [m'|] eqn:E.
  - apply member_by_org_user_row in E.
    destruct Hrow as (Hin & Ho & Hu), E as (Hin' & Ho' & Hu').
    f_equal. apply Hkey; congruence.
  - exfalso. apply (proj1 (member_by_org_user_none d o u) E m Hrow).
Qed.

Lemma organization_by_id_row (d : DB) (o : string) (org : Organization) :
  organization_by_id d o = Some org -> organization_row d o org.
Proof.
  unfold organization_by_id, organization_row. intros H.
  apply find_some in H. destruct H as [Hin Hp].
  apply String.eqb_eq in Hp. auto.
Qed.

Lemma organization_by_id_found (d : DB) (o : string) (org : Organization) :
  organization_key d -> organization_row d o org ->
  organization_by_id d o = Some org.
Proof.
  intros Hkey (Hin & Hid). destruct (organization_by_id d o) as [org'|] eqn:E.
  - apply organization_by_id_row in E. destruct E as (Hin' & Hid').
    f_equal. apply Hkey; congruence.
  - exfalso. unfold organization_by_id in E.
    pose proof (find_none _ _ E org Hin) as Hp. simpl in Hp.
    now rewrite Hid, String.eqb_refl in Hp.
Qed.

(** C3. For every authenticated user [u] and every request: tenant
    resolution answers ORG_ID_REQUIRED when no organization id is supplied;
    otherwise ORG_ACCESS_DENIED when "OrganizationMember" has no row for the
    pair (o, u); otherwise ORG_INACTIVE when the subscription status of the
    row of "Organization" with the id o is not ACTIVE, although a
    membership row for (o, u) exists; otherwise it goes on with the
    organization id o and exactly the role of the membership row of
    (o, u); and whenever it goes on, the table has a row for (o, u), the
    organization o is ACTIVE, and the role set on the request is the role
    of that row. The rows are those of the tables themselves; the unique
    index on (organizationId, userId) and the primary key of
    "Organization" say which row is meant where there is one. *)
Theorem tenantContext_resolution
        (d : DB) (req : Request) (u : TokenPayload)
        (Huser : user req = Some u) :
  (truthy (requested_orgId req) = false ->
   tenantContext d req
   = Respond (errorResponse "Organization ID required" (Some 400)
                            (Some "ORG_ID_REQUIRED")))
  /\ (forall o : string,
         requested_orgId req = Some o -> o <> "" ->
         (forall m : OrganizationMember,
             ~ membership_row d o (tp_userId u) m) ->
         tenantContext d req
         = Respond (errorResponse "Access denied to this organization" (Some 403)
                                  (Some "ORG_ACCESS_DENIED")))
  /\ (forall (o : string) (m : OrganizationMember) (org : Organization),
         requested_orgId req = Some o -> o <> "" ->
         organization_key d ->
         membership_row d o (tp_userId u) m ->
         organization_row d o org ->
         org_subscriptionStatus org <> ACTIVE ->
         tenantContext d req
         = Respond (errorResponse "Organization subscription is not active"
                                  (Some 403) (Some "ORG_INACTIVE")))
  /\ (forall (o : string) (m : OrganizationMember) (org : Organization),
         requested_orgId req = Some o -> o <> "" ->
         membership_key d -> organization_key d ->
         membership_row d o (tp_userId u) m ->
         organization_row d o org ->
         org_subscriptionStatus org = ACTIVE ->
         tenantContext d req = Next (set_tenant req o (role_name (om_role m))))
  /\ (forall req' : Request,
         tenantContext d req = Next req' ->
         exists (o : string) (m : OrganizationMember) (org : Organization),
           requested_orgId req = Some o /\ o <> ""
           /\ membership_row d o (tp_userId u) m
           /\ organization_row d o org
           /\ org_subscriptionStatus org = ACTIVE
           /\ organizationId req' = Some o
           /\ orgRole req' = Some (role_name (om_role m)))
  /\ kind_of_code "ORG_ID_REQUIRED" = Some OrganizationIdRequired
  /\ kind_of_code "ORG_ACCESS_DENIED" = Some OrgAccessDenied
  /\ kind_of_code "ORG_INACTIVE" = Some OrgInactive.
Proof.
  assert (Htruthy : forall o, requested_orgId req = Some o -> o <> "" ->
                              truthy (requested_orgId req) = true).
  { intros o Ho Hne. rewrite Ho. simpl. apply String.eqb_neq in Hne.
    now rewrite Hne. }
  split; [|split; [|split; [|split; [|split; [|repeat split]]]]].
  - intros Hfalsy. unfold tenantContext. now rewrite Huser, Hfalsy.
  - intros o Ho Hne Hnone. unfold tenantContext, membership_findUnique.
    rewrite Huser, (Htruthy o Ho Hne), Ho. simpl.
    now rewrite (proj2 (member_by_org_user_none d o (tp_userId u)) Hnone).
  - intros o m org Ho Hne Hokey Hm Horg Hstatus.
    destruct (member_by_org_user d o (tp_userId u)) as [m'|] eqn:Hm';
      [|exfalso; apply (proj1 (member_by_org_user_none d o (tp_userId u)) Hm' m Hm)].
    pose proof (member_by_org_user_row d o (tp_userId u) m' Hm') as (_ & Ho' & _).
    pose proof (organization_by_id_found d o org Hokey Horg) as Hfound.
    unfold tenantContext, membership_findUnique, include_organization.
    rewrite Huser, (Htruthy o Ho Hne), Ho. simpl. rewrite Hm', Ho', Hfound. simpl.
    destruct (status_name (org_subscriptionStatus org) =? "ACTIVE")%string eqn:E;
      [|reflexivity].
    apply status_name_ACTIVE in E. contradiction.
  - intros o m org Ho Hne Hmkey Hokey Hm Horg Hstatus.
    pose proof (member_by_org_user_found d o (tp_userId u) m Hmkey Hm) as Hfm.
    pose proof (organization_by_id_found d o org Hokey Horg) as Hfo.
    destruct Hm as (_ & Hmo & _).
    unfold tenantContext, membership_findUnique, include_organization.
    rewrite Huser, (Htruthy o Ho Hne), Ho. simpl. rewrite Hfm, Hmo, Hfo. simpl.
    now rewrite Hstatus.
  - intros req'. unfold tenantContext, membership_findUnique, include_organization.
    rewrite Huser.
    destruct (truthy (requested_orgId req)) eqn:Ht; simpl; [|discriminate].
    destruct (truthy_Some _ Ht) as [o [Ho Hne]]. rewrite Ho.
    destruct (member_by_org_user d o (tp_userId u)) as [m|] eqn:Hm;
      [|discriminate].
    pose proof (member_by_org_user_row d o (tp_userId u) m Hm) as Hrow.
    destruct (organization_by_id d (om_organizationId m)) as [org|] eqn:Horg;
      [|discriminate].
    simpl.
    destruct (status_name (org_subscriptionStatus org) =? "ACTIVE")%string eqn:Hs;
      simpl; [|discriminate].
    intros H. inversion H; subst req'. exists o, m, org.
    apply status_name_ACTIVE in Hs.
    destruct Hrow as (Hin & Hmo & Hmu). rewrite Hmo in Horg.
    apply organization_by_id_row in Horg.
    repeat split; try assumption; apply Horg.
Qed.

End TenantFacts.

(** Alice is ADMIN of the active organization "o1" and OWNER of "o2",
    whose subscription is past due; Oscar ("u2") is a member of neither. *)
Lemma tenantContext_resolution_witness :
  membership_key (db Sample.world0)
  /\ organization_key (db Sample.world0)
  /\ membership_row (db Sample.world0) "o1" "u1" Sample.alice_acme
  /\ organization_row (db Sample.world0) "o1" Sample.acme
  /\ TenantMiddleware.tenantContext (db Sample.world0)
       (Sample.tenant_request "u1" (Some "o1"))
     = Next (set_tenant (Sample.tenant_request "u1" (Some "o1")) "o1" "ADMIN")
  /\ (forall m, ~ membership_row (db Sample.world0) "o1" "u2" m)
  /\ TenantMiddleware.tenantContext (db Sample.world0)
       (Sample.tenant_request "u2" (Some "o1"))
     = Respond (errorResponse "Access denied to this organization" (Some 403)
                              (Some "ORG_ACCESS_DENIED"))
  /\ membership_row (db Sample.world0) "o2" "u1" Sample.alice_late
  /\ organization_row (db Sample.world0) "o2" Sample.late
  /\ TenantMiddleware.tenantContext (db Sample.world0)
       (Sample.tenant_request "u1" (Some "o2"))
     = Respond (errorResponse "Organization subscription is not active"
                              (Some 403) (Some "ORG_INACTIVE")).
Proof.
  assert (Hmkey : membership_key (db Sample.world0)).
  { intros m m' [<-|[<-|[]]] [<-|[<-|[]]]; simpl; intros Ho Hu;
      try reflexivity; discriminate. }
  assert (Hokey : organization_key (db Sample.world0)).
  { intros o o' [<-|[<-|[]]] [<-|[<-|[]]]; simpl; intros Hid;
      try reflexivity; discriminate. }
  assert (Hm1 : membership_row (db Sample.world0) "o1" "u1" Sample.alice_acme)
    by (repeat split; simpl; auto).
  assert (Ho1 : organization_row (db Sample.world0) "o1" Sample.acme)
    by (split; simpl; auto).
  assert (Hno : forall m, ~ membership_row (db Sample.world0) "o1" "u2" m).
  { intros m ([<-|[<-|[]]] & _ & Hu); discriminate. }
  assert (Hm2 : membership_row (db Sample.world0) "o2" "u1" Sample.alice_late)
    by (repeat split; simpl; auto).
  assert (Ho2 : organization_row (db Sample.world0) "o2" Sample.late)
    by (split; simpl; auto).
  pose proof (tenantContext_resolution (db Sample.world0)
                (Sample.tenant_request "u1" (Some "o1"))
                (mkTokenPayload "u1" "" None None) eq_refl)
    as (_ & _ & _ & Hpass & _).
  pose proof (tenantContext_resolution (db Sample.world0)
                (Sample.tenant_request "u2" (Some "o1"))
                (mkTokenPayload "u2" "" None None) eq_refl)
    as (_ & Hdenied & _).
  pose proof (tenantContext_resolution (db Sample.world0)
                (Sample.tenant_request "u1" (Some "o2"))
                (mkTokenPayload "u1" "" None None) eq_refl)
    as (_ & _ & Hinactive & _).
  split; [exact Hmkey|]. split; [exact Hokey|]. split; [exact Hm1|].
  split; [exact Ho1|].
  split; [exact (Hpass "o1" Sample.alice_acme Sample.acme eq_refl
                       ltac:(discriminate) Hmkey Hokey Hm1 Ho1 eq_refl)|].
  split; [exact Hno|].
  split; [exact (Hdenied "o1" eq_refl ltac:(discriminate) Hno)|].
  split; [exact Hm2|]. split; [exact Ho2|].
  exact (Hinactive "o2" Sample.alice_late Sample.late eq_refl
                   ltac:(discriminate) Hokey Hm2 Ho2 ltac:(discriminate)).
Defined.

(** ** The permission gate *)

Section GateFacts.

Import PermissionMiddleware.

Lemma includes_In (l : list string) (s : string) :
  includes l s = true <-> In s l.
Proof.
  unfold includes. rewrite existsb_exists. split.
  - intros [x [Hx Heq]]. apply String.eqb_eq in Heq. now subst.
  - intros Hin. exists s. split; [exact Hin|apply String.eqb_refl].
Qed.

Lemma role_name_truthy (r : OrgRole) : truthy (Some (role_name r)) = true.
Proof. now destruct r. Qed.

Lemma role_name_inj (r r' : OrgRole) : role_name r = role_name r' -> r = r'.
Proof. destruct r, r'; simpl; intros H; congruence. Qed.

(** The gate on a request that carries a role of the enumeration. *)
Lemma requirePermission_role (r : OrgRole) (a : Permission) (req : Request) :
  orgRole req = Some (role_name r) ->
  requirePermission a req =
  if includes (permissions a) (role_name r) then Next req
  else Respond (errorResponse
                  ("Insufficient permissions. Required: " ++ permission_key a)
                  (Some 403) (Some "PERMISSION_DENIED")).
Proof.
  intros Hrole. unfold requirePermission.
  rewrite Hrole, role_name_truthy. simpl.
  now destruct (includes (permissions a) (role_name r)).
Qed.

(** C4. For every role [r] and every action [a] of the table: the gate
    lets the request through if and only if [r] is listed for [a] in the
    table, and answers 403 PERMISSION_DENIED (kind [PermissionDenied])
    otherwise; project:delete is listed for OWNER and ADMIN and for no other
    role; and being listed for one action gives nothing for another one
    (GUEST is listed for project:read and is refused project:update). *)
Theorem requirePermission_follows_table
        (r : OrgRole) (a : Permission) (req : Request)
        (Hrole : orgRole req = Some (role_name r)) :
  (requirePermission a req = Next req <-> In (role_name r) (permissions a))
  /\ (~ In (role_name r) (permissions a) ->
      requirePermission a req
      = Respond (errorResponse
                   ("Insufficient permissions. Required: " ++ permission_key a)
                   (Some 403) (Some "PERMISSION_DENIED")))
  /\ kind_of_code "PERMISSION_DENIED" = Some PermissionDenied
  /\ (In (role_name r) (permissions project_delete) <-> r = OWNER \/ r = ADMIN)
  /\ (In (role_name GUEST) (permissions project_read)
      /\ ~ In (role_name GUEST) (permissions project_update)).
Proof.
  pose proof (requirePermission_role r a req Hrole) as Hgate.
  pose proof (includes_In (permissions a) (role_name r)) as Hin.
  split; [|split; [|split; [reflexivity|split]]].
  - rewrite Hgate. destruct (includes (permissions a) (role_name r)).
    + split; [intros _; now apply Hin|reflexivity].
    + split; [discriminate|]. intros H. apply Hin in H. discriminate.
  - intros Hnot. rewrite Hgate.
    destruct (includes (permissions a) (role_name r)); [|reflexivity].
    exfalso. apply Hnot. now apply Hin.
  - rewrite <- includes_In. destruct r; simpl; split; intros H;
      try reflexivity; try discriminate; try (now left); try (now right);
      destruct H as [H|H]; discriminate.
  - split.
    + apply includes_In. reflexivity.
    + rewrite <- includes_In. simpl. discriminate.
Qed.

End GateFacts.

(** A MEMBER asks for project:delete. *)
Lemma requirePermission_follows_table_witness :
  orgRole (Sample.role_request (Some "MEMBER")) = Some (role_name MEMBER)
  /\ PermissionMiddleware.requirePermission PermissionMiddleware.project_delete
       (Sample.role_request (Some "MEMBER"))
     = Respond (errorResponse "Insufficient permissions. Required: project:delete"
                              (Some 403) (Some "PERMISSION_DENIED")).
Proof.
  assert (Hrole : orgRole (Sample.role_request (Some "MEMBER"))
                  = Some (role_name MEMBER)) by reflexivity.
  split; [exact Hrole|].
  refine (proj1 (proj2
           (requirePermission_follows_table MEMBER
              PermissionMiddleware.project_delete
              (Sample.role_request (Some "MEMBER")) Hrole)) _).
  simpl. intros [H|[H|[]]]; discriminate.
Defined.

(* ================================================================== *)
(** * Further properties of the service *)

Section ServiceCases.

Import AuthService.

Variable hashPassword : string -> string.
Variable comparePassword : string -> string -> bool.
Variable generateAccessToken : TokenPayload -> Time -> string.
Variable generateRefreshToken : RefreshPayload -> Time -> string.
Variable verifyRefreshToken : string -> Time -> Exn + RefreshPayload.
Variable addDays : Time -> Z -> Time.
Variable cuid : nat -> string.

Local Abbreviation login :=
  (AuthService.login comparePassword generateAccessToken generateRefreshToken
                     addDays cuid).
Local Abbreviation register :=
  (AuthService.register hashPassword generateAccessToken generateRefreshToken
                        addDays cuid).
Local Abbreviation refresh :=
  (AuthService.refreshAccessToken generateAccessToken verifyRefreshToken).

(** The two outcomes of [refreshToken.create]. *)
Lemma refreshToken_create_cases (now : Time) (tok uid : string) (exp : Time)
      (w : World) :
  (refreshToken_by_token (db w) tok <> None
   /\ refreshToken_create cuid now tok uid exp w = (inl (EPrismaKnown "P2002"), w))
  \/ (refreshToken_by_token (db w) tok = None
      /\ refreshToken_create cuid now tok uid exp w
         = (inr (mkRefreshToken (cuid (nextId (db w))) tok uid exp now),
            mkWorld (mkDB (users (db w))
                          (refreshTokens (db w)
                           ++ [mkRefreshToken (cuid (nextId (db w))) tok uid exp now])
                          (organizations (db w)) (members (db w))
                          (S (nextId (db w))))
                    (calls w))).
Proof.
  unfold refreshToken_create. async.
  destruct (refreshToken_by_token (db w) tok) eqn:E; [left|right]; split;
    try reflexivity; try discriminate.
Qed.

(** The three outcomes of [register]: the email is taken; the user row is
    written and the token string is taken; both rows are written. *)
Lemma register_cases (now : Time) (name email password : string) (w : World) :
  let u := mkUser (cuid (nextId (db w))) email (Some name) None
                  (Some (hashPassword password)) now in
  let tok := generateRefreshToken (mkRefreshPayload (user_id u) email) now in
  let d1 := mkDB (users (db w) ++ [u]) (refreshTokens (db w))
                 (organizations (db w)) (members (db w)) (S (nextId (db w))) in
  let w1 := mkWorld d1 (calls w ++ [CallHashPassword password]) in
  let row := mkRefreshToken (cuid (S (nextId (db w)))) tok (user_id u)
                            (addDays now 7) now in
  (user_by_email (db w) email <> None
   /\ register now name email password w = (inl (EApp USER_EXISTS), w))
  \/ (user_by_email (db w) email = None
      /\ refreshToken_by_token (db w) tok <> None
      /\ register now name email password w = (inl (EPrismaKnown "P2002"), w1))
  \/ (user_by_email (db w) email = None
      /\ refreshToken_by_token (db w) tok = None
      /\ register now name email password w
         = (inr (mkRegisterResult
                   (mkSelectedUser (user_id u) (Some name) email None now)
                   (generateAccessToken
                      (mkTokenPayload (user_id u) email None None) now)
                   tok),
            mkWorld (mkDB (users d1) (refreshTokens (db w) ++ [row])
                          (organizations (db w)) (members (db w))
                          (S (S (nextId (db w)))))
                    (calls w1))).
Proof.
  intros u tok d1 w1 row.
  unfold AuthService.register, user_findUnique, call_hashPassword, user_create.
  async. simpl.
  destruct (user_by_email (db w) email) eqn:Hu; simpl.
  - left. split; [discriminate|reflexivity].
  - right. rewrite Hu. simpl.
    match goal with
    | |- context [refreshToken_create cuid now ?t ?uid ?exp ?w'] =>
        destruct (refreshToken_create_cases now t uid exp w')
          as [[Htaken Hc]|[Hfree Hc]]; rewrite Hc
    end.
    + left. split; [reflexivity|]. split; [exact Htaken|reflexivity].
    + right. split; [reflexivity|]. split; [exact Hfree|reflexivity].
Qed.

(** The outcomes of [login] once the user row and its memberships are
    read and the stored hash is not empty: wrong password; right password
    and the token string is taken; right password and the row is written. *)
Lemma login_cases (now : Time) (email password : string) (w : World)
      (u : User) (mos : list MemberWithOrg) (h : string) :
  user_by_email (db w) email = Some u ->
  include_memberships (db w) u = inr (mkUserWithMemberships u mos) ->
  user_password u = Some h -> h <> "" ->
  let um := mkUserWithMemberships u mos in
  let tok := generateRefreshToken (mkRefreshPayload (user_id u) (user_email u)) now in
  let w1 := mkWorld (db w) (calls w ++ [CallComparePassword password h]) in
  let row := mkRefreshToken (cuid (nextId (db w))) tok (user_id u)
                            (addDays now 7) now in
  (comparePassword password h = false
   /\ login now email password w = (inl (EApp INVALID_CREDENTIALS), w1))
  \/ (comparePassword password h = true
      /\ refreshToken_by_token (db w) tok <> None
      /\ login now email password w = (inl (EPrismaKnown "P2002"), w1))
  \/ (comparePassword password h = true
      /\ refreshToken_by_token (db w) tok = None
      /\ login now email password w
         = (inr (mkLoginResult
                   (mkLoginUser (user_id u) (user_name u) (user_email u)
                                (user_image u))
                   (generateAccessToken (firstOrg_claims um) now)
                   tok
                   (map (fun m =>
                           mkLoginOrganization
                             (org_id (mo_organization m))
                             (org_name (mo_organization m))
                             (org_slug (mo_organization m))
                             (om_role (mo_member m)))
                        mos)),
            mkWorld (mkDB (users (db w)) (refreshTokens (db w) ++ [row])
                          (organizations (db w)) (members (db w))
                          (S (nextId (db w))))
                    (calls w1))).
Proof.
  intros Hu Hinc Hh Hne um tok w1 row.
  unfold AuthService.login, user_findUnique_memberships, call_comparePassword.
  async. rewrite Hu, Hinc. simpl. rewrite Hh. simpl.
  apply String.eqb_neq in Hne. rewrite Hne. simpl.
  destruct (comparePassword password h) eqn:Hcmp; simpl.
  - right.
    match goal with
    | |- context [refreshToken_create cuid now ?t ?uid ?exp ?w'] =>
        destruct (refreshToken_create_cases now t uid exp w')
          as [[Htaken Hc]|[Hfree Hc]]; rewrite Hc
    end.
    + left. split; [reflexivity|]. split; [exact Htaken|reflexivity].
    + right. split; [reflexivity|]. split; [exact Hfree|reflexivity].
  - left. split; reflexivity.
Qed.

(** [login] on a user row without a usable hash. *)
Lemma login_no_hash (now : Time) (email password : string) (w : World)
      (u : User) (mos : list MemberWithOrg) :
  user_by_email (db w) email = Some u ->
  include_memberships (db w) u = inr (mkUserWithMemberships u mos) ->
  truthy (user_password u) = false ->
  login now email password w = (inl (EApp INVALID_CREDENTIALS), w).
Proof.
  intros Hu Hinc Hfalsy.
  unfold AuthService.login, user_findUnique_memberships. async.
  rewrite Hu, Hinc. simpl. now rewrite Hfalsy.
Qed.

End ServiceCases.

(** ** Registration, login and refresh in sequence *)

Section RoundTrips.

Import AuthService.

Lemma find_app_last (A : Type) (f : A -> bool) (l : list A) (x : A) :
  find f l = None -> f x = true -> find f (l ++ [x]) = Some x.
Proof.
  intros Hnone Hx. rewrite find_app_none by exact Hnone. simpl. now rewrite Hx.
Qed.

Lemma find_app_some (A : Type) (f : A -> bool) (l l' : list A) (x : A) :
  find f l = Some x -> find f (l ++ l') = Some x.
Proof.
  induction l as [|y l IH]; simpl; [discriminate|].
  destruct (f y); [easy|exact IH].
Qed.

Lemma find_present (A : Type) (f : A -> bool) (l : list A) (x : A) :
  In x l -> f x = true -> find f l <> None.
Proof.
  intros Hin Hx Hnone. pose proof (find_none f l Hnone x Hin). congruence.
Qed.

(** The foreign key of the memberships only reads two tables. *)
Lemma member_fk_tenants (d d' : DB) :
  organizations d' = organizations d -> members d' = members d ->
  member_fk d' = member_fk d.
Proof.
  intros Ho Hm. unfold member_fk, organization_by_id. now rewrite Ho, Hm.
Qed.

Variable hashPassword : string -> string.
Variable comparePassword : string -> string -> bool.
Variable generateAccessToken : TokenPayload -> Time -> string.
Variable generateRefreshToken : RefreshPayload -> Time -> string.
Variable verifyRefreshToken : string -> Time -> Exn + RefreshPayload.
Variable addDays : Time -> Z -> Time.
Variable cuid : nat -> string.

Local Abbreviation login :=
  (AuthService.login comparePassword generateAccessToken generateRefreshToken
                     addDays cuid).
Local Abbreviation register :=
  (AuthService.register hashPassword generateAccessToken generateRefreshToken
                        addDays cuid).
Local Abbreviation refresh :=
  (AuthService.refreshAccessToken generateAccessToken verifyRefreshToken).

(** X1. A registration with an unused email, whose refresh token string is
    not in the store yet, succeeds; afterwards the user is found by that
    email with the hash (not the password) stored, the returned refresh
    token is found in the store, bound to the new user and expiring seven
    days after the call, and each of the two tables has one row more. *)
Theorem register_then_lookup
        (now : Time) (name email password : string) (w : World)
        (Hfresh : user_by_email (db w) email = None)
        (Hfree : refreshToken_by_token (db w)
                   (generateRefreshToken
                      (mkRefreshPayload (cuid (nextId (db w))) email) now) = None) :
  exists (r : RegisterResult) (w' : World),
    register now name email password w = (inr r, w')
    /\ su_email (reg_user r) = email
    /\ (exists u : User,
           user_by_email (db w') email = Some u
           /\ user_id u = su_id (reg_user r)
           /\ user_password u = Some (hashPassword password))
    /\ (exists row : RefreshToken,
           refreshToken_by_token (db w') (reg_refreshToken r) = Some row
           /\ rt_userId row = su_id (reg_user r)
           /\ rt_expiresAt row = addDays now 7)
    /\ length (users (db w')) = S (length (users (db w)))
    /\ length (refreshTokens (db w')) = S (length (refreshTokens (db w))).
Proof.
  destruct (register_cases hashPassword generateAccessToken generateRefreshToken
              addDays cuid now name email password w)
    as [[Hex _]|[[_ [Htaken _]]|[_ [_ Hreg]]]]; simpl in *; try contradiction.
  eexists. eexists. split; [exact Hreg|]. simpl.
  split; [reflexivity|]. split; [|split; [|split]].
  - eexists. split.
    + unfold user_by_email; simpl. apply find_app_last; [exact Hfresh|].
      simpl. apply String.eqb_refl.
    + split; reflexivity.
  - eexists. split.
    + unfold refreshToken_by_token; simpl. apply find_app_last; [exact Hfree|].
      simpl. apply String.eqb_refl.
    + split; reflexivity.
  - rewrite length_app. simpl. lia.
  - rewrite length_app. simpl. lia.
Qed.

(** X2. [register] is not atomic: when the email is unused but the refresh
    token string is already in the store, the call throws P2002 (answered
    409 DUPLICATE_ENTRY by the error handler) after the user row has been
    written; the row stays, no token row is added, and any later
    registration with that email is refused with USER_EXISTS. *)
Theorem register_token_taken_keeps_user
        (now : Time) (name email password : string) (w : World)
        (Hfresh : user_by_email (db w) email = None)
        (Htaken : refreshToken_by_token (db w)
                    (generateRefreshToken
                       (mkRefreshPayload (cuid (nextId (db w))) email) now) <> None) :
  exists w' : World,
    register now name email password w = (inl (EPrismaKnown "P2002"), w')
    /\ (exists u : User,
           user_by_email (db w') email = Some u
           /\ user_password u = Some (hashPassword password))
    /\ refreshTokens (db w') = refreshTokens (db w)
    /\ (forall (now2 : Time) (name2 password2 : string),
           register now2 name2 email password2 w' = (inl (EApp USER_EXISTS), w'))
    /\ status (errorHandler (EPrismaKnown "P2002")) = 409
    /\ err_code (error (errorHandler (EPrismaKnown "P2002"))) = "DUPLICATE_ENTRY".
Proof.
  destruct (register_cases hashPassword generateAccessToken generateRefreshToken
              addDays cuid now name email password w)
    as [[Hex _]|[[_ [_ Hreg]]|[_ [Hfree _]]]]; simpl in *; try contradiction.
  eexists. split; [exact Hreg|]. simpl.
  assert (Hu : user_by_email
                 (mkDB (users (db w)
                        ++ [mkUser (cuid (nextId (db w))) email (Some name) None
                                   (Some (hashPassword password)) now])
                       (refreshTokens (db w)) (organizations (db w))
                       (members (db w)) (S (nextId (db w)))) email
               = Some (mkUser (cuid (nextId (db w))) email (Some name) None
                              (Some (hashPassword password)) now)).
  { unfold user_by_email; simpl. apply find_app_last; [exact Hfresh|].
    simpl. apply String.eqb_refl. }
  split; [eexists; split; [exact Hu|reflexivity]|].
  split; [reflexivity|]. split; [|split; reflexivity].
  intros now2 name2 password2.
  unfold AuthService.register, user_findUnique. async. simpl. now rewrite Hu.
Qed.

(** What a successful [login] has read and written. *)
Lemma login_success_inv (now : Time) (email password : string) (w w' : World)
      (r : LoginResult) :
  login now email password w = (inr r, w') ->
  exists (u : User) (row : RefreshToken),
    user_by_email (db w) email = Some u
    /\ user_email u = email
    /\ lu_id (login_user r) = user_id u
    /\ lu_email (login_user r) = email
    /\ refreshToken_by_token (db w) (login_refreshToken r) = None
    /\ rt_token row = login_refreshToken r
    /\ rt_userId row = user_id u
    /\ rt_expiresAt row = addDays now 7
    /\ refreshTokens (db w') = (refreshTokens (db w) ++ [row])%list
    /\ users (db w') = users (db w)
    /\ organizations (db w') = organizations (db w)
    /\ members (db w') = members (db w).
Proof.
  unfold AuthService.login, user_findUnique_memberships, call_comparePassword.
  async. simpl.
  destruct (user_by_email (db w) email) as [u|] eqn:Hu; simpl; [|discriminate].
  assert (Hmail : user_email u = email).
  { apply find_some in Hu. now apply String.eqb_eq. }
  unfold include_memberships.
  destruct (include_organizations (db w) _) as [e|mos]; simpl; [discriminate|].
  destruct (truthy (user_password u)); simpl; [|discriminate].
  destruct (comparePassword password _); simpl; [|discriminate].
  match goal with
  | |- context [refreshToken_create cuid now ?t ?uid ?exp ?w1] =>
      destruct (refreshToken_create_cases cuid now t uid exp w1)
        as [[Htaken Hc]|[Hfree Hc]]; rewrite Hc
  end; [discriminate|].
  intros H. inversion H; subst; clear H. simpl.
  exists u. eexists. repeat split; try reflexivity; assumption.
Qed.

(** X3. A refresh token handed out by a successful [login] is accepted by
    [refreshAccessToken] at any later time up to and including the seventh
    day after the login, provided its signature verifies then: the call
    succeeds, returns the same refresh token and leaves the store alone. *)
Theorem login_then_refresh
        (now now2 : Time) (email password : string) (w w' : World)
        (r : LoginResult) (payload : RefreshPayload)
        (Hfk : member_fk (db w) = true)
        (Hlogin : login now email password w = (inr r, w'))
        (Hsig : verifyRefreshToken (login_refreshToken r) now2 = inr payload)
        (Hlive : now2 <= addDays now 7) :
  exists r2 : RefreshResult,
    refresh now2 (login_refreshToken r) w' = (inr r2, w')
    /\ refresh_refreshToken r2 = login_refreshToken r.
Proof.
  destruct (login_success_inv now email password w w' r Hlogin)
    as (u & row & Hu & _ & _ & _ & Hfree & Htok & Huid & Hexp & Hrts & Hus & Ho & Hm).
  assert (Hrow : refreshToken_by_token (db w') (login_refreshToken r) = Some row).
  { unfold refreshToken_by_token in *. rewrite Hrts.
    apply find_app_last; [exact Hfree|]. rewrite Htok. apply String.eqb_refl. }
  assert (Hfk' : member_fk (db w') = true).
  { now rewrite (member_fk_tenants (db w) (db w') Ho Hm). }
  assert (Huser : user_by_id (db w') (rt_userId row) <> None).
  { unfold user_by_id. rewrite Hus, Huid.
    apply find_present with (x := u).
    - unfold user_by_email in Hu. now apply find_some in Hu.
    - apply String.eqb_refl. }
  destruct (user_by_id (db w') (rt_userId row)) as [u0|] eqn:Hu0; [|congruence].
  destruct (include_memberships_total (db w') u0 Hfk') as [mos Hinc].
  unfold AuthService.refreshAccessToken, refreshToken_findUnique_user. async.
  rewrite Hsig. simpl. rewrite Hrow, Hu0, Hinc. simpl.
  rewrite Hexp. apply Z.ltb_ge in Hlive. rewrite Hlive.
  eexists. split; reflexivity.
Qed.

(** X4. After a successful registration the same email and password log
    in: if the hasher's output verifies against the password and is not
    empty, and the token string of the login is not in the store, [login]
    succeeds for the user that was registered. *)
Theorem register_then_login
        (now now2 : Time) (name email password : string) (w w' : World)
        (r : RegisterResult)
        (Hfk : member_fk (db w) = true)
        (Hreg : register now name email password w = (inr r, w'))
        (Hhash : comparePassword password (hashPassword password) = true)
        (Hnonempty : hashPassword password <> "")
        (Hfree : refreshToken_by_token (db w')
                   (generateRefreshToken
                      (mkRefreshPayload (su_id (reg_user r)) email) now2) = None) :
  exists (r2 : LoginResult) (w2 : World),
    login now2 email password w' = (inr r2, w2)
    /\ lu_id (login_user r2) = su_id (reg_user r)
    /\ lu_email (login_user r2) = email.
Proof.
  destruct (register_cases hashPassword generateAccessToken generateRefreshToken
              addDays cuid now name email password w)
    as [[_ Hr]|[[_ [_ Hr]]|[Hfresh [_ Hr]]]]; simpl in Hr;
    rewrite Hr in Hreg; try discriminate.
  inversion Hreg; subst r w'; clear Hreg. simpl in *.
  set (u := mkUser (cuid (nextId (db w))) email (Some name) None
                   (Some (hashPassword password)) now) in *.
  match goal with
  | |- context [login now2 email password ?w1] => set (w1' := w1) in *
  end.
  assert (Hu : user_by_email (db w1') email = Some u).
  { unfold user_by_email; simpl. apply find_app_last; [exact Hfresh|].
    simpl. apply String.eqb_refl. }
  assert (Hfk' : member_fk (db w1') = true).
  { rewrite <- Hfk. now apply member_fk_tenants. }
  destruct (include_memberships_total (db w1') u Hfk') as [mos Hinc].
  destruct (login_cases comparePassword generateAccessToken generateRefreshToken
              addDays cuid now2 email password w1' u mos (hashPassword password)
              Hu Hinc eq_refl Hnonempty)
    as [[Hbad _]|[[_ [Htaken _]]|[_ [_ Hok]]]]; simpl in *.
  - congruence.
  - contradiction.
  - eexists. eexists. split; [exact Hok|]. split; reflexivity.
Qed.

End RoundTrips.

(** ** When a refresh succeeds, and what a logout leaves alone *)

Section RefreshLogout.

Import AuthService.

Lemma find_filter_keep (A : Type) (f g : A -> bool) (l : list A) :
  (forall x, f x = true -> g x = true) ->
  find f (filter g l) = find f l.
Proof.
  intros Hfg. induction l as [|x l IH]; simpl; [reflexivity|].
  destruct (f x) eqn:Hf.
  - rewrite (Hfg x Hf). simpl. now rewrite Hf.
  - destruct (g x); simpl; [rewrite Hf|]; exact IH.
Qed.

(** [deleteMany] on one token string keeps the row of every other one. *)
Lemma deleteMany_other (t t' : string) (d : DB) :
  t' <> t ->
  refreshToken_by_token (refreshToken_deleteMany t d) t'
  = refreshToken_by_token d t'.
Proof.
  intros Hne. unfold refreshToken_by_token, refreshToken_deleteMany; simpl.
  apply find_filter_keep. intros r Hr. apply String.eqb_eq in Hr. rewrite Hr.
  apply String.eqb_neq in Hne. now rewrite Hne.
Qed.

Lemma token_fk_user (d : DB) (t : string) (row : RefreshToken) :
  token_fk d = true -> refreshToken_by_token d t = Some row ->
  exists u, user_by_id d (rt_userId row) = Some u.
Proof.
  intros Hfk Hrow. unfold token_fk in Hfk. rewrite forallb_forall in Hfk.
  apply find_some in Hrow. destruct Hrow as [Hin _].
  specialize (Hfk row Hin).
  destruct (user_by_id d (rt_userId row)) as [u|]; [eauto|discriminate].
Qed.

(** The included memberships only read the two tenant tables. *)
Lemma include_organizations_ext (d d' : DB) (ms : list OrganizationMember) :
  organizations d' = organizations d ->
  include_organizations d' ms = include_organizations d ms.
Proof.
  intros Ho. induction ms as [|m ms IH]; simpl; [reflexivity|].
  unfold include_organization, organization_by_id. now rewrite Ho, IH.
Qed.

Lemma include_memberships_ext (d d' : DB) (u : User) :
  organizations d' = organizations d -> members d' = members d ->
  include_memberships d' u = include_memberships d u.
Proof.
  intros Ho Hm. unfold include_memberships.
  now rewrite Hm, (include_organizations_ext d d' _ Ho).
Qed.

Variable generateAccessToken : TokenPayload -> Time -> string.
Variable verifyRefreshToken : string -> Time -> Exn + RefreshPayload.

Local Abbreviation refresh :=
  (AuthService.refreshAccessToken generateAccessToken verifyRefreshToken).

(** X5. On a store that respects its foreign keys, [refreshAccessToken]
    succeeds exactly when the signature of the token verifies, a row with
    the token string is stored, and the stored expiry is not earlier than
    the current time; a token presented at the very instant of its expiry
    is still accepted. *)
Theorem refreshAccessToken_succeeds_iff
        (now : Time) (t : string) (w : World)
        (Hmfk : member_fk (db w) = true)
        (Htfk : token_fk (db w) = true) :
  (exists r : RefreshResult, refresh now t w = (inr r, w))
  <-> ((exists payload, verifyRefreshToken t now = inr payload)
       /\ (exists row, refreshToken_by_token (db w) t = Some row
                       /\ now <= rt_expiresAt row)).
Proof.
  unfold AuthService.refreshAccessToken, refreshToken_findUnique_user. async.
  split.
  - intros [r Hr]. revert Hr.
    destruct (verifyRefreshToken t now) as [e|p]; simpl; [discriminate|].
    destruct (refreshToken_by_token (db w) t) as [row|]; simpl; [|discriminate].
    destruct (user_by_id (db w) (rt_userId row)) as [u|]; simpl; [|discriminate].
    destruct (include_memberships (db w) u); simpl; [discriminate|].
    destruct (rt_expiresAt row <? now) eqn:E; simpl; [discriminate|].
    intros _. split; [eauto|]. exists row. split; [reflexivity|].
    now apply Z.ltb_ge.
  - intros [[p Hp] [row [Hrow Hlive]]]. rewrite Hp. simpl. rewrite Hrow.
    destruct (token_fk_user (db w) t row Htfk Hrow) as [u Hu]. rewrite Hu.
    destruct (include_memberships_total (db w) u Hmfk) as [mos Hinc].
    rewrite Hinc. simpl. apply Z.ltb_ge in Hlive. rewrite Hlive.
    eexists. reflexivity.
Qed.

(** X6. [logout] ends one session only: for every other token string,
    [refreshAccessToken] answers after the logout exactly what it answered
    before, and the "User" table is untouched. *)
Theorem logout_keeps_other_sessions
        (now : Time) (t t' : string) (w : World)
        (Hother : t' <> t) :
  fst (refresh now t' (snd (logout t w))) = fst (refresh now t' w)
  /\ users (db (snd (logout t w))) = users (db w).
Proof.
  split; [|reflexivity].
  unfold AuthService.refreshAccessToken, refreshToken_findUnique_user, logout.
  async. simpl. rewrite (deleteMany_other t t' (db w) Hother).
  destruct (verifyRefreshToken t' now); simpl; [reflexivity|].
  destruct (refreshToken_by_token (db w) t') as [row|]; simpl; [|reflexivity].
  replace (user_by_id (refreshToken_deleteMany t (db w)) (rt_userId row))
    with (user_by_id (db w) (rt_userId row)) by reflexivity.
  destruct (user_by_id (db w) (rt_userId row)) as [u|]; simpl; [|reflexivity].
  rewrite (include_memberships_ext (db w) (refreshToken_deleteMany t (db w)) u
             eq_refl eq_refl).
  destruct (include_memberships (db w) u); simpl; [reflexivity|].
  destruct (rt_expiresAt row <? now); reflexivity.
Qed.

End RefreshLogout.

(** ** Invariants of the store along sequences of calls *)

Section StoreInvariants.

Import AuthService Session.

Lemma find_none_not_in (A : Type) (key : A -> string) (k : string) (l : list A) :
  find (fun x => (key x =? k)%string) l = None -> ~ In k (map key l).
Proof.
  intros Hnone Hin. apply in_map_iff in Hin. destruct Hin as [x [Hk Hx]].
  pose proof (find_none _ l Hnone x Hx) as Hf. simpl in Hf.
  rewrite Hk, String.eqb_refl in Hf. discriminate.
Qed.

Lemma NoDup_map_snoc (A : Type) (key : A -> string) (l : list A) (x : A) :
  NoDup (map key l) -> ~ In (key x) (map key l) -> NoDup (map key (l ++ [x])).
Proof.
  intros Hnd Hnin. rewrite map_app. simpl.
  apply NoDup_app; [exact Hnd|repeat constructor; auto|].
  intros k Hk [Hx|[]]. now subst.
Qed.

Lemma NoDup_map_filter (A : Type) (key : A -> string) (g : A -> bool) (l : list A) :
  NoDup (map key l) -> NoDup (map key (filter g l)).
Proof.
  induction l as [|x l IH]; simpl; [auto|]. intros Hnd.
  inversion Hnd as [|k ks Hnin Hnd']; subst.
  destruct (g x); simpl; [|auto]. constructor; [|auto].
  intros Hin. apply Hnin. apply in_map_iff in Hin. destruct Hin as [y [Hy Hin]].
  apply filter_In in Hin. apply in_map_iff. exists y. tauto.
Qed.

Variable hashPassword : string -> string.
Variable comparePassword : string -> string -> bool.
Variable generateAccessToken : TokenPayload -> Time -> string.
Variable generateRefreshToken : RefreshPayload -> Time -> string.
Variable verifyRefreshToken : string -> Time -> Exn + RefreshPayload.
Variable addDays : Time -> Z -> Time.
Variable cuid : nat -> string.

Local Abbreviation step :=
  (Session.step hashPassword comparePassword generateAccessToken
    generateRefreshToken verifyRefreshToken addDays cuid).
Local Abbreviation run :=
  (Session.run hashPassword comparePassword generateAccessToken
    generateRefreshToken verifyRefreshToken addDays cuid).

(** What one call can do to "User": nothing, or one row with a new email. *)
Lemma step_users (now : Time) (op : Op) (w : World) :
  users (db (snd (step now op w))) = users (db w)
  \/ exists u : User,
       users (db (snd (step now op w))) = (users (db w) ++ [u])%list
       /\ user_by_email (db w) (user_email u) = None.
Proof.
  unfold Session.step. destruct op as [n e p|e p|t|t].
  - destruct (register_cases hashPassword generateAccessToken
                generateRefreshToken addDays cuid now n e p w)
      as [[_ Hr]|[[Hf [_ Hr]]|[Hf [_ Hr]]]]; simpl in Hr; rewrite Hr; simpl.
    + now left.
    + right. eexists. split; [reflexivity|exact Hf].
    + right. eexists. split; [reflexivity|exact Hf].
  - left.
    destruct (login comparePassword generateAccessToken generateRefreshToken
                    addDays cuid now e p w) as [[err|r] w'] eqn:Hl; simpl.
    + revert Hl.
      unfold login, user_findUnique_memberships, call_comparePassword. async.
      simpl.
      destruct (user_by_email (db w) e) as [u|]; simpl;
        [|intros H; now inversion H].
      destruct (include_memberships (db w) u) as [err'|um]; simpl;
        [intros H; now inversion H|].
      destruct (truthy (user_password (um_user um))); simpl;
        [|intros H; now inversion H].
      destruct (comparePassword p _); simpl; [|intros H; now inversion H].
      match goal with
      | |- context [refreshToken_create cuid now ?t ?uid ?exp ?w1] =>
          destruct (refreshToken_create_cases cuid now t uid exp w1)
            as [[_ Hc]|[_ Hc]]; rewrite Hc
      end; intros H; now inversion H.
    + destruct (login_success_inv comparePassword generateAccessToken
                  generateRefreshToken addDays cuid now e p w w' r Hl)
        as (u & row & _ & _ & _ & _ & _ & _ & _ & _ & _ & Hus & _).
      exact Hus.
  - left. simpl. now rewrite refreshAccessToken_world.
  - left. reflexivity.
Qed.

(** What one call can do to "RefreshToken": nothing, the deletion of the
    rows of one string, or one row with a new string. *)
Lemma step_tokens (now : Time) (op : Op) (w : World) :
  refreshTokens (db (snd (step now op w))) = refreshTokens (db w)
  \/ (exists t : string,
         op = OpLogout t
         /\ refreshTokens (db (snd (step now op w)))
            = filter (fun r => negb (rt_token r =? t)%string)
                     (refreshTokens (db w)))
  \/ (exists row : RefreshToken,
         refreshTokens (db (snd (step now op w)))
         = (refreshTokens (db w) ++ [row])%list
         /\ refreshToken_by_token (db w) (rt_token row) = None).
Proof.
  unfold Session.step. destruct op as [n e p|e p|t|t].
  - destruct (register_cases hashPassword generateAccessToken
                generateRefreshToken addDays cuid now n e p w)
      as [[_ Hr]|[[_ [_ Hr]]|[_ [Hf Hr]]]]; simpl in Hr; rewrite Hr; simpl.
    + now left.
    + now left.
    + right. right. eexists. split; [reflexivity|exact Hf].
  - destruct (login comparePassword generateAccessToken generateRefreshToken
                    addDays cuid now e p w) as [[err|r] w'] eqn:Hl; simpl.
    + left. revert Hl.
      unfold login, user_findUnique_memberships, call_comparePassword. async.
      simpl.
      destruct (user_by_email (db w) e) as [u|]; simpl;
        [|intros H; now inversion H].
      destruct (include_memberships (db w) u) as [err'|um]; simpl;
        [intros H; now inversion H|].
      destruct (truthy (user_password (um_user um))); simpl;
        [|intros H; now inversion H].
      destruct (comparePassword p _); simpl; [|intros H; now inversion H].
      match goal with
      | |- context [refreshToken_create cuid now ?t ?uid ?exp ?w1] =>
          destruct (refreshToken_create_cases cuid now t uid exp w1)
            as [[_ Hc]|[_ Hc]]; rewrite Hc
      end; intros H; now inversion H.
    + right. right.
      destruct (login_success_inv comparePassword generateAccessToken
                  generateRefreshToken addDays cuid now e p w w' r Hl)
        as (u & row & _ & _ & _ & _ & Hfree & Htok & _ & _ & Hrts & _).
      exists row. split; [exact Hrts|]. now rewrite Htok.
  - left. simpl. now rewrite refreshAccessToken_world.
  - right. left. exists t. split; reflexivity.
Qed.

(** X7. Whatever the sequence of service calls, no two rows of "User" ever
    share an email if none did before: the check in [register] keeps the
    unique index without ever running into it. *)
Theorem run_unique_emails (tr : list (Time * Op)) (w : World)
        (Huniq : unique_emails (db w)) :
  unique_emails (db (run tr w)).
Proof.
  revert w Huniq. induction tr as [|[now op] tr IH]; intros w Huniq; simpl.
  - exact Huniq.
  - apply IH. unfold unique_emails in *.
    destruct (step_users now op w) as [Hsame|[u [Hadd Hnew]]].
    + now rewrite Hsame.
    + rewrite Hadd. apply NoDup_map_snoc; [exact Huniq|].
      now apply find_none_not_in.
Qed.

(** X8. Whatever the sequence of service calls, no two rows of
    "RefreshToken" ever carry the same token string if none did before. *)
Theorem run_unique_tokens (tr : list (Time * Op)) (w : World)
        (Huniq : unique_tokens (db w)) :
  unique_tokens (db (run tr w)).
Proof.
  revert w Huniq. induction tr as [|[now op] tr IH]; intros w Huniq; simpl.
  - exact Huniq.
  - apply IH. unfold unique_tokens in *.
    destruct (step_tokens now op w) as [Hsame|[[t [_ Hdel]]|[row [Hadd Hnew]]]].
    + now rewrite Hsame.
    + rewrite Hdel. now apply NoDup_map_filter.
    + rewrite Hadd. apply NoDup_map_snoc; [exact Huniq|].
      now apply find_none_not_in.
Qed.

(** X9. The service never deletes or rewrites a user: after any sequence
    of calls the "User" table is the old table followed by the rows of the
    registrations made since. *)
Theorem run_users_only_grow (tr : list (Time * Op)) (w : World) :
  exists added : list User,
    users (db (run tr w)) = (users (db w) ++ added)%list.
Proof.
  revert w. induction tr as [|[now op] tr IH]; intros w; simpl.
  - exists []. now rewrite app_nil_r.
  - destruct (IH (snd (step now op w))) as [added Hrun].
    destruct (step_users now op w) as [Hsame|[u [Hadd _]]].
    + exists added. now rewrite Hrun, Hsame.
    + exists (u :: added). rewrite Hrun, Hadd. now rewrite <- app_assoc.
Qed.

(** X10. Refresh-token rows go away through [logout] alone: along a
    sequence of calls without a logout the table only grows, so neither a
    new login nor a refresh, nor the passing of a row's expiry, ends an
    earlier session's row. *)
Theorem run_tokens_only_grow (tr : list (Time * Op)) (w : World)
        (Hnologout : forall now t, ~ In (now, OpLogout t) tr) :
  exists added : list RefreshToken,
    refreshTokens (db (run tr w)) = (refreshTokens (db w) ++ added)%list.
Proof.
  revert w. induction tr as [|[now op] tr IH]; intros w; simpl.
  - exists []. now rewrite app_nil_r.
  - destruct (IH (fun n t H => Hnologout n t (or_intror H))
                 (snd (step now op w))) as [added Hrun].
    destruct (step_tokens now op w) as [Hsame|[[t [Hop _]]|[row [Hadd _]]]].
    + exists added. now rewrite Hrun, Hsame.
    + exfalso. apply (Hnologout now t). left. now rewrite Hop.
    + exists (row :: added). rewrite Hrun, Hadd. now rewrite <- app_assoc.
Qed.

End StoreInvariants.

(** ** The controller behind the error handler *)

Section ControllerFacts.

Import AuthService AuthController.

Variable hashPassword : string -> string.
Variable comparePassword : string -> string -> bool.
Variable generateAccessToken : TokenPayload -> Time -> string.
Variable generateRefreshToken : RefreshPayload -> Time -> string.
Variable verifyRefreshToken : string -> Time -> Exn + RefreshPayload.
Variable addDays : Time -> Z -> Time.
Variable cuid : nat -> string.

Local Abbreviation refresh_service :=
  (AuthService.refreshAccessToken generateAccessToken verifyRefreshToken).
Local Abbreviation register_route :=
  (AuthController.register hashPassword generateAccessToken generateRefreshToken
     addDays cuid).
Local Abbreviation login_route :=
  (AuthController.login comparePassword generateAccessToken generateRefreshToken
     addDays cuid).
Local Abbreviation refresh_route :=
  (AuthController.refresh generateAccessToken verifyRefreshToken).

(** X11. Past the validation of its body, POST /auth/refresh has two
    answers only: 200 with the refresh
    token that was sent, or 401 with code TOKEN_INVALID and the message
    "Invalid or expired refresh token"; it never answers TOKEN_EXPIRED, never
    a 5xx, and never changes the store. *)
Theorem refresh_route_answers (now : Time) (t : string) (w : World) :
  snd (refresh_route now t w) = w
  /\ ((exists r : RefreshResult,
          fst (refresh_route now t w) = Success 200 r
          /\ refresh_refreshToken r = t)
      \/ fst (refresh_route now t w)
         = Failure (errorResponse "Invalid or expired refresh token" (Some 401)
                                  (Some "TOKEN_INVALID"))).
Proof.
  unfold AuthController.refresh, handle.
  pose proof (refreshAccessToken_world generateAccessToken verifyRefreshToken
                                       now t w) as Hw.
  pose proof (refreshAccessToken_throws generateAccessToken verifyRefreshToken
                                        now t w) as Hthrow.
  destruct (refresh_service now t w) as [[e|r] w'] eqn:Hr; simpl in *; subst w'.
  - split; [reflexivity|]. right. now rewrite (Hthrow e eq_refl).
  - split; [reflexivity|]. left. exists r. split; [reflexivity|].
    revert Hr. unfold AuthService.refreshAccessToken, refreshToken_findUnique_user.
    async.
    destruct (verifyRefreshToken t now); simpl; [discriminate|].
    destruct (refreshToken_by_token (db w) t) as [row|]; simpl; [|discriminate].
    destruct (user_by_id (db w) (rt_userId row)) as [u|]; simpl; [|discriminate].
    destruct (include_memberships (db w) u); simpl; [discriminate|].
    destruct (rt_expiresAt row <? now); simpl; [discriminate|].
    intros H. now inversion H.
Qed.

(** X12. Past the rate limiter and the validation of its body, POST
    /auth/register answers 201 exactly when the email is unused
    and the new refresh token string is not stored yet; otherwise it
    answers 409, with code USER_EXISTS when the email is taken and
    DUPLICATE_ENTRY when only the token string is. *)
Theorem register_route_answers
        (now : Time) (name email password : string) (w : World) :
  let reply := fst (register_route now name email password w) in
  let tok := generateRefreshToken
               (mkRefreshPayload (cuid (nextId (db w))) email) now in
  (reply_status reply = 201
   <-> user_by_email (db w) email = None
       /\ refreshToken_by_token (db w) tok = None)
  /\ (user_by_email (db w) email <> None ->
      reply_status reply = 409 /\ reply_code reply = Some "USER_EXISTS")
  /\ (user_by_email (db w) email = None ->
      refreshToken_by_token (db w) tok <> None ->
      reply_status reply = 409 /\ reply_code reply = Some "DUPLICATE_ENTRY").
Proof.
  unfold AuthController.register, handle.
  destruct (register_cases hashPassword generateAccessToken generateRefreshToken
              addDays cuid now name email password w)
    as [[Hex Hr]|[[Hfresh [Htaken Hr]]|[Hfresh [Hfree Hr]]]];
    simpl in *; rewrite Hr; simpl.
  - split; [split; [discriminate|intros [H _]; contradiction]|].
    split; [intros _; now split|]. intros H; contradiction.
  - split; [split; [discriminate|intros [_ H]; contradiction]|].
    split; [intros H; contradiction|]. intros _ _. now split.
  - split; [split; [intros _; now split|reflexivity]|].
    split; [intros H; contradiction|]. intros _ H; contradiction.
Qed.

(** X13. On a store that respects the membership foreign key, and past
    the rate limiter and the validation of its body, POST /auth/login
    answers 200, or 401 with code INVALID_CREDENTIALS, or 409
    with code DUPLICATE_ENTRY (the password was right and the new token
    string is already stored); it never answers a 5xx. *)
Theorem login_route_answers
        (now : Time) (email password : string) (w : World)
        (Hfk : member_fk (db w) = true) :
  let reply := fst (login_route now email password w) in
  (reply_status reply = 200 /\ reply_code reply = None)
  \/ (reply_status reply = 401 /\ reply_code reply = Some "INVALID_CREDENTIALS")
  \/ (reply_status reply = 409 /\ reply_code reply = Some "DUPLICATE_ENTRY").
Proof.
  unfold AuthController.login, handle.
  destruct (user_by_email (db w) email) as [u|] eqn:Hu.
  - destruct (include_memberships_total (db w) u Hfk) as [mos Hinc].
    destruct (user_password u) as [h|] eqn:Hh.
    + destruct (String.eqb_spec h "") as [Hempty|Hne].
      * subst h.
        rewrite (login_no_hash comparePassword generateAccessToken
                   generateRefreshToken addDays cuid now email password w u mos
                   Hu Hinc); [|now rewrite Hh].
        right. left. now split.
      * destruct (login_cases comparePassword generateAccessToken
                    generateRefreshToken addDays cuid now email password w u mos
                    h Hu Hinc Hh Hne)
          as [[_ Hr]|[[_ [_ Hr]]|[_ [_ Hr]]]]; simpl in Hr; rewrite Hr; simpl.
        -- right. left. now split.
        -- right. right. now split.
        -- left. now split.
    + rewrite (login_no_hash comparePassword generateAccessToken
                 generateRefreshToken addDays cuid now email password w u mos
                 Hu Hinc); [|now rewrite Hh].
      right. left. now split.
  - unfold AuthService.login, user_findUnique_memberships. async. rewrite Hu.
    simpl. right. left. now split.
Qed.

End ControllerFacts.

(** ** The two guards of auth.middleware.ts *)

Section GuardOutcomes.

Import AuthMiddleware OptionalAuth.

(** A string with a given prefix is that prefix followed by the rest. *)
Lemma prefix_split (p h : string) :
  prefix p h = true ->
  h = p ++ substring (String.length p) (String.length h - String.length p) h.
Proof.
  revert h. induction p as [|c p IH]; intros h.
  - intros _. simpl. rewrite Nat.sub_0_r. now rewrite substring_whole.
  - destruct h as [|c' h]; simpl; [discriminate|].
    destruct (Ascii.ascii_dec c c') as [Heq|Hne]; [|discriminate].
    intros Hp. subst c'. f_equal. now apply IH.
Qed.

Lemma startsWith_Bearer_split (h : string) :
  startsWith_Bearer h = true -> h = "Bearer " ++ substring7 h.
Proof. intros H. apply (prefix_split "Bearer " h H). Qed.

Variable verifyAccessToken : string -> Time -> Exn + TokenPayload.

Local Abbreviation authenticate := (AuthMiddleware.authenticate verifyAccessToken).
Local Abbreviation optionalAuth := (OptionalAuth.optionalAuth verifyAccessToken).

(** Whoever the guard lets through carried a Bearer token that verified,
    and leaves with the claims of that token in [req.user]. *)
Lemma authenticate_accepts (now : Time) (req req' : Request) :
  authenticate now req = Next req' ->
  exists (tok : string) (p : TokenPayload),
    headers_authorization req = Some ("Bearer " ++ tok)
    /\ verifyAccessToken tok now = inr p
    /\ req' = set_user req p.
Proof.
  unfold AuthMiddleware.authenticate.
  destruct (headers_authorization req) as [h|]; [|discriminate].
  destruct (truthy (Some h)); simpl; [|discriminate].
  destruct (startsWith_Bearer h) eqn:Hb; simpl; [|discriminate].
  destruct (verifyAccessToken (substring7 h) now) as [e|p] eqn:Hv; [discriminate|].
  intros H. inversion H. exists (substring7 h), p.
  split; [f_equal; now apply startsWith_Bearer_split|]. now split.
Qed.

(** Every answer of the guard is a 401 with one of two codes. *)
Lemma authenticate_rejects (now : Time) (req : Request) (r : Response) :
  authenticate now req = Respond r ->
  status r = 401
  /\ (err_code (error r) = "UNAUTHORIZED" \/ err_code (error r) = "TOKEN_INVALID").
Proof.
  unfold AuthMiddleware.authenticate.
  destruct (headers_authorization req) as [h|];
    [|intros H; inversion H; simpl; auto].
  destruct (negb (truthy (Some h)) || negb (startsWith_Bearer h));
    [intros H; inversion H; simpl; auto|].
  destruct (verifyAccessToken _ now); intros H; inversion H; simpl; auto.
Qed.

(** X16. The guard answers with 401 and nothing else, with code
    UNAUTHORIZED or TOKEN_INVALID; a request it lets through carried
    "Bearer " followed by a token that verified, and differs from the
    incoming request in [req.user] only, which holds the token's claims. *)
Theorem authenticate_outcomes (now : Time) (req : Request) :
  (forall r : Response,
      authenticate now req = Respond r ->
      status r = 401
      /\ (err_code (error r) = "UNAUTHORIZED" \/ err_code (error r) = "TOKEN_INVALID"))
  /\ (forall req' : Request,
         authenticate now req = Next req' ->
         exists (tok : string) (p : TokenPayload),
           headers_authorization req = Some ("Bearer " ++ tok)
           /\ verifyAccessToken tok now = inr p
           /\ req' = set_user req p).
Proof.
  split; [|intros req'; apply authenticate_accepts].
  intros r. apply authenticate_rejects.
Qed.

(** X17. [optionalAuth] never answers: it always calls [next()]. Where
    [authenticate] lets a request through, [optionalAuth] passes on the
    very same request; where [authenticate] rejects, [optionalAuth] passes
    the request on unchanged, with the [req.user] it came with. *)
Theorem optionalAuth_never_rejects (now : Time) (req : Request) :
  (exists req' : Request, optionalAuth now req = Next req')
  /\ (forall req' : Request,
         authenticate now req = Next req' -> optionalAuth now req = Next req')
  /\ (forall r : Response,
         authenticate now req = Respond r -> optionalAuth now req = Next req).
Proof.
  unfold AuthMiddleware.authenticate, OptionalAuth.optionalAuth.
  destruct (headers_authorization req) as [h|].
  - destruct (truthy (Some h)); simpl.
    + destruct (startsWith_Bearer h); simpl.
      * destruct (verifyAccessToken (substring7 h) now) as [e|p].
        -- split; [eauto|]. split; [discriminate|reflexivity].
        -- split; [eauto|]. split; [intros req' H; exact H|discriminate].
      * split; [eauto|]. split; [discriminate|reflexivity].
    + split; [eauto|]. split; [discriminate|reflexivity].
  - split; [eauto|]. split; [discriminate|reflexivity].
Qed.

End GuardOutcomes.

(** ** POST /auth/logout and GET /auth/me *)

Section RouteFacts.

Import AuthService AuthController CurrentUser.

(** X14. POST /auth/logout has no body validation. With a string as
    refreshToken it answers 200 and deletes the rows of that string, no
    others. With no refreshToken in the body it answers 200 as well, but
    the filter of [deleteMany] is then empty: the refresh tokens of every
    user are deleted and no token string at all can be refreshed
    afterwards. With null, a number or a boolean the client refuses the
    query: the answer is 400 VALIDATION_ERROR and nothing is deleted. *)
Theorem logout_route_without_token
        (generateAccessToken : TokenPayload -> Time -> string)
        (verifyRefreshToken : string -> Time -> Exn + RefreshPayload)
        (w : World) :
  (forall t : string,
      reply_status (fst (AuthController.logout (JString t) w)) = 200
      /\ db (snd (AuthController.logout (JString t) w))
         = refreshToken_deleteMany t (db w)
      /\ (forall t' : string, t' <> t ->
             refreshToken_by_token (db (snd (AuthController.logout (JString t) w))) t'
             = refreshToken_by_token (db w) t'))
  /\ reply_status (fst (AuthController.logout Missing w)) = 200
  /\ refreshTokens (db (snd (AuthController.logout Missing w))) = []
  /\ users (db (snd (AuthController.logout Missing w))) = users (db w)
  /\ (forall (now : Time) (t : string),
         fst (refreshAccessToken generateAccessToken verifyRefreshToken now t
                (snd (AuthController.logout Missing w)))
         = inl (EApp TOKEN_INVALID))
  /\ (forall body : BodyMember,
         body = JNull \/ body = JNumber \/ (exists b, body = JBoolean b) ->
         AuthController.logout body w
         = (Failure (errorResponse "Invalid data provided" (Some 400)
                                   (Some "VALIDATION_ERROR")), w)).
Proof.
  split; [|split; [reflexivity|split; [reflexivity|split; [reflexivity|split]]]].
  - intros t. split; [reflexivity|]. split; [reflexivity|].
    intros t' Hne. simpl. now apply deleteMany_other.
  - intros now t.
    rewrite refreshAccessToken_absent; [reflexivity|]. reflexivity.
  - intros body [->|[->|[b ->]]]; reflexivity.
Qed.

Variable verifyAccessToken : string -> Time -> Exn + TokenPayload.

Local Abbreviation me := (Routes.me verifyAccessToken).

(** [getCurrentUser] on a store that respects the membership foreign key. *)
Lemma getCurrentUser_cases (userId : string) (w : World) :
  member_fk (db w) = true ->
  (user_by_id (db w) userId = None
   /\ getCurrentUser userId w = (inl (EApp USER_NOT_FOUND), w))
  \/ (exists (u : User) (cu : CurrentUser),
         user_by_id (db w) userId = Some u
         /\ getCurrentUser userId w = (inr cu, w)
         /\ cu_id cu = user_id u /\ cu_email cu = user_email u).
Proof.
  intros Hfk. unfold getCurrentUser, user_findUnique_id. async.
  destruct (user_by_id (db w) userId) as [u|]; [right|left; now split].
  destruct (include_organizations_total (db w)
              (filter (fun m => (om_userId m =? user_id u)%string)
                      (members (db w)))) as [mos Hmos]; [|exact Hfk|].
  - intros m Hm. apply filter_In in Hm. tauto.
  - rewrite Hmos. simpl. exists u. eexists. repeat split.
Qed.

(** X15. GET /auth/me, guard and handler together, on a store that
    respects the membership foreign key: the answer is 401 (no Bearer
    header, or a token that does not verify), 404 USER_NOT_FOUND (the token
    verifies but no user row has its user id any more), or 200 with that
    user; the handler's own "User not authenticated" error and every other
    5xx are out of reach, and the store is never changed. *)
Theorem me_route_answers (now : Time) (req : Request) (w : World)
        (Hfk : member_fk (db w) = true) :
  snd (me now req w) = w
  /\ ((reply_status (fst (me now req w)) = 401
       /\ (reply_code (fst (me now req w)) = Some "UNAUTHORIZED"
           \/ reply_code (fst (me now req w)) = Some "TOKEN_INVALID"))
      \/ (exists (tok : string) (p : TokenPayload),
             headers_authorization req = Some ("Bearer " ++ tok)
             /\ verifyAccessToken tok now = inr p
             /\ ((user_by_id (db w) (tp_userId p) = None
                  /\ reply_status (fst (me now req w)) = 404
                  /\ reply_code (fst (me now req w)) = Some "USER_NOT_FOUND")
                 \/ (exists (u : User) (cu : CurrentUser),
                        user_by_id (db w) (tp_userId p) = Some u
                        /\ fst (me now req w) = Success 200 cu
                        /\ cu_id cu = user_id u)))).
Proof.
  unfold Routes.me.
  destruct (AuthMiddleware.authenticate verifyAccessToken now req)
    as [r|req'] eqn:Hauth.
  - split; [reflexivity|]. left. simpl.
    destruct (authenticate_rejects verifyAccessToken now req r Hauth)
      as [Hs [Hc|Hc]]; rewrite Hc; auto.
  - destruct (authenticate_accepts verifyAccessToken now req req' Hauth)
      as (tok & p & Hhdr & Hver & Hreq).
    subst req'. unfold AuthController.getCurrentUser, handle. simpl.
    destruct (getCurrentUser_cases (tp_userId p) w Hfk)
      as [[Hnone Hg]|(u & cu & Hu & Hg & Hid & _)]; rewrite Hg; simpl.
    + split; [reflexivity|]. right. exists tok, p. repeat split; auto.
    + split; [reflexivity|]. right. exists tok, p. repeat split; auto.
      right. exists u, cu. repeat split; auto.
Qed.

End RouteFacts.

(** ** Roles and the permission table *)

Section RoleFacts.

Import PermissionMiddleware RoleGuards.

Lemma role_cases (s : string) :
  (exists r : OrgRole, s = role_name r)
  \/ (forall r : OrgRole, s <> role_name r).
Proof.
  destruct (String.eqb_spec s "OWNER"); [left; now exists OWNER|].
  destruct (String.eqb_spec s "ADMIN"); [left; now exists ADMIN|].
  destruct (String.eqb_spec s "MEMBER"); [left; now exists MEMBER|].
  destruct (String.eqb_spec s "GUEST"); [left; now exists GUEST|].
  right. intros r. destruct r; simpl; assumption.
Qed.

(** Every entry of the table is the name of a role. *)
Lemma permissions_are_roles (a : Permission) (s : string) :
  In s (permissions a) -> exists r : OrgRole, s = role_name r.
Proof.
  destruct a; simpl; intros H;
    repeat (destruct H as [H|H];
            [first [now exists OWNER | now exists ADMIN
                   | now exists MEMBER | now exists GUEST]|]);
    contradiction.
Qed.

(** X18. [requireAdmin] lets through OWNER and ADMIN and no other role,
    [requireOwner] lets through OWNER alone; both refuse with 403
    ROLE_DENIED, and a request without a role gets 403 ROLE_MISSING from
    them as from [requirePermission]. *)
Theorem requireAdmin_requireOwner (req : Request) :
  (forall r : OrgRole,
      orgRole req = Some (role_name r) ->
      (requireAdmin req = Next req <-> r = OWNER \/ r = ADMIN)
      /\ (requireOwner req = Next req <-> r = OWNER)
      /\ (r <> OWNER ->
          requireOwner req
          = Respond (errorResponse "Insufficient role. Required one of: OWNER"
                                   (Some 403) (Some "ROLE_DENIED")))
      /\ (r <> OWNER -> r <> ADMIN ->
          requireAdmin req
          = Respond (errorResponse
                       "Insufficient role. Required one of: OWNER, ADMIN"
                       (Some 403) (Some "ROLE_DENIED"))))
  /\ (truthy (orgRole req) = false ->
      forall a : Permission,
        requireAdmin req = requirePermission a req
        /\ requireOwner req = requirePermission a req
        /\ requirePermission a req
           = Respond (errorResponse "Organization role not found" (Some 403)
                                    (Some "ROLE_MISSING"))).
Proof.
  split.
  - intros r Hrole. unfold requireAdmin, requireOwner, requireRole.
    rewrite Hrole, role_name_truthy.
    destruct r; simpl; repeat split; intros; try reflexivity;
      try discriminate; try congruence; auto;
      try (destruct H as [H|H]; discriminate).
  - intros Hfalsy a. unfold requireAdmin, requireOwner, requireRole,
      requirePermission. rewrite Hfalsy. simpl. repeat split.
Qed.

(** X19. The comparison of roles is exact: a role string that is not one
    of the names OWNER, ADMIN, MEMBER, GUEST as spelled in the table (for
    instance in lower case) is refused for every action of the table, with
    PERMISSION_DENIED, or ROLE_MISSING when the string is empty. *)
Theorem requirePermission_unknown_role
        (a : Permission) (req : Request) (s : string)
        (Hrole : orgRole req = Some s)
        (Hunknown : forall r : OrgRole, s <> role_name r) :
  exists resp : Response,
    requirePermission a req = Respond resp
    /\ status resp = 403
    /\ (err_code (error resp) = "PERMISSION_DENIED"
        \/ (s = "" /\ err_code (error resp) = "ROLE_MISSING")).
Proof.
  unfold requirePermission. rewrite Hrole. simpl.
  destruct (String.eqb_spec s "") as [Hempty|Hne]; simpl.
  - eexists. split; [reflexivity|]. split; [reflexivity|]. right. now split.
  - destruct (includes (permissions a) s) eqn:Hinc; simpl.
    + apply includes_In in Hinc. apply permissions_are_roles in Hinc.
      destruct Hinc as [r Hr]. exfalso. now apply (Hunknown r).
    + eexists. split; [reflexivity|]. split; [reflexivity|]. now left.
Qed.

(** X20. Although the gate applies no hierarchy, the table as written is
    closed upwards in the order GUEST, MEMBER, ADMIN, OWNER: a role listed
    for an action implies that every higher role is listed for it too; in
    particular OWNER is let through for every one of the 23 actions. *)
Theorem permissions_closed_upwards (a : Permission) :
  (forall r r' : OrgRole,
      In (role_name r) (permissions a) ->
      (rank r <= rank r')%nat ->
      In (role_name r') (permissions a))
  /\ (forall req : Request,
         orgRole req = Some (role_name OWNER) ->
         requirePermission a req = Next req).
Proof.
  split.
  - intros r r' Hin Hle. apply includes_In. apply includes_In in Hin.
    destruct a, r, r'; simpl in *; try reflexivity; try discriminate; lia.
  - intros req Hrole. rewrite (requirePermission_role OWNER a req Hrole).
    now destruct a.
Qed.

End RoleFacts.

(** ** Tenant-scoped chains *)

Section ChainFacts.

Import TenantMiddleware PermissionMiddleware.

(** What [tenantContext] has established when it calls [next()]. *)
Lemma tenantContext_accepts (d : DB) (req req' : Request) :
  tenantContext d req = Next req' ->
  exists (u : TokenPayload) (o : string) (m : OrganizationMember)
         (org : Organization),
    user req = Some u
    /\ requested_orgId req = Some o /\ o <> ""
    /\ member_by_org_user d o (tp_userId u) = Some m
    /\ organization_by_id d (om_organizationId m) = Some org
    /\ org_subscriptionStatus org = ACTIVE
    /\ req' = set_tenant req o (role_name (om_role m)).
Proof.
  unfold tenantContext, membership_findUnique, include_organization.
  destruct (user req) as [u|]; [|discriminate].
  destruct (truthy (requested_orgId req)) eqn:Ht; simpl; [|discriminate].
  destruct (truthy_Some _ Ht) as [o [Ho Hne]]. rewrite Ho.
  destruct (member_by_org_user d o (tp_userId u)) as [m|] eqn:Hm; [|discriminate].
  destruct (organization_by_id d (om_organizationId m)) as [org|] eqn:Horg;
    [|discriminate].
  simpl.
  destruct (status_name (org_subscriptionStatus org) =? "ACTIVE")%string eqn:Hs;
    simpl; [|discriminate].
  intros H. inversion H. exists u, o, m, org.
  apply status_name_ACTIVE in Hs. repeat split; assumption.
Qed.

(** The same, in terms of the rows of the two tables. *)
Lemma tenantContext_accepts_rows (d : DB) (req req' : Request) :
  tenantContext d req = Next req' ->
  exists (u : TokenPayload) (o : string) (m : OrganizationMember)
         (org : Organization),
    user req = Some u
    /\ requested_orgId req = Some o /\ o <> ""
    /\ membership_row d o (tp_userId u) m
    /\ organization_row d o org
    /\ org_subscriptionStatus org = ACTIVE
    /\ req' = set_tenant req o (role_name (om_role m)).
Proof.
  intros Hnext.
  destruct (tenantContext_accepts d req req' Hnext)
    as (u & o & m & org & Hu & Ho & Hne & Hm & Horg & Hact & Hreq').
  pose proof (member_by_org_user_row d o (tp_userId u) m Hm) as Hrow.
  assert (Hmo : om_organizationId m = o) by apply Hrow.
  rewrite Hmo in Horg. apply organization_by_id_row in Horg.
  exists u, o, m, org. repeat split; try assumption; try apply Hrow; apply Horg.
Qed.

(** X21. The URL parameter decides the tenant: when the request carries a
    non-empty organization id in its route parameters, the outcome of
    [tenantContext] does not depend on the organizationId of the query
    string or of the body; these are read only when the parameter is
    missing or empty, the query string before the body. *)
Theorem tenantContext_param_first
        (d : DB) (h : option string) (u : option TokenPayload)
        (oi r : option string) (p : string) (q b q' b' : option string)
        (Hparam : p <> "") :
  requested_orgId (mkRequest h (Some p) q b u oi r) = Some p
  /\ (forall resp : Response,
         tenantContext d (mkRequest h (Some p) q b u oi r) = Respond resp ->
         tenantContext d (mkRequest h (Some p) q' b' u oi r) = Respond resp)
  /\ (forall req' : Request,
         tenantContext d (mkRequest h (Some p) q b u oi r) = Next req' ->
         organizationId req' = Some p)
  /\ (forall s : string, s <> "" ->
         requested_orgId (mkRequest h None (Some s) b u oi r) = Some s
         /\ requested_orgId (mkRequest h (Some "") (Some s) b u oi r) = Some s
         /\ requested_orgId (mkRequest h None None (Some s) u oi r) = Some s).
Proof.
  destruct p as [|c p]; [contradiction|].
  assert (Hreq : forall q0 b0,
             requested_orgId (mkRequest h (Some (String c p)) q0 b0 u oi r)
             = Some (String c p)) by reflexivity.
  split; [apply Hreq|]. split; [|split].
  - intros resp. unfold tenantContext. rewrite !Hreq. simpl.
    destruct u as [tp|]; [|easy].
    destruct (membership_findUnique d (String c p) (tp_userId tp))
      as [e|[mo|]]; try easy.
    destruct (negb _); [easy|discriminate].
  - intros req' Hnext.
    destruct (tenantContext_accepts d _ req' Hnext)
      as (tp & o & m & org & _ & Ho & _ & _ & _ & _ & Hreq').
    rewrite Hreq in Ho. inversion Ho; subst o. now rewrite Hreq'.
  - intros s Hs. destruct s as [|c' s]; [contradiction|]. repeat split.
Qed.

Variable verifyAccessToken : string -> Time -> Exn + TokenPayload.

Local Abbreviation chain := (Routes.tenant_chain verifyAccessToken).

(** X22. The chain authenticate, tenantContext, requirePermission lets a
    request through only if it carried a Bearer token that verified, the
    request asked for an organization o, "OrganizationMember" has a row for
    o and the token's user, the row of "Organization" with the id o has the
    subscription status ACTIVE, and the role of the membership row is
    listed for the action; the request then carries the token's claims,
    the organization id o and that role. After [tenantContext] the gate
    never answers ROLE_MISSING. *)
Theorem tenant_chain_sound
        (a : Permission) (now : Time) (d : DB) (req : Request) :
  (forall req' : Request,
      chain a now d req = Next req' ->
      exists (tok : string) (p : TokenPayload) (o : string)
             (m : OrganizationMember) (org : Organization),
        headers_authorization req = Some ("Bearer " ++ tok)
        /\ verifyAccessToken tok now = inr p
        /\ requested_orgId req = Some o /\ o <> ""
        /\ membership_row d o (tp_userId p) m
        /\ organization_row d o org
        /\ org_subscriptionStatus org = ACTIVE
        /\ In (role_name (om_role m)) (permissions a)
        /\ user req' = Some p
        /\ organizationId req' = Some o
        /\ orgRole req' = Some (role_name (om_role m)))
  /\ (forall resp : Response,
         chain a now d req = Respond resp ->
         err_code (error resp) <> "ROLE_MISSING").
Proof.
  unfold Routes.tenant_chain. split.
  - intros req'.
    destruct (AuthMiddleware.authenticate verifyAccessToken now req)
      as [r|req1] eqn:Hauth; [discriminate|].
    destruct (authenticate_accepts verifyAccessToken now req req1 Hauth)
      as (tok & p & Hhdr & Hver & Hreq1).
    destruct (tenantContext d req1) as [r|req2] eqn:Hten; [discriminate|].
    destruct (tenantContext_accepts_rows d req1 req2 Hten)
      as (u & o & m & org & Hu & Ho & Hne & Hm & Horg & Hact & Hreq2).
    assert (Hup : u = p) by (subst req1; simpl in Hu; congruence). subst u.
    assert (Horeq : requested_orgId req = Some o)
      by (subst req1; exact Ho).
    assert (Hrole : orgRole req2 = Some (role_name (om_role m)))
      by now rewrite Hreq2.
    rewrite (requirePermission_role (om_role m) a req2 Hrole).
    destruct (includes (permissions a) (role_name (om_role m))) eqn:Hinc;
      [|discriminate].
    intros H. inversion H; subst req'.
    exists tok, p, o, m, org. apply includes_In in Hinc.
    repeat split; try assumption; try apply Hm; try apply Horg;
      subst req2 req1; reflexivity.
  - intros resp.
    destruct (AuthMiddleware.authenticate verifyAccessToken now req)
      as [r|req1] eqn:Hauth.
    + intros H. inversion H; subst resp.
      destruct (authenticate_rejects verifyAccessToken now req r Hauth)
        as [_ [Hc|Hc]]; rewrite Hc; discriminate.
    + destruct (tenantContext d req1) as [r|req2] eqn:Hten.
      * intros H. inversion H; subst resp. revert Hten.
        unfold tenantContext.
        destruct (user req1); [|intros H'; inversion H'; discriminate].
        destruct (negb (truthy (requested_orgId req1)));
          [intros H'; inversion H'; discriminate|].
        destruct (membership_findUnique d _ _) as [e|[mo|]];
          try (intros H'; inversion H'; discriminate).
        destruct (negb _); intros H'; inversion H'; discriminate.
      * destruct (tenantContext_accepts d req1 req2 Hten)
          as (u & o & m & org & _ & _ & _ & _ & _ & _ & Hreq2).
        assert (Hrole : orgRole req2 = Some (role_name (om_role m)))
          by now rewrite Hreq2.
        rewrite (requirePermission_role (om_role m) a req2 Hrole).
        destruct (includes (permissions a) (role_name (om_role m)));
          [discriminate|].
        intros H. inversion H. discriminate.
Qed.

End ChainFacts.

(** ** The tenant filter, the socket handshake and the error handler *)

Section FilterFacts.

Import TenantFilter.

Variable V : Type.
Variable str : string -> V.

Lemma get_spread_set_eq (o : Obj V) (k : string) (v : V) :
  get k (spread_set o k v) = Some v.
Proof.
  induction o as [|[k' v'] o IH]; simpl.
  - now rewrite String.eqb_refl.
  - destruct (k' =? k)%string eqn:E; simpl; rewrite E; [reflexivity|exact IH].
Qed.

Lemma get_spread_set_ne (o : Obj V) (k k0 : string) (v : V) :
  k0 <> k -> get k0 (spread_set o k v) = get k0 o.
Proof.
  intros Hne. induction o as [|[k' v'] o IH]; simpl.
  - apply not_eq_sym in Hne. apply String.eqb_neq in Hne. now rewrite Hne.
  - destruct (k' =? k)%string eqn:E; simpl.
    + apply String.eqb_eq in E. subst k'.
      apply not_eq_sym in Hne. apply String.eqb_neq in Hne. now rewrite Hne.
    + destruct (k' =? k0)%string; [reflexivity|exact IH].
Qed.

(** X23. The [findMany] hook of [applyTenantFilter] always hands on a
    [where] whose organizationId is the one the filter was made for, also
    when the caller's [where] asked for another organization; every other
    member of the caller's [where] is handed on as it was. A call without
    a [where] does not reach the query: the [in] test throws a TypeError. *)
Theorem findMany_where_forces_tenant (orgId : string) (o : Obj V) :
  (exists o' : Obj V,
      findMany_where str orgId (Some o) = inr o'
      /\ get "organizationId" o' = Some (str orgId)
      /\ (forall k : string, k <> "organizationId" -> get k o' = get k o))
  /\ (exists msg : string,
         findMany_where str orgId None = inl (EError "TypeError" msg)).
Proof.
  split.
  - eexists. split; [reflexivity|]. split.
    + apply get_spread_set_eq.
    + intros k Hk. now apply get_spread_set_ne.
  - eexists. reflexivity.
Qed.

End FilterFacts.

Section HandshakeFacts.

Import Sockets AuthMiddleware.

Variable verifyAccessToken : string -> Time -> Exn + TokenPayload.

Local Abbreviation authenticate := (AuthMiddleware.authenticate verifyAccessToken).
Local Abbreviation authenticate_socket :=
  (Sockets.authenticate_socket verifyAccessToken).

(** X24. The socket handshake and the HTTP guard accept the same tokens:
    for a non-empty token, the handshake succeeds exactly when the guard
    lets the request with "Bearer " and that token through, and the
    identity set on the socket is the user id and email of the claims the
    guard puts in [req.user]. A missing or empty token is refused as not
    provided without being verified, any other refusal says no more than
    "Authentication error". *)
Theorem socket_handshake_agrees_with_guard
        (now : Time) (tok : string) (req : Request)
        (Htok : tok <> "")
        (Hhdr : headers_authorization req = Some ("Bearer " ++ tok)) :
  (forall id : Identity,
      authenticate_socket now (Some tok) = inr id
      <-> exists p : TokenPayload,
            authenticate now req = Next (set_user req p)
            /\ id = mkIdentity (tp_userId p) (tp_email p))
  /\ (forall msg : string,
         authenticate_socket now (Some tok) = inl msg ->
         msg = "Authentication error"
         /\ authenticate now req = Respond rejected)
  /\ authenticate_socket now None = inl "Authentication error: Token not provided"
  /\ authenticate_socket now (Some "")
     = inl "Authentication error: Token not provided".
Proof.
  rewrite (authenticate_Bearer verifyAccessToken now req tok Hhdr).
  unfold Sockets.authenticate_socket.
  destruct tok as [|c tok]; [contradiction|]. simpl.
  destruct (verifyAccessToken (String c tok) now) as [e|p].
  - split; [|split; [|split; reflexivity]].
    + intros id. split; [discriminate|]. intros [p [H _]]. discriminate.
    + intros msg H. inversion H. now split.
  - split; [|split; [|split; reflexivity]].
    + intros id. split.
      * intros H. inversion H. exists p. now split.
      * intros [p' [H Hid]]. inversion H.
        assert (Hp : p' = p).
        { destruct req; unfold set_user in *; simpl in *. congruence. }
        now subst.
    + intros msg H. discriminate.
Qed.

End HandshakeFacts.

Section HandlerFacts.

(** X25. The error handler sends an [AppError] with its own status, code
    and message, and nothing of any other error: the answer to an error
    that is not an [AppError] never depends on that error's message, and
    unless the error is one of the two of the token library (401) it is
    500 INTERNAL_ERROR "Internal server error"; a unique-constraint
    violation of the database goes out as 409 DUPLICATE_ENTRY. *)
Theorem errorHandler_discloses_app_errors_only :
  (forall e : AppError,
      code e <> "" ->
      errorHandler (EApp e)
      = mkResponse (statusCode e) false (mkApiError (code e) (message e)))
  /\ (forall name msg msg' : string,
         errorHandler (EError name msg) = errorHandler (EError name msg'))
  /\ (forall name msg : string,
         name <> "JsonWebTokenError" -> name <> "TokenExpiredError" ->
         errorHandler (EError name msg)
         = mkResponse 500 false
                      (mkApiError "INTERNAL_ERROR" "Internal server error"))
  /\ errorHandler (EPrismaKnown "P2002")
     = mkResponse 409 false
                  (mkApiError "DUPLICATE_ENTRY" "Unique constraint violation")
  /\ (forall c : string,
         c <> "P2002" -> c <> "P2025" ->
         status (errorHandler (EPrismaKnown c)) = 500).
Proof.
  split; [|split; [|split; [|split]]].
  - intros [m s c] Hc. simpl in *. unfold errorResponse, js_or. simpl.
    destruct c as [|a c]; [contradiction|reflexivity].
  - reflexivity.
  - intros name msg H1 H2. simpl.
    apply String.eqb_neq in H1, H2. now rewrite H1, H2.
  - reflexivity.
  - intros c H1 H2. simpl. apply String.eqb_neq in H1, H2. now rewrite H1, H2.
Qed.

End HandlerFacts.

(** ** The task store of the client *)

Section TaskStoreFacts.

Import TaskStore.

Variable Task : Type.
Variable task_id : Task -> string.
Variable Updates : Type.
Variable merge : Task -> Updates -> Task.
Variable TaskFilters : Type.

Local Abbreviation State := (TaskState Task TaskFilters).

Lemma store_includes_In (l : list string) (s : string) :
  TaskStore.includes l s = true <-> In s l.
Proof.
  unfold TaskStore.includes. rewrite existsb_exists. split.
  - intros [x [Hx Heq]]. apply String.eqb_eq in Heq. now subst.
  - intros Hin. exists s. split; [exact Hin|apply String.eqb_refl].
Qed.

Lemma filter_absent_id (l : list string) (s : string) :
  ~ In s l -> filter (fun id => negb (id =? s)%string) l = l.
Proof.
  induction l as [|x l IH]; simpl; [reflexivity|]. intros Hnin.
  destruct (String.eqb_spec x s) as [->|Hne]; simpl.
  - exfalso. apply Hnin. now left.
  - f_equal. apply IH. intros H. apply Hnin. now right.
Qed.

(** X26. [toggleTaskSelection] flips the selection of one task and of no
    other: after it the task is selected exactly if it was not before, and
    every other id is selected exactly if it was; toggling twice gives back
    the same selected ids, and the very same state when the task was not
    selected to begin with. The tasks themselves are never touched. *)
Theorem toggleTaskSelection_flips (taskId : string) (s : State) :
  let s1 := toggleTaskSelection taskId s in
  let s2 := toggleTaskSelection taskId s1 in
  (In taskId (selectedTasks s1) <-> ~ In taskId (selectedTasks s))
  /\ (forall id : string, id <> taskId ->
         (In id (selectedTasks s1) <-> In id (selectedTasks s)))
  /\ (forall id : string, In id (selectedTasks s2) <-> In id (selectedTasks s))
  /\ (~ In taskId (selectedTasks s) -> s2 = s)
  /\ tasks s1 = tasks s.
Proof.
  assert (Hflip : forall l : list string,
             let l1 := if TaskStore.includes l taskId
                       then filter (fun id => negb (id =? taskId)%string) l
                       else (l ++ [taskId])%list in
             (In taskId l1 <-> ~ In taskId l)
             /\ (forall id, id <> taskId -> (In id l1 <-> In id l))).
  { intros l. simpl.
    destruct (TaskStore.includes l taskId) eqn:Hinc.
    - apply store_includes_In in Hinc. split.
      + rewrite filter_In, String.eqb_refl. simpl. split; [intros [_ H]|]; easy.
      + intros id Hne. rewrite filter_In. apply String.eqb_neq in Hne.
        rewrite Hne. simpl. tauto.
    - assert (Hnin : ~ In taskId l).
      { intros H. apply store_includes_In in H. congruence. }
      split.
      + rewrite in_app_iff. simpl. tauto.
      + intros id Hne. rewrite in_app_iff. simpl. split; [|tauto].
        intros [H|[H|[]]]; [exact H|]. now subst. }
  simpl. destruct (Hflip (selectedTasks s)) as [H1 H1'].
  simpl in H1, H1'.
  set (l1 := if TaskStore.includes (selectedTasks s) taskId
             then filter (fun id => negb (id =? taskId)%string) (selectedTasks s)
             else (selectedTasks s ++ [taskId])%list) in *.
  destruct (Hflip l1) as [H2 H2']. simpl in H2, H2'.
  split; [exact H1|]. split; [exact H1'|]. split; [|split; [|reflexivity]].
  - intros id. destruct (String.eqb_spec id taskId) as [->|Hne].
    + rewrite H2, H1.
      destruct (in_dec string_dec taskId (selectedTasks s)); tauto.
    + rewrite (H2' id Hne). now apply H1'.
  - intros Hnin. unfold toggleTaskSelection. simpl. fold l1.
    assert (Hinc : TaskStore.includes (selectedTasks s) taskId = false).
    { destruct (TaskStore.includes (selectedTasks s) taskId) eqn:E; [|reflexivity].
      apply store_includes_In in E. contradiction. }
    subst l1. rewrite Hinc.
    assert (Hinc2 : TaskStore.includes (selectedTasks s ++ [taskId]) taskId = true).
    { apply store_includes_In. apply in_or_app. right. now left. }
    rewrite Hinc2. rewrite filter_app. simpl. rewrite String.eqb_refl. simpl.
    rewrite app_nil_r, (filter_absent_id _ _ Hnin). now destruct s.
Qed.


(** X28. [updateTask] keeps the number and the order of the tasks; it
    rewrites every task with the given id by the spread of the updates over
    it and no other task, so with an id that no task has it changes
    nothing. *)
Theorem updateTask_touches_id_only
        (taskId : string) (updates : Updates) (s : State) :
  length (tasks (updateTask task_id merge taskId updates s)) = length (tasks s)
  /\ (forall (i : nat) (t : Task),
         nth_error (tasks s) i = Some t ->
         nth_error (tasks (updateTask task_id merge taskId updates s)) i
         = Some (if (task_id t =? taskId)%string then merge t updates else t))
  /\ ((forall x : Task, In x (tasks s) -> task_id x <> taskId) ->
      updateTask task_id merge taskId updates s = s).
Proof.
  split; [|split].
  - simpl. apply length_map.
  - intros i t Hi. simpl. rewrite nth_error_map, Hi. reflexivity.
  - intros Hnone. unfold updateTask.
    assert (Hid : map (fun task => if (task_id task =? taskId)%string
                                   then merge task updates else task) (tasks s)
                  = tasks s).
    { revert Hnone. generalize (tasks s). intros l.
      induction l as [|x l IH]; intros Hnone; simpl; [reflexivity|].
      assert (Hx : task_id x <> taskId) by (apply Hnone; now left).
      apply String.eqb_neq in Hx. rewrite Hx. f_equal.
      apply IH. intros y Hy. apply Hnone. now right. }
    rewrite Hid. now destruct s.
Qed.

End TaskStoreFacts.

(** ** The further properties on the sample store *)

(** Bob registers on the sample store at time 5. *)
Lemma register_then_lookup_witness :
  user_by_email (db Sample.world0) "bob@x.com" = None
  /\ refreshToken_by_token (db Sample.world0) "rt.c0.5" = None
  /\ exists (r : AuthService.RegisterResult) (w' : World),
       Sample.register 5 "Bob" "bob@x.com" "pw" Sample.world0 = (inr r, w')
       /\ length (users (db w')) = 3%nat.
Proof.
  assert (Hfresh : user_by_email (db Sample.world0) "bob@x.com" = None)
    by reflexivity.
  assert (Hfree : refreshToken_by_token (db Sample.world0)
                    (Sample.generateRefreshToken
                       (mkRefreshPayload (Sample.cuid (nextId (db Sample.world0)))
                                         "bob@x.com") 5) = None)
    by reflexivity.
  split; [exact Hfresh|]. split; [exact Hfree|].
  destruct (register_then_lookup Sample.hashPassword Sample.generateAccessToken
              Sample.generateRefreshToken Sample.addDays Sample.cuid
              5 "Bob" "bob@x.com" "pw" Sample.world0 Hfresh Hfree)
    as (r & w' & Hreg & _ & _ & _ & Hlen & _).
  exists r, w'. split; [exact Hreg|exact Hlen].
Defined.

(** Bob registers where the token string "rt.c0.5" is already stored. *)
Lemma register_token_taken_keeps_user_witness :
  user_by_email (db Sample2.crowded) "bob@x.com" = None
  /\ refreshToken_by_token (db Sample2.crowded) "rt.c0.5" <> None
  /\ exists w' : World,
       Sample.register 5 "Bob" "bob@x.com" "pw" Sample2.crowded
       = (inl (EPrismaKnown "P2002"), w')
       /\ exists u : User, user_by_email (db w') "bob@x.com" = Some u.
Proof.
  assert (Hfresh : user_by_email (db Sample2.crowded) "bob@x.com" = None)
    by reflexivity.
  assert (Htaken : refreshToken_by_token (db Sample2.crowded)
                     (Sample.generateRefreshToken
                        (mkRefreshPayload
                           (Sample.cuid (nextId (db Sample2.crowded)))
                           "bob@x.com") 5) <> None)
    by (vm_compute; discriminate).
  split; [exact Hfresh|]. split; [exact Htaken|].
  destruct (register_token_taken_keeps_user Sample.hashPassword
              Sample.generateAccessToken Sample.generateRefreshToken
              Sample.addDays Sample.cuid
              5 "Bob" "bob@x.com" "pw" Sample2.crowded Hfresh Htaken)
    as (w' & Hreg & [u [Hu _]] & _).
  exists w'. split; [exact Hreg|]. now exists u.
Defined.

(** Alice logs in at 5 and refreshes with the new token at 9. *)
Lemma login_then_refresh_witness :
  member_fk (db Sample.world0) = true
  /\ Sample.login 5 "alice@x.com" "secret" Sample.world0
     = (inr Sample2.alice_login, Sample2.world_after_login)
  /\ Sample.verifyRefreshToken "rt.u1.5" 9 = inr (mkRefreshPayload "u1.5" "")
  /\ 9 <= Sample.addDays 5 7
  /\ exists r2 : AuthService.RefreshResult,
       Sample.refresh 9 "rt.u1.5" Sample2.world_after_login
       = (inr r2, Sample2.world_after_login)
       /\ AuthService.refresh_refreshToken r2 = "rt.u1.5".
Proof.
  assert (Hfk : member_fk (db Sample.world0) = true) by reflexivity.
  assert (Hlogin : Sample.login 5 "alice@x.com" "secret" Sample.world0
                   = (inr Sample2.alice_login, Sample2.world_after_login))
    by reflexivity.
  assert (Hsig : Sample.verifyRefreshToken
                   (AuthService.login_refreshToken Sample2.alice_login) 9
                 = inr (mkRefreshPayload "u1.5" "")) by reflexivity.
  assert (Hlive : 9 <= Sample.addDays 5 7) by (unfold Sample.addDays; lia).
  split; [exact Hfk|]. split; [exact Hlogin|]. split; [exact Hsig|].
  split; [exact Hlive|].
  exact (login_then_refresh Sample.comparePassword Sample.generateAccessToken
           Sample.generateRefreshToken Sample.verifyRefreshToken Sample.addDays
           Sample.cuid 5 9 "alice@x.com" "secret" Sample.world0
           Sample2.world_after_login Sample2.alice_login
           (mkRefreshPayload "u1.5" "") Hfk Hlogin Hsig Hlive).
Defined.

(** Bob registers at 5 and logs in at 6. *)
Lemma register_then_login_witness :
  member_fk (db Sample.world0) = true
  /\ Sample.register 5 "Bob" "bob@x.com" "pw" Sample.world0
     = (inr Sample2.bob_registration, Sample2.world_after_registration)
  /\ Sample.comparePassword "pw" (Sample.hashPassword "pw") = true
  /\ Sample.hashPassword "pw" <> ""
  /\ refreshToken_by_token (db Sample2.world_after_registration) "rt.c0.6" = None
  /\ exists (r2 : AuthService.LoginResult) (w2 : World),
       Sample.login 6 "bob@x.com" "pw" Sample2.world_after_registration
       = (inr r2, w2)
       /\ AuthService.lu_id (AuthService.login_user r2) = "c0"
       /\ AuthService.lu_email (AuthService.login_user r2) = "bob@x.com".
Proof.
  assert (Hfk : member_fk (db Sample.world0) = true) by reflexivity.
  assert (Hreg : Sample.register 5 "Bob" "bob@x.com" "pw" Sample.world0
                 = (inr Sample2.bob_registration,
                    Sample2.world_after_registration)) by reflexivity.
  assert (Hhash : Sample.comparePassword "pw" (Sample.hashPassword "pw") = true)
    by reflexivity.
  assert (Hne : Sample.hashPassword "pw" <> "") by discriminate.
  assert (Hfree : refreshToken_by_token (db Sample2.world_after_registration)
                    (Sample.generateRefreshToken
                       (mkRefreshPayload
                          (AuthService.su_id
                             (AuthService.reg_user Sample2.bob_registration))
                          "bob@x.com") 6) = None) by reflexivity.
  split; [exact Hfk|]. split; [exact Hreg|]. split; [exact Hhash|].
  split; [exact Hne|]. split; [exact Hfree|].
  exact (register_then_login Sample.hashPassword Sample.comparePassword
           Sample.generateAccessToken Sample.generateRefreshToken Sample.addDays
           Sample.cuid 5 6 "Bob" "bob@x.com" "pw" Sample.world0
           Sample2.world_after_registration Sample2.bob_registration
           Hfk Hreg Hhash Hne Hfree).
Defined.

(** Alice's token at 1000, the instant of its expiry. *)
Lemma refreshAccessToken_succeeds_iff_witness :
  member_fk (db Sample.world0) = true
  /\ token_fk (db Sample.world0) = true
  /\ exists r : AuthService.RefreshResult,
       Sample.refresh 1000 "rt.u1.0" Sample.world0 = (inr r, Sample.world0).
Proof.
  assert (Hmfk : member_fk (db Sample.world0) = true) by reflexivity.
  assert (Htfk : token_fk (db Sample.world0) = true) by reflexivity.
  split; [exact Hmfk|]. split; [exact Htfk|].
  apply (proj2 (refreshAccessToken_succeeds_iff Sample.generateAccessToken
                  Sample.verifyRefreshToken 1000 "rt.u1.0" Sample.world0
                  Hmfk Htfk)).
  split.
  - exists (mkRefreshPayload "u1.0" ""). reflexivity.
  - exists Sample.alice_token. split; [reflexivity|]. simpl. lia.
Defined.

(** Alice has two sessions and ends the first. *)
Lemma logout_keeps_other_sessions_witness :
  "rt.u1.7" <> "rt.u1.0"
  /\ fst (Sample.refresh 500 "rt.u1.7"
            (snd (AuthService.logout "rt.u1.0" Sample2.two_sessions)))
     = fst (Sample.refresh 500 "rt.u1.7" Sample2.two_sessions).
Proof.
  assert (Hother : "rt.u1.7" <> "rt.u1.0") by discriminate.
  split; [exact Hother|].
  exact (proj1 (logout_keeps_other_sessions Sample.generateAccessToken
                  Sample.verifyRefreshToken 500 "rt.u1.0" "rt.u1.7"
                  Sample2.two_sessions Hother)).
Defined.

Lemma run_unique_emails_witness :
  unique_emails (db Sample.world0)
  /\ unique_emails (db (Sample2.run Sample2.busy_day Sample.world0)).
Proof.
  assert (Huniq : unique_emails (db Sample.world0)).
  { unfold unique_emails. simpl.
    repeat constructor; simpl; intuition discriminate. }
  split; [exact Huniq|].
  exact (run_unique_emails Sample.hashPassword Sample.comparePassword
           Sample.generateAccessToken Sample.generateRefreshToken
           Sample.verifyRefreshToken Sample.addDays Sample.cuid
           Sample2.busy_day Sample.world0 Huniq).
Defined.

Lemma run_unique_tokens_witness :
  unique_tokens (db Sample.world0)
  /\ unique_tokens (db (Sample2.run Sample2.busy_day Sample.world0)).
Proof.
  assert (Huniq : unique_tokens (db Sample.world0)).
  { unfold unique_tokens. simpl.
    repeat constructor; simpl; intuition discriminate. }
  split; [exact Huniq|].
  exact (run_unique_tokens Sample.hashPassword Sample.comparePassword
           Sample.generateAccessToken Sample.generateRefreshToken
           Sample.verifyRefreshToken Sample.addDays Sample.cuid
           Sample2.busy_day Sample.world0 Huniq).
Defined.

Lemma run_tokens_only_grow_witness :
  (forall now t, ~ In (now, Session.OpLogout t) Sample2.busy_day)
  /\ exists added : list RefreshToken,
       refreshTokens (db (Sample2.run Sample2.busy_day Sample.world0))
       = (refreshTokens (db Sample.world0) ++ added)%list.
Proof.
  assert (Hnologout : forall now t,
             ~ In (now, Session.OpLogout t) Sample2.busy_day).
  { intros now t [H|[H|[H|[H|[]]]]]; discriminate. }
  split; [exact Hnologout|].
  exact (run_tokens_only_grow Sample.hashPassword Sample.comparePassword
           Sample.generateAccessToken Sample.generateRefreshToken
           Sample.verifyRefreshToken Sample.addDays Sample.cuid
           Sample2.busy_day Sample.world0 Hnologout).
Defined.

(** Alice with a wrong password through the login route. *)
Lemma login_route_answers_witness :
  member_fk (db Sample.world0) = true
  /\ AuthController.reply_status
       (fst (AuthController.login Sample.comparePassword
               Sample.generateAccessToken Sample.generateRefreshToken
               Sample.addDays Sample.cuid 5 "alice@x.com" "guess" Sample.world0))
     = 401.
Proof.
  assert (Hfk : member_fk (db Sample.world0) = true) by reflexivity.
  split; [exact Hfk|].
  destruct (login_route_answers Sample.comparePassword Sample.generateAccessToken
              Sample.generateRefreshToken Sample.addDays Sample.cuid
              5 "alice@x.com" "guess" Sample.world0 Hfk)
    as [[H _]|[[H _]|[H _]]]; [vm_compute in H; discriminate|exact H|
                                vm_compute in H; discriminate].
Defined.

(** A verified token of the user "u9", who has no row. *)
Lemma me_route_answers_witness :
  member_fk (db Sample.world0) = true
  /\ snd (Routes.me Sample.verifyAccessToken 5 (Sample.bearer "at.u9")
                    Sample.world0) = Sample.world0
  /\ AuthController.reply_code
       (fst (Routes.me Sample.verifyAccessToken 5 (Sample.bearer "at.u9")
                       Sample.world0)) = Some "USER_NOT_FOUND".
Proof.
  assert (Hfk : member_fk (db Sample.world0) = true) by reflexivity.
  split; [exact Hfk|].
  destruct (me_route_answers Sample.verifyAccessToken 5 (Sample.bearer "at.u9")
              Sample.world0 Hfk) as [Hw _].
  split; [exact Hw|reflexivity].
Defined.

(** The role in lower case. *)
Lemma requirePermission_unknown_role_witness :
  orgRole (Sample.role_request (Some "owner")) = Some "owner"
  /\ (forall r : OrgRole, "owner" <> role_name r)
  /\ exists resp : Response,
       PermissionMiddleware.requirePermission PermissionMiddleware.project_read
         (Sample.role_request (Some "owner")) = Respond resp
       /\ status resp = 403.
Proof.
  assert (Hrole : orgRole (Sample.role_request (Some "owner")) = Some "owner")
    by reflexivity.
  assert (Hunknown : forall r : OrgRole, "owner" <> role_name r)
    by (intros r; destruct r; discriminate).
  split; [exact Hrole|]. split; [exact Hunknown|].
  destruct (requirePermission_unknown_role PermissionMiddleware.project_read
              (Sample.role_request (Some "owner")) "owner" Hrole Hunknown)
    as (resp & Hresp & Hstatus & _).
  exists resp. split; [exact Hresp|exact Hstatus].
Defined.

(** Alice asks for "o1" in the URL and for "o2" in the body. *)
Lemma tenantContext_param_first_witness :
  "o1" <> ""
  /\ TenantMiddleware.requested_orgId
       (mkRequest None (Some "o1") None (Some "o2")
                  (Some (mkTokenPayload "u1" "" None None)) None None)
     = Some "o1".
Proof.
  assert (Hparam : "o1" <> "") by discriminate.
  split; [exact Hparam|].
  exact (proj1 (tenantContext_param_first (db Sample.world0) None
                  (Some (mkTokenPayload "u1" "" None None)) None None
                  "o1" None (Some "o2") None None Hparam)).
Defined.

(** The token "at.u1" at the socket and at the guard. *)
Lemma socket_handshake_agrees_with_guard_witness :
  "at.u1" <> ""
  /\ headers_authorization (Sample.bearer "at.u1") = Some ("Bearer " ++ "at.u1")
  /\ exists p : TokenPayload,
       AuthMiddleware.authenticate Sample.verifyAccessToken 5
         (Sample.bearer "at.u1")
       = Next (set_user (Sample.bearer "at.u1") p)
       /\ Sockets.mkIdentity "u1" "" = Sockets.mkIdentity (tp_userId p) (tp_email p).
Proof.
  assert (Htok : "at.u1" <> "") by discriminate.
  assert (Hhdr : headers_authorization (Sample.bearer "at.u1")
                 = Some ("Bearer " ++ "at.u1")) by reflexivity.
  split; [exact Htok|]. split; [exact Hhdr|].
  apply (proj1 (proj1 (socket_handshake_agrees_with_guard
                         Sample.verifyAccessToken 5 "at.u1"
                         (Sample.bearer "at.u1") Htok Hhdr)
                      (Sockets.mkIdentity "u1" ""))).
  reflexivity.
Defined.

(** Bob registers where his token string is taken: 409 DUPLICATE_ENTRY. *)
Lemma register_route_answers_witness :
  user_by_email (db Sample2.crowded) "bob@x.com" = None
  /\ refreshToken_by_token (db Sample2.crowded) "rt.c0.5" <> None
  /\ AuthController.reply_code
       (fst (AuthController.register Sample.hashPassword
               Sample.generateAccessToken Sample.generateRefreshToken
               Sample.addDays Sample.cuid 5 "Bob" "bob@x.com" "pw"
               Sample2.crowded))
     = Some "DUPLICATE_ENTRY".
Proof.
  assert (Hfresh : user_by_email (db Sample2.crowded) "bob@x.com" = None)
    by reflexivity.
  assert (Htaken : refreshToken_by_token (db Sample2.crowded)
                     (Sample.generateRefreshToken
                        (mkRefreshPayload
                           (Sample.cuid (nextId (db Sample2.crowded)))
                           "bob@x.com") 5) <> None)
    by (vm_compute; discriminate).
  split; [exact Hfresh|]. split; [exact Htaken|].
  exact (proj2 (proj2 (proj2 (register_route_answers Sample.hashPassword
                                Sample.generateAccessToken
                                Sample.generateRefreshToken Sample.addDays
                                Sample.cuid 5 "Bob" "bob@x.com" "pw"
                                Sample2.crowded))
                      Hfresh Htaken)).
Defined.

(** An ADMIN before the two role guards. *)
Lemma requireAdmin_requireOwner_witness :
  orgRole (Sample.role_request (Some "ADMIN")) = Some (role_name ADMIN)
  /\ RoleGuards.requireAdmin (Sample.role_request (Some "ADMIN"))
     = Next (Sample.role_request (Some "ADMIN"))
  /\ RoleGuards.requireOwner (Sample.role_request (Some "ADMIN"))
     = Respond (errorResponse "Insufficient role. Required one of: OWNER"
                              (Some 403) (Some "ROLE_DENIED")).
Proof.
  assert (Hrole : orgRole (Sample.role_request (Some "ADMIN"))
                  = Some (role_name ADMIN)) by reflexivity.
  split; [exact Hrole|].
  destruct (proj1 (requireAdmin_requireOwner
                     (Sample.role_request (Some "ADMIN"))) ADMIN Hrole)
    as (Hadmin & _ & Howner & _).
  split; [apply Hadmin; now right|apply Howner; discriminate].
Defined.

(** MEMBER is listed for task:delete, so ADMIN is. *)
Lemma permissions_closed_upwards_witness :
  In (role_name MEMBER)
     (PermissionMiddleware.permissions PermissionMiddleware.task_delete)
  /\ (RoleGuards.rank MEMBER <= RoleGuards.rank ADMIN)%nat
  /\ In (role_name ADMIN)
        (PermissionMiddleware.permissions PermissionMiddleware.task_delete).
Proof.
  assert (Hin : In (role_name MEMBER)
                   (PermissionMiddleware.permissions
                      PermissionMiddleware.task_delete))
    by (simpl; tauto).
  assert (Hle : (RoleGuards.rank MEMBER <= RoleGuards.rank ADMIN)%nat)
    by (simpl; lia).
  split; [exact Hin|]. split; [exact Hle|].
  exact (proj1 (permissions_closed_upwards PermissionMiddleware.task_delete)
               MEMBER ADMIN Hin Hle).
Defined.

(** Alice, ADMIN of "o1", deletes a project there. *)
Lemma tenant_chain_sound_witness :
  Routes.tenant_chain Sample.verifyAccessToken PermissionMiddleware.project_delete
    5 (db Sample.world0) (Sample2.chain_request "at.u1" (Some "o1"))
  = Next (set_tenant
            (set_user (Sample2.chain_request "at.u1" (Some "o1"))
                      (mkTokenPayload "u1" "" None None))
            "o1" "ADMIN")
  /\ exists (m : OrganizationMember) (org : Organization),
       membership_row (db Sample.world0) "o1" "u1" m
       /\ organization_row (db Sample.world0) "o1" org
       /\ org_subscriptionStatus org = ACTIVE
       /\ In (role_name (om_role m))
             (PermissionMiddleware.permissions PermissionMiddleware.project_delete).
Proof.
  assert (Hpass :
            Routes.tenant_chain Sample.verifyAccessToken
              PermissionMiddleware.project_delete 5 (db Sample.world0)
              (Sample2.chain_request "at.u1" (Some "o1"))
            = Next (set_tenant
                      (set_user (Sample2.chain_request "at.u1" (Some "o1"))
                                (mkTokenPayload "u1" "" None None))
                      "o1" "ADMIN")) by reflexivity.
  split; [exact Hpass|].
  destruct (proj1 (tenant_chain_sound Sample.verifyAccessToken
                     PermissionMiddleware.project_delete 5 (db Sample.world0)
                     (Sample2.chain_request "at.u1" (Some "o1"))) _ Hpass)
    as (tok & p & o & m & org & _ & _ & Horeq & _ & Hm & Horg & Hact & Hin
        & Hu & _).
  simpl in Hu, Horeq. inversion Hu; subst p. inversion Horeq; subst o.
  exists m, org. split; [exact Hm|]. split; [exact Horg|].
  split; [exact Hact|exact Hin].
Defined.


(** "t2" is not selected: toggling it twice gives the board back. *)
Lemma toggleTaskSelection_flips_witness :
  ~ In "t2" (TaskStore.selectedTasks Sample2.board)
  /\ TaskStore.toggleTaskSelection "t2"
       (TaskStore.toggleTaskSelection "t2" Sample2.board) = Sample2.board.
Proof.
  assert (Hnin : ~ In "t2" (TaskStore.selectedTasks Sample2.board)).
  { intros [H|[]]. discriminate. }
  split; [exact Hnin|].
  exact (proj1 (proj2 (proj2 (proj2
           (toggleTaskSelection_flips (string * string) unit "t2" Sample2.board))))
               Hnin).
Defined.

(** No task of the board has the id "t9". *)
Lemma updateTask_touches_id_only_witness :
  (forall x, In x (TaskStore.tasks Sample2.board) -> Sample2.task_id x <> "t9")
  /\ TaskStore.updateTask Sample2.task_id Sample2.retitle "t9" "Rest" Sample2.board
     = Sample2.board.
Proof.
  assert (Hnone : forall x, In x (TaskStore.tasks Sample2.board) ->
                            Sample2.task_id x <> "t9").
  { intros x [H|[H|[]]]; subst x; discriminate. }
  split; [exact Hnone|].
  exact (proj2 (proj2 (updateTask_touches_id_only (string * string)
                         Sample2.task_id string Sample2.retitle unit
                         "t9" "Rest" Sample2.board))
               Hnone).
Defined.
